(** * PoseRehab dataset-construction pipeline: shallow embedding and properties

    The development embeds the preprocessing code of three scripts:

    - [src/ml/preprocess.py]            (module [Preprocess]),
    - [src/ml/preprocess_full.py]       (module [PreprocessFull]),
    - [src/scripts/preprocess_fitness_dataset.py] (module [Fitness]).

    Conventions of the embedding.

    - NumPy [float32] values are modelled by real numbers ([R]): arithmetic is
      exact, there is no rounding, no NaN and no infinity. The quotient by
      the extent of the bounding box is kept partial ([Numpy.divide]): on an
      axis without extent the numerators are zero as well, and a total
      division would hide the zero divisor that the code guards against.
    - A Python exception and a Python [None] result are both failures of a
      computation; where the source distinguishes them the embedding uses a
      three-valued [outcome], elsewhere [option].
    - A JSON document is modelled after decoding, by a record whose fields are
      [option]s: [None] stands for an absent key (a [KeyError] in the source).
      The annotation schema fixes the nesting depth of the coordinate arrays,
      so coordinates are lists of rows of numbers. *)

From Stdlib Require Import String Ascii.
From Stdlib Require Import Reals Lra Lia Bool Arith ZArith QArith Qround.
From Stdlib Require Import List Permutation.
Import ListNotations.

Local Open Scope R_scope.

(** ** Python-level results *)

(** Result of a call that may return a value, return [None], or raise. *)
Inductive outcome (A : Type) : Type :=
| Returned (a : A)
| ReturnedNone
| Raised.

Arguments Returned {A} a.
Arguments ReturnedNone {A}.
Arguments Raised {A}.

(** [try: ... except Exception: return None] around a raising computation. *)
Definition except_none {A : Type} (o : outcome A) : option A :=
  match o with
  | Returned a => Some a
  | ReturnedNone => None
  | Raised => None
  end.

(** Bind for computations that can only raise. *)
Definition bind_raise {A B : Type} (o : option A) (k : A -> outcome B) : outcome B :=
  match o with
  | Some a => k a
  | None => Raised
  end.

Notation "'let?' x ':=' o 'in' k" := (bind_raise o (fun x => k))
  (at level 10, x pattern, o at level 100, k at level 200).

(** ** NumPy fragment *)

Module Numpy.

(** Boolean comparison of floats, [x > y]. *)
Definition Rgtb (x y : R) : bool := if Rgt_dec x y then true else false.

(** Boolean comparison of floats, [x < y]. *)
Definition Rltb (x y : R) : bool := if Rlt_dec x y then true else false.

(** All rows of a nested list have the width of the first one. *)
Definition same_width (rows : list (list R)) : bool :=
  match rows with
  | [] => true
  | r :: rest => forallb (fun r' => Nat.eqb (length r') (length r)) rest
  end.

(** [np.array(rows, dtype=np.float32)] on a list of rows of numbers: ragged
    input raises [ValueError]. *)
Definition array2 (rows : list (list R)) : option (list (list R)) :=
  if same_width rows then Some rows else None.

(** Number of columns of a two-dimensional array; [None] when the array has
    no second axis (the empty list converts to shape [(0,)]). *)
Definition width (a : list (list R)) : option nat :=
  match a with
  | [] => None
  | r :: _ => Some (length r)
  end.

(** [a.flatten()]. *)
Definition flatten (a : list (list R)) : list R := concat a.

(** In-place [a[:, 0] /= w; a[:, 1] /= h] on one row that has both columns. *)
Definition scale_row (w h : R) (row : list R) : list R :=
  match row with
  | x :: y :: rest => (x / w) :: (y / h) :: rest
  | _ => row
  end.

(** Three-component rows. *)
Definition vec3 : Type := R * R * R.

Definition vx (p : vec3) : R := fst (fst p).
Definition vy (p : vec3) : R := snd (fst p).
Definition vz (p : vec3) : R := snd p.

Definition Rsum (l : list R) : R := fold_right Rplus 0 l.

(** [a.mean(axis=0)] on an [(n, 3)] array. *)
Definition mean3 (a : list vec3) : vec3 :=
  let n := INR (length a) in
  (Rsum (map vx a) / n, Rsum (map vy a) / n, Rsum (map vz a) / n).

(** [(a - c) / s] with broadcasting of the row [c] and of the scalar [s]. *)
Definition center_scale3 (c : vec3) (s : R) (a : list vec3) : list vec3 :=
  map (fun p => ((vx p - vx c) / s, (vy p - vy c) / s, (vz p - vz c) / s)) a.

Definition flatten3 (a : list vec3) : list R :=
  flat_map (fun p => [vx p; vy p; vz p]) a.

(** [np.deg2rad]. *)
Definition deg2rad (d : R) : R := d * (PI / 180).

(** [a[mask]]: rows selected by a boolean mask; a mask of another length
    raises [IndexError]. *)
Fixpoint mask_select {A : Type} (a : list A) (mask : list bool) : option (list A) :=
  match a, mask with
  | [], [] => Some []
  | x :: a', b :: mask' =>
      match mask_select a' mask' with
      | Some r => Some (if b then x :: r else r)
      | None => None
      end
  | _, _ => None
  end.

(** [a[mask] = values]: the rows selected by the mask are overwritten, in
    order, with the rows of [values]. *)
Fixpoint mask_assign {A : Type} (a : list A) (mask : list bool) (values : list A) : list A :=
  match a, mask with
  | x :: a', b :: mask' =>
      if b then
        match values with
        | v :: values' => v :: mask_assign a' mask' values'
        | [] => x :: mask_assign a' mask' []
        end
      else x :: mask_assign a' mask' values
  | _, _ => a
  end.

(** [arr.min()] and [arr.max()] of a one-dimensional array; the empty case
    raises in NumPy and is never reached by the callers below. *)
Definition amin (l : list R) : R :=
  match l with
  | [] => 0
  | x :: t => fold_left Rmin t x
  end.

Definition amax (l : list R) : R :=
  match l with
  | [] => 0
  | x :: t => fold_left Rmax t x
  end.

(** [np.clip(x, lo, hi)]. *)
Definition clip (x lo hi : R) : R := Rmin (Rmax x lo) hi.

(** [a / b] where the divisor is computed from the data: on a zero divisor
    float32 gives NaN or an infinity, which is no real number, and the
    quotient has no value. *)
Definition divide (a b : R) : option R :=
  if Req_dec_T b 0 then None else Some (a / b).

End Numpy.

(** ** Decoded annotation files of the pose-estimation corpus *)

Module Json.

Record info := {
  action_category_id : option string;
  actor_id : option string;
  camera_no : option string
}.

(** One entry of a 3D joint: a bare number or a one-column row. *)
Inductive cell : Type :=
| Num (x : R)
| Arr (l : list R).

Record annotations := {
  frame_no : option string;
  pos_2d : option (list (list R));
  pos_3d : option (list (list cell));
  rot_3d : option (list (list cell))
}.

(** [data = json.load(f)]. *)
Record document := {
  doc_info : option info;
  doc_annotations : option annotations
}.

(** [joint[k][0]] for a joint in the nested form [[x], [y], [z], [1.0]]. *)
Definition nested_at (joint : list cell) (k : nat) : option R :=
  match nth_error joint k with
  | Some (Arr (x :: _)) => Some x
  | _ => None
  end.

(** Conversion of a scalar position by [np.array(..., dtype=np.float32)]. *)
Definition scalar (c : cell) : option R :=
  match c with
  | Num x => Some x
  | Arr _ => None
  end.

End Json.

(** A file on disk: [None] when it cannot be opened or decoded. *)
Definition file_content : Type := option Json.document.

(** Text [a ++ "_" ++ b] and the like, as produced by the f-strings. *)
Definition underscore (a b : string) : string := (a ++ "_" ++ b)%string.

(** ** File system under the 3D label directory *)

Module Fs.

(** A directory entry below the 3D root. *)
Inductive entry : Type :=
| File (content : file_content)
| Dir (children : list (string * file_content)).

(** The 3D root directory, in the order [iterdir()] lists it. *)
Definition root : Type := list (string * entry).

(** A path below the root: folder and file name. *)
Definition path : Type := (string * string)%type.

Fixpoint lookup {A : Type} (name : string) (l : list (string * A)) : option A :=
  match l with
  | [] => None
  | (n, a) :: rest => if String.eqb n name then Some a else lookup name rest
  end.

(** [(root / folder).exists()]. *)
Definition exists_entry (r : root) (folder : string) : bool :=
  match lookup folder r with
  | Some _ => true
  | None => false
  end.

(** [(root / folder / name).exists()]. *)
Definition exists_file (r : root) (p : path) : bool :=
  match lookup (fst p) r with
  | Some (Dir children) =>
      match lookup (snd p) children with
      | Some _ => true
      | None => false
      end
  | _ => false
  end.

(** [open(root / folder / name)] followed by [json.load]. *)
Definition read (r : root) (p : path) : file_content :=
  match lookup (fst p) r with
  | Some (Dir children) =>
      match lookup (snd p) children with
      | Some c => c
      | None => None
      end
  | _ => None
  end.

Definition is_dir (e : entry) : bool :=
  match e with
  | Dir _ => true
  | File _ => false
  end.

End Fs.

(** A 2D annotation file found by directory listing: its stem (file name
    without the extension) and its content. *)
Record file_2d := {
  stem : string;
  content_2d : file_content
}.

(** [mapM] in the option monad: the first failing element fails the loop. *)
Fixpoint traverse {A B : Type} (f : A -> option B) (l : list A) : option (list B) :=
  match l with
  | [] => Some []
  | x :: rest =>
      match f x, traverse f rest with
      | Some y, Some ys => Some (y :: ys)
      | _, _ => None
      end
  end.

(** Constants shared by both pose-estimation scripts. *)
Definition NUM_JOINTS : nat := 24.
Definition IMG_WIDTH : R := 1920.
Definition IMG_HEIGHT : R := 1080.
Definition POSE_3D_SCALE : R := 1000.

(** ** src/ml/preprocess.py *)

Module Preprocess.

Record parsed_2d := {
  action_id : string;
  actor_id : string;
  camera_no : string;
  frame_no : string;
  coords_2d : list R
}.

Record parsed_3d := {
  action_id_3d : string;
  actor_id_3d : string;
  frame_no_3d : string;
  coords_3d : list R;
  coords_rot : list R
}.

(** [parse_2d_json]: the function has no [None] result; every failure is an
    exception left to the caller. *)
Definition parse_2d_json (f : file_content) : outcome parsed_2d :=
  let? data := f in
  let? info := Json.doc_info data in
  let? annotations := Json.doc_annotations data in
  let? raw := Json.pos_2d annotations in
  let? coords := Numpy.array2 raw in
  let? w := Numpy.width coords in
  if Nat.leb 2 w then
    let coords := map (Numpy.scale_row IMG_WIDTH IMG_HEIGHT) coords in
    let? action := Json.action_category_id info in
    let? actor := Json.actor_id info in
    let? camera := Json.camera_no info in
    let? frame := Json.frame_no annotations in
    Returned {| action_id := action; actor_id := actor; camera_no := camera;
                frame_no := frame; coords_2d := Numpy.flatten coords |}
  else Raised.

(** Body of the loops [for joint in raw: x = joint[0][0]; ...]. *)
Definition nested_joint (joint : list Json.cell) : option Numpy.vec3 :=
  match Json.nested_at joint 0, Json.nested_at joint 1, Json.nested_at joint 2 with
  | Some x, Some y, Some z => Some (x, y, z)
  | _, _, _ => None
  end.

(** Centering and scaling of the 3D joints. *)
Definition normalize_3d (coords : list Numpy.vec3) : list Numpy.vec3 :=
  let center := Numpy.mean3 coords in
  Numpy.center_scale3 center POSE_3D_SCALE coords.

Definition parse_3d_json (f : file_content) : outcome parsed_3d :=
  let? data := f in
  let? info := Json.doc_info data in
  let? annotations := Json.doc_annotations data in
  let? raw_3d_pos := Json.pos_3d annotations in
  let? coords := traverse nested_joint raw_3d_pos in
  let coords := normalize_3d coords in
  let? raw_3d_rot := Json.rot_3d annotations in
  let? rot := traverse nested_joint raw_3d_rot in
  let rot := map (fun p => (Numpy.deg2rad (Numpy.vx p), Numpy.deg2rad (Numpy.vy p),
                            Numpy.deg2rad (Numpy.vz p))) rot in
  let? action := Json.action_category_id info in
  let? actor := Json.actor_id info in
  let? frame := Json.frame_no annotations in
  Returned {| action_id_3d := action; actor_id_3d := actor; frame_no_3d := frame;
              coords_3d := Numpy.flatten3 coords; coords_rot := Numpy.flatten3 rot |}.

(** Name of the 3D file of a key: [3D_{action}_{actor}_{frame}.json]. *)
Definition pattern_3d (action actor frame : string) : string :=
  ("3D_" ++ action ++ "_" ++ actor ++ "_" ++ frame ++ ".json")%string.

(** The loop [for folder in label_3d_dir.iterdir()] of the fallback search. *)
Fixpoint scan_folders (r : Fs.root) (pattern : string) (listing : list (string * Fs.entry))
  : option Fs.path :=
  match listing with
  | [] => None
  | (folder, e) :: rest =>
      if Fs.is_dir e && Fs.exists_file r (folder, pattern)
      then Some (folder, pattern)
      else scan_folders r pattern rest
  end.

Definition find_matching_3d_file (label_3d_dir : Fs.root) (action actor frame : string)
  : option Fs.path :=
  let pattern := pattern_3d action actor frame in
  let actor_folder := underscore action actor in
  if Fs.exists_entry label_3d_dir actor_folder
     && Fs.exists_file label_3d_dir (actor_folder, pattern)
  then Some (actor_folder, pattern)
  else scan_folders label_3d_dir pattern label_3d_dir.

(** Accumulators of the main loop of [preprocess_data]. *)
Record accumulator := {
  data_2d : list (list R);
  data_3d : list (list R);
  data_rot : list (list R);
  matched_count : nat
}.

Definition initial : accumulator :=
  {| data_2d := []; data_3d := []; data_rot := []; matched_count := 0 |}.

(** One iteration of the loop: the body is wrapped in [try/except Exception],
    whose handler prints the error and continues. *)
Definition step (label_3d_dir : Fs.root) (acc : accumulator) (file : file_2d) : accumulator :=
  match parse_2d_json (content_2d file) with
  | Returned p2 =>
      match find_matching_3d_file label_3d_dir (action_id p2) (actor_id p2) (frame_no p2) with
      | None => acc
      | Some file_3d =>
          match parse_3d_json (Fs.read label_3d_dir file_3d) with
          | Returned p3 =>
              {| data_2d := data_2d acc ++ [coords_2d p2];
                 data_3d := data_3d acc ++ [coords_3d p3];
                 data_rot := data_rot acc ++ [coords_rot p3];
                 matched_count := S (matched_count acc) |}
          | _ => acc
          end
      end
  | _ => acc
  end.

(** The main loop of [preprocess_data] over the collected 2D files. *)
Definition preprocess_data (label_3d_dir : Fs.root) (all_2d_files : list file_2d) : accumulator :=
  fold_left (step label_3d_dir) all_2d_files initial.

End Preprocess.

(** ** src/ml/preprocess_full.py *)

Module PreprocessFull.

Record parsed_2d := {
  action : string;
  actor : string;
  frame : string;
  coords_2d : list R
}.

Record parsed_3d := {
  coords_3d : list R
}.

(** [s.split(sep)] for a one-character separator. *)
Fixpoint split_on (sep : ascii) (s : string) : list string :=
  match s with
  | EmptyString => [EmptyString]
  | String c rest =>
      if Ascii.eqb c sep then EmptyString :: split_on sep rest
      else match split_on sep rest with
           | h :: t => String c h :: t
           | [] => [String c EmptyString]
           end
  end.

(** Body of [parse_2d_json] inside its [try] block. *)
Definition parse_2d_body (file : file_2d) : outcome parsed_2d :=
  let? data := content_2d file in
  let? info := Json.doc_info data in
  let? annotations := Json.doc_annotations data in
  let? raw := Json.pos_2d annotations in
  let? coords := Numpy.array2 raw in
  if negb (Nat.eqb (length coords) NUM_JOINTS) then ReturnedNone
  else
    let? w := Numpy.width coords in
    if Nat.leb 2 w then
      let coords := map (Numpy.scale_row IMG_WIDTH IMG_HEIGHT) coords in
      let parts := split_on "_"%char (stem file) in
      if Nat.ltb (length parts) 4 then ReturnedNone
      else
        let? action := nth_error parts 0 in
        let? actor := nth_error parts 1 in
        let? frame := nth_error parts 3 in
        Returned {| action := action; actor := actor; frame := frame;
                    coords_2d := Numpy.flatten coords |}
    else Raised.

Definition parse_2d_json (file : file_2d) : option parsed_2d :=
  except_none (parse_2d_body file).

(** One iteration of [for joint in raw_3d_pos]; the conversion of the bare
    entries to [float32], done by [np.array] after the loop, is folded into
    the iteration. *)
Definition joint_xyz (joint : list Json.cell) : option Numpy.vec3 :=
  match nth_error joint 0 with
  | None => None
  | Some (Json.Arr _) => Preprocess.nested_joint joint
  | Some (Json.Num x) =>
      match nth_error joint 1, nth_error joint 2 with
      | Some c1, Some c2 =>
          match Json.scalar c1, Json.scalar c2 with
          | Some y, Some z => Some (x, y, z)
          | _, _ => None
          end
      | _, _ => None
      end
  end.

Definition normalize_3d (coords : list Numpy.vec3) : list Numpy.vec3 :=
  let center := Numpy.mean3 coords in
  Numpy.center_scale3 center POSE_3D_SCALE coords.

(** Body of [parse_3d_json] inside its [try] block. *)
Definition parse_3d_body (f : file_content) : outcome parsed_3d :=
  let? data := f in
  let? annotations := Json.doc_annotations data in
  let? raw_3d_pos := Json.pos_3d annotations in
  let? coords := traverse joint_xyz raw_3d_pos in
  if negb (Nat.eqb (length coords) NUM_JOINTS) then ReturnedNone
  else
    let coords := normalize_3d coords in
    Returned {| coords_3d := Numpy.flatten3 coords |}.

Definition parse_3d_json (f : file_content) : option parsed_3d :=
  except_none (parse_3d_body f).

Definition get_3d_file_path (dir_3d : Fs.root) (action actor frame : string)
  : option Fs.path :=
  let folder_name := underscore action actor in
  let file_name := Preprocess.pattern_3d action actor frame in
  if Fs.exists_file dir_3d (folder_name, file_name)
  then Some (folder_name, file_name)
  else None.

(** Accumulators and counters of the loop of [process_dataset]. *)
Record tally := {
  data_2d : list (list R);
  data_3d : list (list R);
  matched : nat;
  skipped_2d : nat;
  skipped_3d_not_found : nat;
  skipped_3d_parse : nat
}.

Definition initial : tally :=
  {| data_2d := []; data_3d := []; matched := 0; skipped_2d := 0;
     skipped_3d_not_found := 0; skipped_3d_parse := 0 |}.

Definition step (dir_3d : Fs.root) (t : tally) (file : file_2d) : tally :=
  match parse_2d_json file with
  | None =>
      {| data_2d := data_2d t; data_3d := data_3d t; matched := matched t;
         skipped_2d := S (skipped_2d t);
         skipped_3d_not_found := skipped_3d_not_found t;
         skipped_3d_parse := skipped_3d_parse t |}
  | Some result_2d =>
      match get_3d_file_path dir_3d (action result_2d) (actor result_2d) (frame result_2d) with
      | None =>
          {| data_2d := data_2d t; data_3d := data_3d t; matched := matched t;
             skipped_2d := skipped_2d t;
             skipped_3d_not_found := S (skipped_3d_not_found t);
             skipped_3d_parse := skipped_3d_parse t |}
      | Some file_3d =>
          match parse_3d_json (Fs.read dir_3d file_3d) with
          | None =>
              {| data_2d := data_2d t; data_3d := data_3d t; matched := matched t;
                 skipped_2d := skipped_2d t;
                 skipped_3d_not_found := skipped_3d_not_found t;
                 skipped_3d_parse := S (skipped_3d_parse t) |}
          | Some result_3d =>
              {| data_2d := data_2d t ++ [coords_2d result_2d];
                 data_3d := data_3d t ++ [coords_3d result_3d];
                 matched := S (matched t);
                 skipped_2d := skipped_2d t;
                 skipped_3d_not_found := skipped_3d_not_found t;
                 skipped_3d_parse := skipped_3d_parse t |}
          end
      end
  end.

(** [files_2d[:max_samples]] under the guard [if max_samples:]. *)
Definition limit (max_samples : option nat) (files : list file_2d) : list file_2d :=
  match max_samples with
  | None => files
  | Some 0%nat => files
  | Some n => firstn n files
  end.

(** [process_dataset]: a missing 2D or 3D directory ends the call before the
    loop; otherwise the loop runs over the listed 2D files. *)
Definition process_dataset (dir_2d : option (list file_2d)) (dir_3d : option Fs.root)
           (max_samples : option nat) : tally :=
  match dir_2d, dir_3d with
  | Some files_2d, Some root_3d =>
      fold_left (step root_3d) (limit max_samples files_2d) initial
  | _, _ => initial
  end.

End PreprocessFull.

(** ** src/scripts/preprocess_fitness_dataset.py *)

Module Fitness.

(** A point of the image plane, one row of a [(24, 2)] array. *)
Definition point : Type := R * R.

(** [KeypointData]. *)
Record KeypointData := {
  coordinates : list point;
  visibility : list R
}.

(** A Python dictionary with string keys, in insertion order. *)
Definition dict (A : Type) : Type := list (string * A).

Definition get {A : Type} (d : dict A) (key : string) : option A := Fs.lookup key d.

Definition KEYPOINT_NAMES : list string := [
  "Nose"; "Left Eye"; "Right Eye"; "Left Ear"; "Right Ear";
  "Left Shoulder"; "Right Shoulder"; "Left Elbow"; "Right Elbow";
  "Left Wrist"; "Right Wrist"; "Left Hip"; "Right Hip";
  "Left Knee"; "Right Knee"; "Left Ankle"; "Right Ankle";
  "Neck"; "Left Palm"; "Right Palm"; "Back"; "Waist";
  "Left Foot"; "Right Foot"
]%string.

(** [{name: idx for idx, name in enumerate(names)}]. *)
Fixpoint enumerate_from {A : Type} (start : nat) (l : list A) : list (A * nat) :=
  match l with
  | [] => []
  | x :: rest => (x, start) :: enumerate_from (S start) rest
  end.

Definition KEYPOINT_INDICES : dict nat := enumerate_from 0 KEYPOINT_NAMES.

Definition PTS_KEY_MAPPING : dict nat := enumerate_from 0 KEYPOINT_NAMES.

Definition EXERCISE_NAME_MAP : list (string * string) := [
  ("스쿼트", "Squat");
  ("바벨 스쿼트", "Squat");
  ("바벨 스쿼트 ", "Squat");
  ("고블렛 스쿼트", "Squat");
  ("점프 스쿼트 다이나믹 런지", "Lunge");
  ("점프 스쿼트 사이드 다이나믹 런지", "Side Lunge");
  ("런지", "Lunge");
  ("런치", "Lunge");
  ("크로스 런지", "Cross Lunge");
  ("사이드 런지", "Side Lunge");
  ("워킹 런지", "Walking Lunge");
  ("푸시업", "Push Up");
  ("푸쉬업", "Push Up");
  ("니푸시업", "Knee Push Up");
  ("니푸쉬업", "Knee Push Up");
  ("플랭크", "Plank");
  ("플랭크&트위스트", "Plank");
  ("크런치", "Crunch");
  ("바이시클 크런치", "Bicycle Crunch");
  ("바이시클크런치", "Bicycle Crunch");
  ("스탠딩 사이드 크런치", "Standing Side Crunch");
  ("라잉 레그레이즈", "Lying Leg Raise");
  ("라잉레그레이즈", "Lying Leg Raise");
  ("행잉 레그레이즈", "Hanging Leg Raise");
  ("바벨 데드리프트", "Barbell Deadlift");
  ("바벨 컨벤셔널 데드리프트", "Barbell Deadlift");
  ("덤벨 데드리프트", "Dumbbell Deadlift");
  ("스티프 레그 데드리프트", "Stiff Leg Deadlift");
  ("바벨 로우", "Barbell Row");
  ("바벨 로우 ", "Barbell Row");
  ("바벨로우", "Barbell Row");
  ("덤벨 로우", "Dumbbell Bent Over Row");
  ("덤벨 벤트오버 로우", "Dumbbell Bent Over Row");
  ("업라이트로우", "Upright Row");
  ("업라이트 로우", "Upright Row");
  ("프런트 레이즈", "Front Raise");
  ("사이드 레터럴 레이즈", "Side Lateral Raise");
  ("사이드레터럴 레이즈", "Side Lateral Raise");
  ("오버헤드 프레스", "Overhead Press");
  ("오버헤드프레스", "Overhead Press");
  ("숄더 프레스", "Shoulder Press");
  ("힙스러스트", "Hip Thrust");
  ("힙쓰러스트", "Hip Thrust");
  ("굿모닝", "Good Morning");
  ("굿 모닝", "Good Morning");
  ("버피 테스트", "Burpee Test");
  ("버피테스트", "Burpee Test");
  ("스탠딩 니업", "Standing Knee Up");
  ("Y - Exercise", "Y Exercise")
]%string.
Definition TARGET_EXERCISES : list string := [
  "Squat"; "Lunge"; "Cross Lunge"; "Side Lunge"; "Push Up"; "Knee Push Up"; "Plank"; "Crunch"; "Bicycle Crunch"; "Standing Side Crunch"; "Lying Leg Raise"; "Barbell Deadlift"; "Barbell Row"; "Dumbbell Bent Over Row"; "Upright Row"; "Front Raise"; "Side Lateral Raise"; "Overhead Press"; "Hip Thrust"; "Good Morning"; "Burpee Test"
]%string.

(** [d[key] = v]: a key already present keeps its place and takes the new
    value, a new key goes to the end. *)
Fixpoint dict_set {A : Type} (d : dict A) (key : string) (v : A) : dict A :=
  match d with
  | [] => [(key, v)]
  | (k, a) :: rest =>
      if String.eqb k key then (k, v) :: rest else (k, a) :: dict_set rest key v
  end.

(** [{name: idx for idx, name in enumerate(exercise_names)}]: the items are
    assigned in order, so a repeated name ends with its last index. *)
Definition create_exercise_id_map (exercise_names : list string) : dict nat :=
  fold_left (fun d entry => dict_set d (fst entry) (snd entry))
            (enumerate_from 0 exercise_names) [].

(** [needle in hay] on strings. *)
Fixpoint contains (needle hay : string) : bool :=
  if String.prefix needle hay then true
  else match hay with
       | EmptyString => false
       | String _ rest => contains needle rest
       end.

(** The loop of the substring fallback over the items of the table. *)
Fixpoint partial_match (korean_name : string) (items : list (string * string))
  : option string :=
  match items with
  | [] => None
  | (kr_name, en_name) :: rest =>
      if contains kr_name korean_name || contains korean_name kr_name
      then Some en_name
      else partial_match korean_name rest
  end.

Definition get_english_exercise_name (korean_name : string) : option string :=
  match get EXERCISE_NAME_MAP korean_name with
  | Some en_name => Some en_name
  | None => partial_match korean_name EXERCISE_NAME_MAP
  end.

(** *** Decoded fitness annotation files *)

(** A JSON scalar, as the value of a condition. *)
Inductive pyvalue : Type :=
| PyNone
| PyBool (b : bool)
| PyNum (q : Q)
| PyStr (s : string).

(** Truth value of a Python object, as tested by [all] and [if]. *)
Definition truthy (v : pyvalue) : bool :=
  match v with
  | PyNone => false
  | PyBool b => b
  | PyNum q => negb (Qeq_bool q 0)
  | PyStr s => negb (String.eqb s "")
  end.

(** One entry of [type_info.conditions]: the ["value"] key may be absent. *)
Record condition := {
  value : option pyvalue
}.

(** A point of [pts]: each coordinate key may be absent ([None]) or hold
    JSON [null] ([Some None]). *)
Record pt := {
  pt_x : option (option R);
  pt_y : option (option R)
}.

Record view := {
  active : option string;
  pts : option (dict (option pt))
}.

(** A frame: the keys [view1] .. [view5], each possibly absent. *)
Definition frame : Type := dict view.

Record type_info := {
  exercise : option string;
  pose : option string;
  key : option string;
  conditions : option (list condition)
}.

Record document := {
  doc_type : option string;
  doc_type_info : option type_info;
  doc_frames : option (list frame)
}.

(** [FrameData]. *)
Record FrameData := {
  keypoints : dict KeypointData;
  active_views : list string
}.

(** [SampleData]. *)
Record SampleData := {
  file_name : string;
  exercise_type : string;
  exercise_name : string;
  exercise_name_kr : string;
  pose_type : string;
  sample_conditions : list condition;
  is_correct : bool;
  frames : list FrameData
}.

(** The body of the loop of [parse_keypoints_from_pts] for one joint: the
    coordinate row and visibility flag it leaves at the joint's index. *)
Definition keypoint_of (pts : dict (option pt)) (kp_name : string) : point * R :=
  match get pts kp_name with
  | Some (Some p) =>
      match pt_x p, pt_y p with
      | Some (Some x_val), Some (Some y_val) => ((x_val, y_val), 1)
      | _, _ => ((0, 0), 0)
      end
  | _ => ((0, 0), 0)
  end.

(** [parse_keypoints_from_pts]: the mapping enumerates the indices in
    order, so the arrays are filled row by row. *)
Definition parse_keypoints_from_pts (pts : dict (option pt)) : KeypointData :=
  let rows := map (fun entry => keypoint_of pts (fst entry)) PTS_KEY_MAPPING in
  {| coordinates := map fst rows; visibility := map snd rows |}.

Definition VIEW_NAMES : list string := ["view1"; "view2"; "view3"; "view4"; "view5"]%string.

Definition str_eq_opt (o : option string) (s : string) : bool :=
  match o with
  | Some s' => String.eqb s' s
  | None => false
  end.

Definition parse_frame (fr : frame) : FrameData :=
  fold_left
    (fun acc view_name =>
       match get fr view_name with
       | Some view_data =>
           match pts view_data with
           | Some p =>
               if str_eq_opt (active view_data) "Yes" then
                 {| keypoints := keypoints acc ++ [(view_name, parse_keypoints_from_pts p)];
                    active_views := active_views acc ++ [view_name] |}
               else acc
           | None => acc
           end
       | None => acc
       end)
    VIEW_NAMES {| keypoints := []; active_views := [] |}.

Definition option_default {A : Type} (d : A) (o : option A) : A :=
  match o with
  | Some a => a
  | None => d
  end.

(** [x in l] on a list of strings. *)
Definition mem (s : string) (l : list string) : bool :=
  existsb (String.eqb s) l.

(** [cond.get('value', False)]. *)
Definition condition_value (c : condition) : pyvalue :=
  option_default (PyBool false) (value c).

(** [all(cond.get('value', False) for cond in conditions) if conditions else False]. *)
Definition derive_is_correct (conds : list condition) : bool :=
  match conds with
  | [] => false
  | _ :: _ => forallb (fun c => truthy (condition_value c)) conds
  end.

Definition is_empty {A : Type} (l : list A) : bool :=
  match l with
  | [] => true
  | _ :: _ => false
  end.

(** [parse_json_file]: [json_name] is the base name of the path, [f] the
    decoded document, [None] when reading or decoding raises. *)
Definition parse_json_file (json_name : string) (f : option document)
           (target_exercises : option (list string)) : option SampleData :=
  match f with
  | None => None
  | Some data =>
      let ti := option_default
                  {| exercise := None; pose := None; key := None; conditions := None |}
                  (doc_type_info data) in
      let exercise_name_kr := option_default "Unknown"%string (exercise ti) in
      match get_english_exercise_name exercise_name_kr with
      | None => None
      | Some exercise_name =>
          if match target_exercises with
             | Some targets => negb (mem exercise_name targets)
             | None => false
             end
          then None
          else
            let pose_type := option_default "Unknown"%string (pose ti) in
            let conds := option_default [] (conditions ti) in
            let correct := derive_is_correct conds in
            let parsed :=
              filter (fun fd => negb (is_empty (active_views fd)))
                     (map parse_frame (option_default [] (doc_frames data))) in
            if is_empty parsed then None
            else Some {| file_name := json_name;
                         exercise_type := exercise_name;
                         exercise_name := exercise_name;
                         exercise_name_kr := exercise_name_kr;
                         pose_type := pose_type;
                         sample_conditions := conds;
                         is_correct := correct;
                         frames := parsed |}
      end
  end.

(** *** Coordinate normalization *)

(** [visibility > 0]. *)
Definition visible_mask_of (visibility : list R) : list bool :=
  map (fun v => Numpy.Rgtb v 0) visibility.

(** [np.any(mask)]. *)
Definition any (mask : list bool) : bool := existsb (fun b => b) mask.

(** [np.where(r > 0, r, 1.0)] on one axis. *)
Definition safe_range (r : R) : R := if Numpy.Rgtb r 0 then r else 1.

(** [(visible_coords - min_xy) / range_xy] on one row. *)
Definition bbox_row (min_x min_y range_x range_y : R) (p : point) : option point :=
  match Numpy.divide (fst p - min_x) range_x, Numpy.divide (snd p - min_y) range_y with
  | Some x, Some y => Some (x, y)
  | _, _ => None
  end.

(** The rows assigned to the visible joints by the ['bbox'] branch; [None]
    when a division has no value. *)
Definition bbox_transform (visible_coords : list point) : option (list point) :=
  let min_x := Numpy.amin (map fst visible_coords) in
  let min_y := Numpy.amin (map snd visible_coords) in
  let max_x := Numpy.amax (map fst visible_coords) in
  let max_y := Numpy.amax (map snd visible_coords) in
  let range_x := safe_range (max_x - min_x) in
  let range_y := safe_range (max_y - min_y) in
  traverse (bbox_row min_x min_y range_x range_y) visible_coords.

(** [np.linalg.norm] of a two-component vector. *)
Definition norm (v : point) : R := sqrt (fst v * fst v + snd v * snd v).

Definition sub (p q : point) : point := (fst p - fst q, snd p - snd q).

Definition SCALE_FLOOR : R := 1 / 1000000.

Definition hip_transform (left_hip right_hip : point) (visible_coords : list point)
  : list point :=
  let hip_center := ((fst left_hip + fst right_hip) / 2,
                     (snd left_hip + snd right_hip) / 2) in
  let scale := norm (sub right_hip left_hip) in
  let scale := if Numpy.Rltb scale SCALE_FLOOR then 1 else scale in
  map (fun p => ((fst p - fst hip_center) / scale, (snd p - snd hip_center) / scale))
      visible_coords.

(** [KEYPOINT_INDICES[name]]; an unknown name raises [KeyError]. *)
Definition keypoint_index (name : string) : option nat := get KEYPOINT_INDICES name.

(** [normalize_coordinates]; [None] stands for an [IndexError] (a mask of
    another length than the array, or an array without the hip rows), or
    for a bounding-box quotient without value. *)
Definition normalize_coordinates (coords : list point) (vis : list R) (method : string)
  : option (list point) :=
  let normalized := coords in
  let visible_mask := visible_mask_of vis in
  if negb (any visible_mask) then Some normalized
  else
    match Numpy.mask_select coords visible_mask with
    | None => None
    | Some visible_coords =>
        if String.eqb method "bbox" then
          match bbox_transform visible_coords with
          | Some rows => Some (Numpy.mask_assign normalized visible_mask rows)
          | None => None
          end
        else if String.eqb method "hip_center" then
          match keypoint_index "Left Hip", keypoint_index "Right Hip" with
          | Some il, Some ir =>
              match nth_error coords il, nth_error coords ir,
                    nth_error vis il, nth_error vis ir with
              | Some left_hip, Some right_hip, Some vl, Some vr =>
                  if Numpy.Rgtb vl 0 && Numpy.Rgtb vr 0 then
                    Some (Numpy.mask_assign normalized visible_mask
                            (hip_transform left_hip right_hip visible_coords))
                  else Some normalized
              | _, _, _, _ => None
              end
          | _, _ => None
          end
        else Some normalized
    end.

(** *** Joint angles *)

Definition dot (v w : point) : R := fst v * fst w + snd v * snd w.

Definition ANGLE_EPS : R := 1 / 100000000.

(** The cosine handed to [np.arccos], after clipping. *)
Definition cos_angle (p1 p2 p3 : point) : R :=
  let v1 := sub p1 p2 in
  let v2 := sub p3 p2 in
  Numpy.clip (dot v1 v2 / (norm v1 * norm v2 + ANGLE_EPS)) (-1) 1.

(** [calc_angle], the angle at the vertex [p2]. *)
Definition calc_angle (p1 p2 p3 : point) : R := acos (cos_angle p1 p2 p3).

Definition angle_definitions : list (string * string * string * string) := [
  ("Left Hip", "Left Knee", "Left Ankle", "Left Knee Angle");
  ("Right Hip", "Right Knee", "Right Ankle", "Right Knee Angle");
  ("Left Shoulder", "Left Elbow", "Left Wrist", "Left Elbow Angle");
  ("Right Shoulder", "Right Elbow", "Right Wrist", "Right Elbow Angle");
  ("Left Elbow", "Left Shoulder", "Left Hip", "Left Shoulder Angle");
  ("Right Elbow", "Right Shoulder", "Right Hip", "Right Shoulder Angle");
  ("Left Shoulder", "Left Hip", "Left Knee", "Left Hip Angle");
  ("Right Shoulder", "Right Hip", "Right Knee", "Right Hip Angle");
  ("Left Shoulder", "Neck", "Right Shoulder", "Neck Angle");
  ("Left Hip", "Waist", "Right Hip", "Waist Angle")
]%string.

(** The test [visibility[i1] > 0 and visibility[i2] > 0 and visibility[i3] > 0];
    [None] is an [IndexError]. The conjunction is evaluated left to right
    and stops at the first false operand. *)
Definition all_visible (vis : list R) (i1 i2 i3 : nat) : option bool :=
  match nth_error vis i1 with
  | None => None
  | Some v1 =>
      if Numpy.Rgtb v1 0 then
        match nth_error vis i2 with
        | None => None
        | Some v2 =>
            if Numpy.Rgtb v2 0 then
              match nth_error vis i3 with
              | None => None
              | Some v3 => Some (Numpy.Rgtb v3 0)
              end
            else Some false
        end
      else Some false
  end.

(** One iteration of the loop over [angle_definitions]. *)
Definition angle_of (coords : list point) (vis : list R)
           (d : string * string * string * string) : option R :=
  let '(kp1_name, kp2_name, kp3_name, _) := d in
  match keypoint_index kp1_name, keypoint_index kp2_name, keypoint_index kp3_name with
  | Some idx1, Some idx2, Some idx3 =>
      match all_visible vis idx1 idx2 idx3 with
      | None => None
      | Some true =>
          match nth_error coords idx1, nth_error coords idx2, nth_error coords idx3 with
          | Some p1, Some p2, Some p3 => Some (calc_angle p1 p2 p3)
          | _, _, _ => None
          end
      | Some false => Some 0
      end
  | _, _, _ => None
  end.

Definition extract_joint_angles (coords : list point) (vis : list R) : option (list R) :=
  traverse (angle_of coords vis) angle_definitions.

(** [coords.flatten()] on an [(n, 2)] array. *)
Definition flatten2 (a : list point) : list R := flat_map (fun p => [fst p; snd p]) a.

(** [extract_features]; [None] is an exception. *)
Definition extract_features (kp : KeypointData) (feature_type : string) : option (list R) :=
  match normalize_coordinates (coordinates kp) (visibility kp) "bbox" with
  | None => None
  | Some coords =>
      if String.eqb feature_type "coordinates" then Some (flatten2 coords)
      else if String.eqb feature_type "angles" then extract_joint_angles coords (visibility kp)
      else if String.eqb feature_type "hybrid" then
        match extract_joint_angles coords (visibility kp) with
        | Some angles => Some (flatten2 coords ++ angles)
        | None => None
        end
      else None
  end.

(** *** Train / validation / test split *)

(** [int(q)]: truncation toward zero. *)
Definition py_int (q : Q) : Z := Z.quot (Qnum q) (Zpos (Qden q)).

(** A slice bound [i] on a sequence of length [len]: negative bounds count
    from the end, and every bound is clamped to [0 .. len]. *)
Definition slice_bound (len : nat) (i : Z) : nat :=
  if (i <? 0)%Z then Z.to_nat (Z.max 0 (i + Z.of_nat len))
  else Nat.min (Z.to_nat i) len.

(** [l[start:stop]]; an omitted bound is [None]. *)
Definition slice {A : Type} (l : list A) (start stop : option Z) : list A :=
  let len := length l in
  let lo := match start with Some i => slice_bound len i | None => 0%nat end in
  let hi := match stop with Some i => slice_bound len i | None => len end in
  firstn (hi - lo) (skipn lo l).

(** [np.arange(n)]. *)
Definition arange (n : nat) : list nat := seq 0 n.

Record index_split := {
  train_idx : list nat;
  val_idx : list nat;
  test_idx : list nat
}.

Record dataset_split (A : Type) := {
  train : list A;
  val : list A;
  test : list A
}.

Arguments train {A} d.
Arguments val {A} d.
Arguments test {A} d.

Section Splitter.

(** A row of the dataset: the feature vector, both labels and the
    metadata entry found at one index of the four aligned arrays. *)
Variable A : Type.

(** [np.random.seed(s); np.random.shuffle(indices)] as a function of the
    seed and of the array. *)
Variable shuffle : Z -> list nat -> list nat.

(** The branch for 20 samples or more, built on scikit-learn's
    [train_test_split]. *)
Variable stratified_split : list A -> Q -> Q -> Z -> option (dataset_split A).

Definition n_test_of (n_samples : nat) (test_size : Q) : Z :=
  Z.max 1 (py_int (inject_Z (Z.of_nat n_samples) * test_size)).

Definition n_val_of (n_samples : nat) (val_size : Q) : Z :=
  Z.max 1 (py_int (inject_Z (Z.of_nat n_samples) * val_size)).

(** Index arithmetic of the branch [n_samples < 20]. *)
Definition simple_split_indices (n_samples : nat) (test_size val_size : Q)
           (random_state : Z) : index_split :=
  let indices := shuffle random_state (arange n_samples) in
  let n_test := n_test_of n_samples test_size in
  let n_val := n_val_of n_samples val_size in
  let n_train := (Z.of_nat n_samples - n_test - n_val)%Z in
  {| train_idx := slice indices None (Some n_train);
     val_idx := slice indices (Some n_train) (Some (n_train + n_val)%Z);
     test_idx := slice indices (Some (n_train + n_val)%Z) None |}.

(** [X[idx]]: the rows at the given indices; an index out of range raises. *)
Definition take_rows (rows : list A) (idx : list nat) : option (list A) :=
  traverse (nth_error rows) idx.

Definition split_dataset (rows : list A) (test_size val_size : Q) (random_state : Z)
  : option (dataset_split A) :=
  let n_samples := length rows in
  if Nat.ltb n_samples 20 then
    let s := simple_split_indices n_samples test_size val_size random_state in
    match take_rows rows (train_idx s), take_rows rows (val_idx s),
          take_rows rows (test_idx s) with
    | Some tr, Some va, Some te => Some {| train := tr; val := va; test := te |}
    | _, _, _ => None
    end
  else stratified_split rows test_size val_size random_state.

End Splitter.

(** *** Dataset assembly *)










End Fitness.

(** ** src/ml/preprocess.py, after the loop of [preprocess_data] *)

Module PreprocessSplit.

(** The arrays saved to [processed_data.npz]. *)
Record arrays := {
  X_train : list (list R);
  X_val : list (list R);
  Y_train : list (list R);
  Y_val : list (list R);
  R_train : list (list R);
  R_val : list (list R)
}.

Section Finish.

(** [np.random.seed(s); np.random.permutation(n)] as a function of the seed
    and of the length. *)
Variable permutation : Z -> nat -> list nat.

(** [int(len(X) * 0.8)], the product taken exactly. *)
Definition split_idx_of (n : nat) : Z :=
  Fitness.py_int (inject_Z (Z.of_nat n) * (8 # 10)).

(** The part of [preprocess_data] that follows the loop: a plain [return]
    when nothing was matched, the conversion of the three lists to arrays,
    which raises on rows of different lengths, and the 80/20 split by a
    seeded permutation of the indices. *)
Definition finish (acc : Preprocess.accumulator) : outcome arrays :=
  if Nat.eqb (Preprocess.matched_count acc) 0 then ReturnedNone
  else
    let? X := Numpy.array2 (Preprocess.data_2d acc) in
    let? Y := Numpy.array2 (Preprocess.data_3d acc) in
    let? Rot := Numpy.array2 (Preprocess.data_rot acc) in
    let indices := permutation 42 (length X) in
    let split_idx := split_idx_of (length X) in
    let train_idx := Fitness.slice indices None (Some split_idx) in
    let val_idx := Fitness.slice indices (Some split_idx) None in
    let? x_train := Fitness.take_rows (list R) X train_idx in
    let? x_val := Fitness.take_rows (list R) X val_idx in
    let? y_train := Fitness.take_rows (list R) Y train_idx in
    let? y_val := Fitness.take_rows (list R) Y val_idx in
    let? r_train := Fitness.take_rows (list R) Rot train_idx in
    let? r_val := Fitness.take_rows (list R) Rot val_idx in
    Returned {| X_train := x_train; X_val := x_val; Y_train := y_train; Y_val := y_val;
                R_train := r_train; R_val := r_val |}.

(** [preprocess_data] as a whole. *)
Definition preprocess_data (label_3d_dir : Fs.root) (all_2d_files : list file_2d)
  : outcome arrays :=
  finish (Preprocess.preprocess_data label_3d_dir all_2d_files).

End Finish.

End PreprocessSplit.

(** * Vocabulary of the statements and example inputs *)

(** The decoded [annotations['2d_pos']] of a file, when present. *)
Definition raw_2d (f : file_content) : option (list (list R)) :=
  match f with
  | Some data =>
      match Json.doc_annotations data with
      | Some ann => Json.pos_2d ann
      | None => None
      end
  | None => None
  end.

(** The decoded [annotations['3d_pos']] of a file, when present. *)
Definition raw_3d (f : file_content) : option (list (list Json.cell)) :=
  match f with
  | Some data =>
      match Json.doc_annotations data with
      | Some ann => Json.pos_3d ann
      | None => None
      end
  | None => None
  end.

(** A 2D annotation document of key (70, M180D, camera 3, frame 0). *)
Definition example_doc_2d (rows : list (list R)) : file_content :=
  Some {| Json.doc_info :=
            Some {| Json.action_category_id := Some "70"%string;
                    Json.actor_id := Some "M180D"%string;
                    Json.camera_no := Some "3"%string |};
          Json.doc_annotations :=
            Some {| Json.frame_no := Some "0"%string;
                    Json.pos_2d := Some rows;
                    Json.pos_3d := None;
                    Json.rot_3d := None |} |}.

Definition example_file_2d (rows : list (list R)) : file_2d :=
  {| stem := "70_M180D_3_0"%string; content_2d := example_doc_2d rows |}.

(** A 3D annotation document of key (70, M180D, frame 0); the rotations
    repeat the positions. *)
Definition example_doc_3d (joints : list (list Json.cell)) : file_content :=
  Some {| Json.doc_info :=
            Some {| Json.action_category_id := Some "70"%string;
                    Json.actor_id := Some "M180D"%string;
                    Json.camera_no := None |};
          Json.doc_annotations :=
            Some {| Json.frame_no := Some "0"%string;
                    Json.pos_2d := None;
                    Json.pos_3d := Some joints;
                    Json.rot_3d := Some joints |} |}.

(** A joint in the nested form [[x], [y], [z], [1.0]]. *)
Definition nested (x y z : R) : list Json.cell :=
  [Json.Arr [x]; Json.Arr [y]; Json.Arr [z]; Json.Arr [1]].

(** The joints read from a 3D file by the per-joint extraction [extract],
    before any normalization. *)
Definition decoded_joints (extract : list Json.cell -> option Numpy.vec3) (f : file_content)
  : option (list Numpy.vec3) :=
  match raw_3d f with
  | Some raw => traverse extract raw
  | None => None
  end.

(** A joint entry of a 3D file in the nested form: its first three cells
    are lists that start with the coordinates [x], [y] and [z]. *)
Inductive reads_nested : list Json.cell -> R * R * R -> Prop :=
| reads_nested_joint (x y z : R) (xs ys zs : list R) (rest : list Json.cell) :
    reads_nested (Json.Arr (x :: xs) :: Json.Arr (y :: ys) :: Json.Arr (z :: zs) :: rest)
                 (x, y, z).

(** A joint entry in the flat form: its first three cells are the numbers
    [x], [y] and [z]. *)
Inductive reads_flat : list Json.cell -> R * R * R -> Prop :=
| reads_flat_joint (x y z : R) (rest : list Json.cell) :
    reads_flat (Json.Num x :: Json.Num y :: Json.Num z :: rest) (x, y, z).

(** A joint entry in either form. *)
Definition reads_joint (joint : list Json.cell) (p : R * R * R) : Prop :=
  reads_nested joint p \/ reads_flat joint p.

(** Sum of a list of numbers. *)
Definition total (l : list R) : R := fold_right Rplus 0 l.

(** The centroid of a list of joints: on each axis, the sum of the
    coordinates of all the joints divided by the number of joints. *)
Definition centroid (joints : list (R * R * R)) : R * R * R :=
  let n := INR (length joints) in
  (total (map (fun p => fst (fst p)) joints) / n,
   total (map (fun p => snd (fst p)) joints) / n,
   total (map (fun p => snd p) joints) / n).

(** [(p - c) / 1000], componentwise. *)
Definition centered (c p : R * R * R) : R * R * R :=
  ((fst (fst p) - fst (fst c)) / 1000, (snd (fst p) - snd (fst c)) / 1000,
   (snd p - snd c) / 1000).

(** The coordinates of a list of joints in a row: [x], [y], [z] of the
    first joint, then of the second, and so on. *)
Definition in_a_row (joints : list (R * R * R)) : list R :=
  flat_map (fun p => [fst (fst p); snd (fst p); snd p]) joints.

(** The output [out] holds, joint after joint, the coordinates of [joints]
    minus their centroid, divided by 1000; the centered joints have the
    origin as centroid; for joints of centroid (100, 200, 300) that is
    [(raw - (100, 200, 300)) / 1000]. *)
Definition centered_on_centroid (joints : list (R * R * R)) (out : list R) : Prop :=
  out = in_a_row (map (centered (centroid joints)) joints) /\
  (joints <> [] -> centroid (map (centered (centroid joints)) joints) = (0, 0, 0)) /\
  (centroid joints = (100, 200, 300) ->
   out = in_a_row (map (centered (100, 200, 300)) joints) /\
   centroid (map (centered (100, 200, 300)) joints) = (0, 0, 0)).

(** Twenty-four joints of centroid (100, 200, 300): twelve at the origin and
    twelve at (200, 400, 600). *)
Definition example_joints : list (list Json.cell) :=
  repeat (nested 0 0 0) 12 ++ repeat (nested 200 400 600) 12.

(** The coordinates written in [example_joints]. *)
Definition example_points : list (R * R * R) :=
  repeat (0, 0, 0) 12 ++ repeat (200, 400, 600) 12.

(** Twenty-four rows: twelve at (100, 50), eleven at (300, 50) and a last,
    unobserved joint left at the placeholder (0, 0). *)
Definition example_coords : list Fitness.point :=
  repeat (100, 50) 12 ++ repeat (300, 50) 11 ++ [(0, 0)].

Definition example_vis : list R := repeat 1 23 ++ [0].

(** Visibility with the right hip (row 12) unobserved. *)
Definition example_vis_no_right_hip : list R := repeat 1 12 ++ [0] ++ repeat 1 11.

(** The condition list of a decoded file: [type_info.get('conditions', [])]. *)
Definition file_conditions (f : option Fitness.document) : list Fitness.condition :=
  match f with
  | Some data =>
      match Fitness.doc_type_info data with
      | Some ti => Fitness.option_default [] (Fitness.conditions ti)
      | None => []
      end
  | None => []
  end.

(** The value of a condition is true: the condition carries the JSON
    [true] or, for a file that stores something else than a boolean, a
    number other than zero or a text that is not empty. A condition without
    value, or with [null] or [false], is not true. *)
Definition condition_true (c : Fitness.condition) : Prop :=
  match Fitness.value c with
  | Some (Fitness.PyBool b) => b = true
  | Some (Fitness.PyNum q) => ~ (q == 0)%Q
  | Some (Fitness.PyStr s) => s <> ""%string
  | Some Fitness.PyNone => False
  | None => False
  end.

(** A view in which the nose and the neck were annotated. *)
Definition example_view : Fitness.view :=
  {| Fitness.active := Some "Yes"%string;
     Fitness.pts :=
       Some [("Nose"%string,
              Some {| Fitness.pt_x := Some (Some 1052); Fitness.pt_y := Some (Some 332) |});
             ("Neck"%string,
              Some {| Fitness.pt_x := Some (Some 1050); Fitness.pt_y := Some (Some 400) |})] |}.

(** A squat file of one frame with the given conditions. *)
Definition example_fitness_doc (conds : list Fitness.condition) : option Fitness.document :=
  Some {| Fitness.doc_type := None;
          Fitness.doc_type_info :=
            Some {| Fitness.exercise := Some "스쿼트"%string;
                    Fitness.pose := Some "standing"%string;
                    Fitness.key := Some "015"%string;
                    Fitness.conditions := Some conds |};
          Fitness.doc_frames := Some [[("view1"%string, example_view)]] |}.

Definition cond_of (b : bool) : Fitness.condition :=
  {| Fitness.value := Some (Fitness.PyBool b) |}.

(** Three points of the plane lie on one line: the cross product of the two
    vectors from the middle point vanishes. *)
Definition collinear (p1 p2 p3 : Fitness.point) : Prop :=
  (fst p1 - fst p2) * (snd p3 - snd p2) - (snd p1 - snd p2) * (fst p3 - fst p2) = 0.

(** Every name of the angle table is a keypoint name. *)
Definition resolved (d : string * string * string * string) : bool :=
  let '(kp1, kp2, kp3, _) := d in
  match Fitness.keypoint_index kp1, Fitness.keypoint_index kp2, Fitness.keypoint_index kp3 with
  | Some _, Some _, Some _ => true
  | _, _, _ => false
  end.

(** The visibility test of one triplet, on arrays of 24 entries. *)
Definition visible3 (vis : list R) (i1 i2 i3 : nat) : bool :=
  Numpy.Rgtb (nth i1 vis 0) 0 && Numpy.Rgtb (nth i2 vis 0) 0 && Numpy.Rgtb (nth i3 vis 0) 0.

(** The identity, a generator that leaves every array in place. *)
Definition no_shuffle (seed : Z) (l : list nat) : list nat := l.

(** The stratified branch is not reached below 20 rows. *)
Definition unreachable_split (rows : list string) (t v : Q) (seed : Z)
  : option (Fitness.dataset_split string) := None.

(** The test made on each listed entry by the fallback scan. *)
Definition holds_pattern (r : Fs.root) (pattern : string) (fe : string * Fs.entry) : bool :=
  Fs.is_dir (snd fe) && Fs.exists_file r (fst fe, pattern).

(** A 3D root with the folder of actor M180D for action 70 and a second
    folder holding a file of frame 7. *)
Definition example_root : Fs.root :=
  [("70_M180D"%string,
    Fs.Dir [(Preprocess.pattern_3d "70" "M180D" "0", example_doc_3d example_joints)]);
   ("batch_01"%string,
    Fs.Dir [(Preprocess.pattern_3d "70" "M180D" "7", example_doc_3d example_joints)])].

(** What becomes of one 2D file in the loop of [process_dataset]. *)
Inductive fate : Type :=
| Matched
| Rejected2D
| Unmatched3D
| Rejected3D.

Definition fate_eqb (a b : fate) : bool :=
  match a, b with
  | Matched, Matched | Rejected2D, Rejected2D
  | Unmatched3D, Unmatched3D | Rejected3D, Rejected3D => true
  | _, _ => false
  end.

Definition fate_of (dir_3d : Fs.root) (file : file_2d) : fate :=
  match PreprocessFull.parse_2d_json file with
  | None => Rejected2D
  | Some r2 =>
      match PreprocessFull.get_3d_file_path dir_3d (PreprocessFull.action r2)
              (PreprocessFull.actor r2) (PreprocessFull.frame r2) with
      | None => Unmatched3D
      | Some file_3d =>
          match PreprocessFull.parse_3d_json (Fs.read dir_3d file_3d) with
          | None => Rejected3D
          | Some _ => Matched
          end
      end
  end.

(** Number of files of a given fate. *)
Definition count_fate (dir_3d : Fs.root) (x : fate) (files : list file_2d) : nat :=
  length (filter (fun f => fate_eqb (fate_of dir_3d f) x) files).

(** A well-formed 2D file of key (70, M180D, 0) with 24 joints. *)
Definition example_good_2d : file_2d := example_file_2d (repeat [960; 540] 24).

(** No character of [s] is the separator [sep]. *)
Fixpoint free_of (sep : ascii) (s : string) : bool :=
  match s with
  | EmptyString => true
  | String c rest => negb (Ascii.eqb c sep) && free_of sep rest
  end.

(** The joint [name] is annotated in [pts]: the entry is present, not null,
    and has both coordinates, neither of them null. *)
Definition annotated (pts : Fitness.dict (option Fitness.pt)) (name : string) : bool :=
  match Fitness.get pts name with
  | Some (Some p) =>
      match Fitness.pt_x p, Fitness.pt_y p with
      | Some (Some _), Some (Some _) => true
      | _, _ => false
      end
  | _ => false
  end.

(** The view [v] of a frame is taken: present, active and with points. *)
Definition view_is_active (fr : Fitness.frame) (v : string) : bool :=
  match Fitness.get fr v with
  | Some view_data =>
      match Fitness.pts view_data with
      | Some _ => Fitness.str_eq_opt (Fitness.active view_data) "Yes"
      | None => false
      end
  | None => false
  end.

(** The keypoints parsed from the view [v] of a frame. *)
Definition view_keypoints (fr : Fitness.frame) (v : string) : Fitness.KeypointData :=
  match Fitness.get fr v with
  | Some view_data =>
      match Fitness.pts view_data with
      | Some p => Fitness.parse_keypoints_from_pts p
      | None => Fitness.parse_keypoints_from_pts []
      end
  | None => Fitness.parse_keypoints_from_pts []
  end.

(** Arrays of one skeleton: 24 coordinate rows and 24 visibility flags. *)
Definition skeleton_shaped (kp : Fitness.KeypointData) : Prop :=
  length (Fitness.coordinates kp) = 24%nat /\ length (Fitness.visibility kp) = 24%nat.

(** [type_info.get('exercise', 'Unknown')] of a decoded fitness file. *)
Definition file_exercise_kr (data : Fitness.document) : string :=
  match Fitness.doc_type_info data with
  | Some ti => Fitness.option_default "Unknown"%string (Fitness.exercise ti)
  | None => "Unknown"%string
  end.

(** [data.get('frames', [])] of a decoded fitness file. *)
Definition file_frames (data : Fitness.document) : list Fitness.frame :=
  Fitness.option_default [] (Fitness.doc_frames data).

(** The frame has at least one view that is taken. *)
Definition frame_usable (fr : Fitness.frame) : bool :=
  negb (Fitness.is_empty (filter (view_is_active fr) Fitness.VIEW_NAMES)).

(** The scale of hip-center normalization: the distance between the hips,
    replaced by 1 below the floor of [1e-6]. *)
Definition hip_scale (left_hip right_hip : Fitness.point) : R :=
  if Numpy.Rltb (Fitness.norm (Fitness.sub right_hip left_hip)) Fitness.SCALE_FLOOR
  then 1 else Fitness.norm (Fitness.sub right_hip left_hip).

(** The image of one visible row under hip-center normalization. *)
Definition hip_row (left_hip right_hip p : Fitness.point) : Fitness.point :=
  ((fst p - (fst left_hip + fst right_hip) / 2) / hip_scale left_hip right_hip,
   (snd p - (snd left_hip + snd right_hip) / 2) / hip_scale left_hip right_hip).






(** A joint written in the nested form [[x], [y], [z], [1.0]]. *)
Definition nested_form (p : Numpy.vec3) : list Json.cell :=
  [Json.Arr [Numpy.vx p]; Json.Arr [Numpy.vy p]; Json.Arr [Numpy.vz p]; Json.Arr [1]].

(** A joint written in the flat form [x, y, z, 1.0]. *)
Definition flat_form (p : Numpy.vec3) : list Json.cell :=
  [Json.Num (Numpy.vx p); Json.Num (Numpy.vy p); Json.Num (Numpy.vz p); Json.Num 1].

(** A pixel written as a row [x, y]. *)
Definition pixel_row (p : R * R) : list R := [fst p; snd p].

(** The 2D row that one file contributes to the loop of [preprocess_data]
    of [preprocess.py]: the file parses, a 3D file is found for its key and
    that file parses. *)
Definition matched_row (r : Fs.root) (f : file_2d) : option (list R) :=
  match Preprocess.parse_2d_json (content_2d f) with
  | Returned p2 =>
      match Preprocess.find_matching_3d_file r (Preprocess.action_id p2)
              (Preprocess.actor_id p2) (Preprocess.frame_no p2) with
      | Some file_3d =>
          match Preprocess.parse_3d_json (Fs.read r file_3d) with
          | Returned _ => Some (Preprocess.coords_2d p2)
          | _ => None
          end
      | None => None
      end
  | _ => None
  end.

(** The rows contributed by a list of files, in order. *)
Definition matched_rows (r : Fs.root) (files : list file_2d) : list (list R) :=
  flat_map (fun f => match matched_row r f with Some row => [row] | None => [] end) files.

(** Number of 2D files accounted for by the counters of [process_dataset]. *)
Definition files_counted (t : PreprocessFull.tally) : nat :=
  (PreprocessFull.matched t + PreprocessFull.skipped_2d t
   + PreprocessFull.skipped_3d_not_found t + PreprocessFull.skipped_3d_parse t)%nat.

(** A row translated by [(min_x, min_y)] and divided by [(range_x, range_y)]. *)
Definition bbox_point (min_x min_y range_x range_y : R) (p : Fitness.point) : Fitness.point :=
  ((fst p - min_x) / range_x, (snd p - min_y) / range_y).

(** The visible rows after bbox normalization, as a total function. *)
Definition bbox_rows (sel : list Fitness.point) : list Fitness.point :=
  map (bbox_point (Numpy.amin (map fst sel)) (Numpy.amin (map snd sel))
                  (Fitness.safe_range (Numpy.amax (map fst sel) - Numpy.amin (map fst sel)))
                  (Fitness.safe_range (Numpy.amax (map snd sel) - Numpy.amin (map snd sel))))
      sel.

(** [mn] and [mx] are the least and the greatest value that [axis] takes on
    the visible rows among the 24 rows of [coords]. *)
Definition axis_bounds (coords : list Fitness.point) (vis : list R)
           (axis : Fitness.point -> R) (mn mx : R) : Prop :=
  (exists i, (i < 24)%nat /\ nth i vis 0 > 0 /\ axis (nth i coords (0, 0)) = mn) /\
  (exists i, (i < 24)%nat /\ nth i vis 0 > 0 /\ axis (nth i coords (0, 0)) = mx) /\
  (forall i, (i < 24)%nat -> nth i vis 0 > 0 -> mn <= axis (nth i coords (0, 0)) <= mx).

(** The divisor of an axis of extent [mx - mn]: the extent when it is
    positive, 1 when it is zero. *)
Definition axis_divisor (mn mx d : R) : Prop :=
  d > 0 /\ (mx - mn > 0 -> d = mx - mn) /\ (mx - mn = 0 -> d = 1).

(** * Properties *)

(** ** The definitions at work *)

Example split_on_stem :
  PreprocessFull.split_on "_" "70_M180D_3_0" = ["70"; "M180D"; "3"; "0"]%string.
Proof. reflexivity. Qed.

Example split_on_adjacent_separators :
  PreprocessFull.split_on "_" "a__b" = ["a"; ""; "b"]%string.
Proof. reflexivity. Qed.

Example exercise_name_exact :
  Fitness.get_english_exercise_name "바벨 스쿼트 " = Some "Squat"%string.
Proof. reflexivity. Qed.

(** A name outside the table that contains the key of the first entry. *)
Example exercise_name_by_containment :
  Fitness.get Fitness.EXERCISE_NAME_MAP "와이드 스쿼트" = None /\
  Fitness.get_english_exercise_name "와이드 스쿼트" = Some "Squat"%string.
Proof. split; reflexivity. Qed.

Example exercise_name_unmapped :
  Fitness.get_english_exercise_name "Yoga" = None.
Proof. reflexivity. Qed.

Example keypoint_index_examples :
  Fitness.keypoint_index "Nose" = Some 0%nat /\
  Fitness.keypoint_index "Right Foot" = Some 23%nat /\
  Fitness.keypoint_index "Tail" = None.
Proof. repeat split; reflexivity. Qed.

(** [[0, 1, 2, 3, 4][:-1]], [[...][-2:4]], [[...][3:]] and [[...][4:2]]. *)
Example slice_examples :
  Fitness.slice [0; 1; 2; 3; 4]%nat None (Some (-1)%Z) = [0; 1; 2; 3]%nat /\
  Fitness.slice [0; 1; 2; 3; 4]%nat (Some (-2)%Z) (Some 4%Z) = [3]%nat /\
  Fitness.slice [0; 1; 2; 3; 4]%nat (Some 3%Z) None = [3; 4]%nat /\
  Fitness.slice [0; 1; 2; 3; 4]%nat (Some 4%Z) (Some 2%Z) = [].
Proof. repeat split; reflexivity. Qed.

(** [int(19 * 0.1) = 1] and [int(9 * 0.1) = 0]. *)
Example py_int_examples :
  Fitness.py_int (inject_Z 19 * (1 # 10)) = 1%Z /\ Fitness.py_int (inject_Z 9 * (1 # 10)) = 0%Z.
Proof. split; reflexivity. Qed.

(** Writing back under a mask touches the selected rows only. *)
Example mask_assign_example :
  Numpy.mask_select [10; 20; 30; 40]%nat [true; false; true; false] = Some [10; 30]%nat /\
  Numpy.mask_assign [10; 20; 30; 40]%nat [true; false; true; false] [1; 3]%nat
  = [1; 20; 3; 40]%nat /\
  Numpy.mask_select [10; 20]%nat [true] = None.
Proof. repeat split; reflexivity. Qed.

(** ** Generic lemmas *)

Lemma Rgtb_true (x y : R) : Numpy.Rgtb x y = true <-> x > y.
Proof. unfold Numpy.Rgtb. destruct (Rgt_dec x y); split; intros; try easy. Qed.

Lemma Rgtb_false (x y : R) : Numpy.Rgtb x y = false <-> ~ x > y.
Proof. unfold Numpy.Rgtb. destruct (Rgt_dec x y); split; intros; try easy. Qed.

Lemma traverse_length {A B : Type} (f : A -> option B) (l : list A) (r : list B) :
  traverse f l = Some r -> length r = length l.
Proof.
  revert r. induction l as [|x l IH]; intros r H; simpl in H.
  - now inversion H.
  - destruct (f x); [|discriminate].
    destruct (traverse f l) as [ys|]; [|discriminate].
    inversion H; subst. simpl. now rewrite (IH ys).
Qed.

Lemma traverse_nth {A B : Type} (f : A -> option B) (l : list A) (r : list B) :
  traverse f l = Some r ->
  forall i a, nth_error l i = Some a -> exists b, f a = Some b /\ nth_error r i = Some b.
Proof.
  revert r. induction l as [|x l IH]; intros r H i a Hi.
  - destruct i; discriminate.
  - simpl in H. destruct (f x) as [y|] eqn:Hx; [|discriminate].
    destruct (traverse f l) as [ys|]; [|discriminate].
    inversion H; subst. destruct i as [|i]; simpl in *.
    + inversion Hi; subst. now exists y.
    + now apply (IH ys).
Qed.

Lemma traverse_map {A B C : Type} (g : A -> B) (f : B -> option C) (l : list A) :
  traverse f (map g l) = traverse (fun a => f (g a)) l.
Proof.
  induction l as [|x l IH]; simpl; [reflexivity|]. now rewrite IH.
Qed.

Lemma traverse_total {A B : Type} (f : A -> option B) (g : A -> B) (l : list A) :
  (forall a, f a = Some (g a)) -> traverse f l = Some (map g l).
Proof.
  intros H. induction l as [|x l IH]; simpl; [reflexivity|]. now rewrite H, IH.
Qed.

Lemma flatten3_length (a : list Numpy.vec3) :
  length (Numpy.flatten3 a) = (3 * length a)%nat.
Proof.
  unfold Numpy.flatten3. induction a as [|p a IH]; simpl; [reflexivity|].
  rewrite IH. lia.
Qed.

(** Sum of a centered and scaled column. *)
Lemma Rsum_center_scale {A : Type} (g : A -> R) (m s : R) (a : list A) :
  Numpy.Rsum (map (fun p => (g p - m) / s) a)
  = (Numpy.Rsum (map g a) - INR (length a) * m) / s.
Proof.
  induction a as [|p a IH].
  - simpl. unfold Rdiv. ring.
  - cbn [map Numpy.Rsum fold_right length]. fold (Numpy.Rsum (map (fun p => (g p - m) / s) a)).
    fold (Numpy.Rsum (map g a)). rewrite IH, S_INR. unfold Rdiv. ring.
Qed.

Lemma Rsum_centered_is_zero {A : Type} (g : A -> R) (s : R) (a : list A) :
  a <> [] ->
  Numpy.Rsum (map (fun p => (g p - Numpy.Rsum (map g a) / INR (length a)) / s) a) = 0.
Proof.
  intros Hne. rewrite Rsum_center_scale.
  assert (Hn : INR (length a) <> 0).
  { apply not_0_INR. destruct a; [congruence | simpl; lia]. }
  replace (Numpy.Rsum (map g a) - INR (length a) * (Numpy.Rsum (map g a) / INR (length a)))
    with 0 by (field; exact Hn).
  unfold Rdiv. ring.
Qed.

(** The centroid of centered joints is the origin, whatever the scale. *)
Lemma mean3_center_scale (s : R) (a : list Numpy.vec3) :
  a <> [] ->
  Numpy.mean3 (Numpy.center_scale3 (Numpy.mean3 a) s a) = (0, 0, 0).
Proof.
  intros Hne. unfold Numpy.mean3 at 1. unfold Numpy.center_scale3.
  rewrite !map_map, length_map. cbn [Numpy.vx Numpy.vy Numpy.vz fst snd Numpy.mean3].
  rewrite (Rsum_centered_is_zero Numpy.vx s a Hne).
  rewrite (Rsum_centered_is_zero Numpy.vy s a Hne).
  rewrite (Rsum_centered_is_zero Numpy.vz s a Hne).
  unfold Rdiv. now rewrite !Rmult_0_l.
Qed.

Lemma mean3_nil : Numpy.mean3 [] = (0, 0, 0).
Proof. unfold Numpy.mean3. simpl. unfold Rdiv. now rewrite !Rmult_0_l. Qed.

(** ** Joint count of parsed records *)

(** C1, as stated, fails for [src/ml/preprocess.py]: a 2D file with 23
    coordinate rows is parsed into a record of 23 joints (46 numbers); the
    parser of that script has no joint-count test. *)
Lemma preprocess_parse_2d_json_keeps_23_joints :
  let f := example_doc_2d (repeat [960; 540] 23) in
  (exists raw, raw_2d f = Some raw /\ length raw = 23%nat /\ length raw <> NUM_JOINTS) /\
  (exists rec, Preprocess.parse_2d_json f = Returned rec /\
               length (Preprocess.coords_2d rec) = 46%nat).
Proof.
  split.
  - eexists. split; [reflexivity|]. split; [reflexivity|]. unfold NUM_JOINTS. simpl. lia.
  - eexists. split; reflexivity.
Qed.

(** C1 (amended): in [src/ml/preprocess_full.py], [parse_2d_json] and
    [parse_3d_json] return [None] whenever the coordinate list of the file
    does not have exactly 24 entries; every record they return comes from a
    list of 24 joints, and a 3D record holds 72 numbers. *)
Theorem full_parsers_reject_wrong_joint_count :
  (forall file raw,
      raw_2d (content_2d file) = Some raw -> length raw <> NUM_JOINTS ->
      PreprocessFull.parse_2d_json file = None) /\
  (forall f raw,
      raw_3d f = Some raw -> length raw <> NUM_JOINTS ->
      PreprocessFull.parse_3d_json f = None) /\
  (forall file rec,
      PreprocessFull.parse_2d_json file = Some rec ->
      exists raw, raw_2d (content_2d file) = Some raw /\ length raw = NUM_JOINTS) /\
  (forall f rec,
      PreprocessFull.parse_3d_json f = Some rec ->
      exists raw, raw_3d f = Some raw /\ length raw = NUM_JOINTS /\
                  length (PreprocessFull.coords_3d rec) = (3 * NUM_JOINTS)%nat).
Proof.
  assert (H2 : forall file rec,
             PreprocessFull.parse_2d_json file = Some rec ->
             exists raw, raw_2d (content_2d file) = Some raw /\ length raw = NUM_JOINTS).
  { intros file rec. unfold PreprocessFull.parse_2d_json, PreprocessFull.parse_2d_body, raw_2d.
    destruct (content_2d file) as [data|]; [|discriminate]. simpl.
    destruct (Json.doc_info data); [|discriminate]. simpl.
    destruct (Json.doc_annotations data) as [ann|]; [|discriminate]. simpl.
    destruct (Json.pos_2d ann) as [raw|]; [|discriminate]. simpl.
    unfold Numpy.array2. destruct (Numpy.same_width raw); [|discriminate]. simpl.
    destruct (Nat.eqb (length raw) NUM_JOINTS) eqn:E; simpl; [|discriminate].
    intros _. exists raw. split; [reflexivity|]. now apply Nat.eqb_eq. }
  assert (H3 : forall f rec,
             PreprocessFull.parse_3d_json f = Some rec ->
             exists raw, raw_3d f = Some raw /\ length raw = NUM_JOINTS /\
                         length (PreprocessFull.coords_3d rec) = (3 * NUM_JOINTS)%nat).
  { intros f rec. unfold PreprocessFull.parse_3d_json, PreprocessFull.parse_3d_body, raw_3d.
    destruct f as [data|]; [|discriminate]. simpl.
    destruct (Json.doc_annotations data) as [ann|]; [|discriminate]. simpl.
    destruct (Json.pos_3d ann) as [raw|]; [|discriminate]. simpl.
    destruct (traverse PreprocessFull.joint_xyz raw) as [coords|] eqn:T; [|discriminate].
    simpl. destruct (Nat.eqb (length coords) NUM_JOINTS) eqn:E; simpl; [|discriminate].
    intros H. inversion H; subst; clear H. apply Nat.eqb_eq in E.
    exists raw. split; [reflexivity|]. split.
    - now rewrite <- (traverse_length _ _ _ T).
    - cbn [PreprocessFull.coords_3d]. rewrite flatten3_length.
      unfold PreprocessFull.normalize_3d, Numpy.center_scale3. now rewrite length_map, E. }
  split; [|split; [|split]]; [| |exact H2|exact H3].
  - intros file raw Hraw Hlen.
    destruct (PreprocessFull.parse_2d_json file) as [rec|] eqn:P; [|reflexivity].
    destruct (H2 file rec P) as (raw' & Hraw' & Hlen'). congruence.
  - intros f raw Hraw Hlen.
    destruct (PreprocessFull.parse_3d_json f) as [rec|] eqn:P; [|reflexivity].
    destruct (H3 f rec P) as (raw' & Hraw' & Hlen' & _). congruence.
Qed.

(** The amended C1 at work: the file of 23 rows that [preprocess.py] accepts
    is rejected by [preprocess_full.py], and so is a 3D file of 23 joints. *)
Lemma full_parsers_reject_wrong_joint_count_witness :
  PreprocessFull.parse_2d_json (example_file_2d (repeat [960; 540] 23)) = None /\
  PreprocessFull.parse_3d_json (example_doc_3d (repeat (nested 1 2 3) 23)) = None.
Proof.
  split.
  - apply (proj1 full_parsers_reject_wrong_joint_count
             (example_file_2d (repeat [960; 540] 23)) (repeat [960; 540] 23)).
    + reflexivity.
    + unfold NUM_JOINTS. simpl. lia.
  - apply (proj1 (proj2 full_parsers_reject_wrong_joint_count)
             (example_doc_3d (repeat (nested 1 2 3) 23)) (repeat (nested 1 2 3) 23)).
    + reflexivity.
    + unfold NUM_JOINTS. simpl. lia.
Defined.

(** ** Centering and scaling of 3D joints *)

Lemma mean3_centroid (joints : list Numpy.vec3) : Numpy.mean3 joints = centroid joints.
Proof. reflexivity. Qed.

Lemma normalize_centered_on_centroid (joints : list Numpy.vec3) :
  centered_on_centroid joints
    (Numpy.flatten3 (Numpy.center_scale3 (Numpy.mean3 joints) POSE_3D_SCALE joints)).
Proof.
  assert (Hmap : Numpy.center_scale3 (Numpy.mean3 joints) POSE_3D_SCALE joints
                 = map (centered (centroid joints)) joints) by reflexivity.
  assert (Hzero : joints <> [] ->
                  centroid (map (centered (centroid joints)) joints) = (0, 0, 0)).
  { intros Hne. rewrite <- Hmap, <- mean3_centroid. now apply mean3_center_scale. }
  unfold centered_on_centroid. rewrite Hmap. split; [reflexivity|]. split; [exact Hzero|].
  intros Hc. rewrite <- Hc. split; [reflexivity|]. apply Hzero.
  intros ->. rewrite <- mean3_centroid, mean3_nil in Hc. inversion Hc. lra.
Qed.

Lemma traverse_Forall2 {A B : Type} (f : A -> option B) (P : A -> B -> Prop)
      (l : list A) (r : list B) :
  (forall a b, f a = Some b -> P a b) -> traverse f l = Some r -> Forall2 P l r.
Proof.
  intros Hf. revert r. induction l as [|x l IH]; intros r H; simpl in H.
  - inversion H. constructor.
  - destruct (f x) as [y|] eqn:Hx; [|discriminate].
    destruct (traverse f l) as [ys|]; [|discriminate].
    inversion H; subst. constructor; [now apply Hf|now apply IH].
Qed.

(** What [x = joint[0][0]; y = joint[1][0]; z = joint[2][0]] reads. *)
Lemma nested_joint_reads (joint : list Json.cell) (p : Numpy.vec3) :
  Preprocess.nested_joint joint = Some p -> reads_nested joint p.
Proof.
  unfold Preprocess.nested_joint, Json.nested_at.
  destruct joint as [|[a|[|x xs]] [|[b|[|y ys]] [|[c|[|z zs]] rest]]]; simpl;
    try discriminate.
  intros H. inversion H; subst. constructor.
Qed.

Lemma joint_xyz_reads (joint : list Json.cell) (p : Numpy.vec3) :
  PreprocessFull.joint_xyz joint = Some p -> reads_joint joint p.
Proof.
  unfold PreprocessFull.joint_xyz.
  destruct joint as [|[x|l] rest]; cbn [nth_error]; [discriminate| |].
  - destruct rest as [|[y|?] [|[z|?] rest]]; simpl; try discriminate.
    intros H. inversion H; subst. right. constructor.
  - intros H. left. now apply nested_joint_reads.
Qed.

Lemma Forall2_length_eq {A B : Type} (P : A -> B -> Prop) (l : list A) (r : list B) :
  Forall2 P l r -> length r = length l.
Proof. induction 1; simpl; congruence. Qed.

Lemma in_a_row_length (joints : list (R * R * R)) :
  length (in_a_row joints) = (3 * length joints)%nat.
Proof. exact (flatten3_length joints). Qed.

(** C5, as stated, fails for [src/ml/preprocess.py]: a 3D file that lists
    two joints is parsed into a record of six numbers, the two joints minus
    their own centroid (100, 200, 300), divided by 1000. The centroid is
    taken over the joints that the file lists, which need not be 24. *)
Lemma preprocess_parse_3d_json_centers_two_joints :
  let f := example_doc_3d [nested 0 0 0; nested 200 400 600] in
  (exists raw, raw_3d f = Some raw /\ length raw = 2%nat /\ length raw <> NUM_JOINTS) /\
  centroid [(0, 0, 0); (200, 400, 600)] = (100, 200, 300) /\
  (exists rec,
      Preprocess.parse_3d_json f = Returned rec /\
      Preprocess.coords_3d rec
      = [(0 - 100) / 1000; (0 - 200) / 1000; (0 - 300) / 1000;
         (200 - 100) / 1000; (400 - 200) / 1000; (600 - 300) / 1000]).
Proof.
  cbv zeta. split; [|split].
  - eexists. split; [reflexivity|]. split; [reflexivity|]. unfold NUM_JOINTS. simpl. lia.
  - unfold centroid, total. cbn [map fold_right length fst snd INR]. repeat f_equal; lra.
  - eexists. split; [reflexivity|].
    cbn [Preprocess.coords_3d Preprocess.normalize_3d Numpy.flatten3 Numpy.center_scale3
         Numpy.mean3 Numpy.Rsum Numpy.vx Numpy.vy Numpy.vz map flat_map app fold_right
         length fst snd INR].
    unfold POSE_3D_SCALE. repeat f_equal; lra.
Qed.

(** C5 (amended): a 3D record returned by [parse_3d_json], in
    [preprocess.py] as in [preprocess_full.py], holds three numbers per joint
    of the file: the coordinates of the joint minus the centroid of all the
    joints of the file (their sum divided by their number), divided by 1000.
    For a file with at least one joint the centroid of the normalized joints
    is the origin, and for joints of centroid (100, 200, 300) the output is
    [(raw - (100, 200, 300)) / 1000]. The record of [preprocess_full.py]
    always has 24 joints; the record of [preprocess.py] has as many as the
    file lists. *)
Theorem parse_3d_centers_on_centroid :
  (forall f rec,
      Preprocess.parse_3d_json f = Returned rec ->
      exists raw joints,
        raw_3d f = Some raw /\ Forall2 reads_nested raw joints /\
        length (Preprocess.coords_3d rec) = (3 * length raw)%nat /\
        centered_on_centroid joints (Preprocess.coords_3d rec)) /\
  (forall f rec,
      PreprocessFull.parse_3d_json f = Some rec ->
      exists raw joints,
        raw_3d f = Some raw /\ Forall2 reads_joint raw joints /\
        length raw = 24%nat /\ length (PreprocessFull.coords_3d rec) = 72%nat /\
        centered_on_centroid joints (PreprocessFull.coords_3d rec)).
Proof.
  split.
  - intros f rec. unfold Preprocess.parse_3d_json, raw_3d.
    destruct f as [data|]; [|discriminate]. simpl.
    destruct (Json.doc_info data) as [info|]; [|discriminate]. simpl.
    destruct (Json.doc_annotations data) as [ann|]; [|discriminate]. simpl.
    destruct (Json.pos_3d ann) as [raw|]; [|discriminate]. simpl.
    destruct (traverse Preprocess.nested_joint raw) as [joints|] eqn:T; [|discriminate]. simpl.
    destruct (Json.rot_3d ann) as [rot|]; [|discriminate]. simpl.
    destruct (traverse Preprocess.nested_joint rot); [|discriminate]. simpl.
    destruct (Json.action_category_id info); [|discriminate]. simpl.
    destruct (Json.actor_id info); [|discriminate]. simpl.
    destruct (Json.frame_no ann); [|discriminate]. simpl.
    intros H. inversion H; subst; clear H. exists raw, joints. split; [reflexivity|].
    pose proof (traverse_Forall2 _ reads_nested raw joints nested_joint_reads T) as HF.
    split; [exact HF|]. split; [|apply normalize_centered_on_centroid].
    cbn [Preprocess.coords_3d]. rewrite flatten3_length.
    unfold Preprocess.normalize_3d, Numpy.center_scale3.
    rewrite length_map. apply (f_equal (Nat.mul 3)). exact (Forall2_length_eq _ _ _ HF).
  - intros f rec. unfold PreprocessFull.parse_3d_json, PreprocessFull.parse_3d_body, raw_3d.
    destruct f as [data|]; [|discriminate]. simpl.
    destruct (Json.doc_annotations data) as [ann|]; [|discriminate]. simpl.
    destruct (Json.pos_3d ann) as [raw|]; [|discriminate]. simpl.
    destruct (traverse PreprocessFull.joint_xyz raw) as [joints|] eqn:T; [|discriminate]. simpl.
    destruct (Nat.eqb (length joints) NUM_JOINTS) eqn:E; simpl; [|discriminate].
    apply Nat.eqb_eq in E. unfold NUM_JOINTS in E.
    intros H. inversion H; subst; clear H. exists raw, joints. split; [reflexivity|].
    pose proof (traverse_Forall2 _ reads_joint raw joints joint_xyz_reads T) as HF.
    split; [exact HF|]. split; [rewrite <- E; symmetry; exact (Forall2_length_eq _ _ _ HF)|].
    split; [|apply normalize_centered_on_centroid].
    cbn [PreprocessFull.coords_3d]. rewrite flatten3_length.
    unfold PreprocessFull.normalize_3d, Numpy.center_scale3. now rewrite length_map, E.
Qed.

Lemma reads_nested_points (pts joints : list (R * R * R)) :
  Forall2 reads_nested (map (fun p => nested (fst (fst p)) (snd (fst p)) (snd p)) pts) joints ->
  joints = pts.
Proof.
  revert joints. induction pts as [|[[x y] z] pts IH]; intros joints H; inversion H; subst.
  - reflexivity.
  - f_equal; [|now apply IH].
    match goal with Hr : reads_nested _ _ |- _ => inversion Hr; subst end. reflexivity.
Qed.

Lemma reads_joint_points (pts joints : list (R * R * R)) :
  Forall2 reads_joint (map (fun p => nested (fst (fst p)) (snd (fst p)) (snd p)) pts) joints ->
  joints = pts.
Proof.
  revert joints. induction pts as [|[[x y] z] pts IH]; intros joints H; inversion H; subst.
  - reflexivity.
  - f_equal; [|now apply IH].
    match goal with
    | Hr : reads_joint _ _ |- _ => destruct Hr as [Hr|Hr]; inversion Hr; subst; reflexivity
    end.
Qed.

Lemma example_points_centroid : centroid example_points = (100, 200, 300).
Proof.
  unfold centroid, total, example_points.
  cbn [repeat app map fold_right length fst snd].
  rewrite INR_IZR_INZ. cbn [Z.of_nat Pos.of_succ_nat Pos.succ].
  repeat f_equal; lra.
Qed.

(** C5 at the 24 joints above, of centroid (100, 200, 300), for both
    scripts: the record holds [(raw - (100, 200, 300)) / 1000] and the
    normalized joints have the origin as centroid. *)
Lemma parse_3d_centers_on_centroid_witness :
  centroid example_points = (100, 200, 300) /\
  centroid (map (centered (100, 200, 300)) example_points) = (0, 0, 0) /\
  (exists rec,
      Preprocess.parse_3d_json (example_doc_3d example_joints) = Returned rec /\
      Preprocess.coords_3d rec = in_a_row (map (centered (100, 200, 300)) example_points)) /\
  (exists rec,
      PreprocessFull.parse_3d_json (example_doc_3d example_joints) = Some rec /\
      length (PreprocessFull.coords_3d rec) = 72%nat /\
      PreprocessFull.coords_3d rec
      = in_a_row (map (centered (100, 200, 300)) example_points)).
Proof.
  assert (P1 : exists rec, Preprocess.parse_3d_json (example_doc_3d example_joints)
                           = Returned rec) by (eexists; reflexivity).
  assert (P2 : exists rec, PreprocessFull.parse_3d_json (example_doc_3d example_joints)
                           = Some rec) by (eexists; reflexivity).
  destruct P1 as [rec1 P1]. destruct P2 as [rec2 P2].
  destruct (proj1 parse_3d_centers_on_centroid _ _ P1) as (raw1 & j1 & Hr1 & Hf1 & _ & Hc1).
  destruct (proj2 parse_3d_centers_on_centroid _ _ P2)
    as (raw2 & j2 & Hr2 & Hf2 & _ & Hn2 & Hc2).
  assert (E1 : j1 = example_points).
  { apply reads_nested_points. inversion Hr1; subst raw1. exact Hf1. }
  assert (E2 : j2 = example_points).
  { apply reads_joint_points. inversion Hr2; subst raw2. exact Hf2. }
  subst j1 j2.
  destruct Hc1 as (_ & _ & Hex1). destruct Hc2 as (_ & _ & Hex2).
  destruct (Hex1 example_points_centroid) as [Ho1 Hz1].
  destruct (Hex2 example_points_centroid) as [Ho2 _].
  split; [exact example_points_centroid|]. split; [exact Hz1|]. split.
  - exists rec1. split; [exact P1|exact Ho1].
  - exists rec2. split; [exact P2|]. split; [exact Hn2|exact Ho2].
Defined.

(** ** Boolean-mask indexing *)

Lemma mask_select_defined {A : Type} (a : list A) (mask : list bool) :
  length a = length mask -> exists sel, Numpy.mask_select a mask = Some sel.
Proof.
  revert mask. induction a as [|x a IH]; intros [|b mask] H; simpl in *; try discriminate.
  - now exists [].
  - destruct (IH mask) as [sel Hsel]; [lia|]. rewrite Hsel. eauto.
Qed.

Lemma mask_select_length {A : Type} (a : list A) (mask : list bool) (sel : list A) :
  Numpy.mask_select a mask = Some sel -> length a = length mask.
Proof.
  revert mask sel. induction a as [|x a IH]; intros [|b mask] sel H; simpl in *;
    try discriminate; [reflexivity|].
  destruct (Numpy.mask_select a mask) as [r|] eqn:E; [|discriminate].
  now rewrite (IH mask r).
Qed.

(** Writing [f] of the selected rows back under the same mask updates
    exactly the selected rows, each with its own image. *)
Lemma mask_assign_map_select {A : Type} (f : A -> A) (a : list A) (mask : list bool)
      (sel : list A) :
  Numpy.mask_select a mask = Some sel ->
  Numpy.mask_assign a mask (map f sel)
  = map (fun xb : A * bool => if snd xb then f (fst xb) else fst xb) (combine a mask).
Proof.
  revert mask sel. induction a as [|x a IH]; intros [|b mask] sel H; simpl in *;
    try discriminate; [reflexivity|].
  destruct (Numpy.mask_select a mask) as [r|] eqn:E; [|discriminate].
  inversion H; subst; clear H. destruct b; simpl.
  - now rewrite (IH mask r).
  - now rewrite (IH mask r).
Qed.

Lemma mask_select_In {A : Type} (a : list A) (mask : list bool) (sel : list A) (i : nat)
      (x : A) :
  Numpy.mask_select a mask = Some sel ->
  nth_error a i = Some x -> nth_error mask i = Some true -> In x sel.
Proof.
  revert mask sel i. induction a as [|y a IH]; intros [|b mask] sel i H Ha Hm; simpl in *;
    try discriminate.
  - destruct i; discriminate.
  - destruct (Numpy.mask_select a mask) as [r|] eqn:E; [|discriminate].
    inversion H; subst; clear H. destruct i as [|i]; simpl in *.
    + inversion Ha; inversion Hm; subst. now left.
    + assert (In x r) by (eapply IH; eauto). destruct b; [now right|assumption].
Qed.

Lemma mask_select_source {A : Type} (a : list A) (mask : list bool) (sel : list A) (x : A) :
  Numpy.mask_select a mask = Some sel -> In x sel ->
  exists i, nth_error a i = Some x /\ nth_error mask i = Some true.
Proof.
  revert mask sel. induction a as [|y a IH]; intros [|b mask] sel H Hin; simpl in *;
    try discriminate.
  - inversion H; subst. destruct Hin.
  - destruct (Numpy.mask_select a mask) as [r|] eqn:E; [|discriminate].
    inversion H; subst; clear H.
    assert (Hrest : In x r -> exists i, nth_error (y :: a) i = Some x /\
                                        nth_error (b :: mask) i = Some true).
    { intros Hr. destruct (IH mask r E Hr) as (i & Hi & Hm). now exists (S i). }
    destruct b; [|now apply Hrest].
    destruct Hin as [<-|Hr]; [now exists 0%nat|now apply Hrest].
Qed.

(** ** Minimum and maximum of an array *)

Lemma fold_left_Rmin_In (t : list R) (x0 : R) : In (fold_left Rmin t x0) (x0 :: t).
Proof.
  revert x0. induction t as [|z t IH]; intros x0; cbn [fold_left]; [now left|].
  destruct (IH (Rmin x0 z)) as [H|H]; [|right; now right].
  rewrite <- H. unfold Rmin. destruct (Rle_dec x0 z); [now left|right; now left].
Qed.

Lemma fold_left_Rmax_In (t : list R) (x0 : R) : In (fold_left Rmax t x0) (x0 :: t).
Proof.
  revert x0. induction t as [|z t IH]; intros x0; cbn [fold_left]; [now left|].
  destruct (IH (Rmax x0 z)) as [H|H]; [|right; now right].
  rewrite <- H. unfold Rmax. destruct (Rle_dec x0 z); [right; now left|now left].
Qed.

Lemma amin_In (l : list R) : l <> [] -> In (Numpy.amin l) l.
Proof. destruct l as [|x t]; [congruence|]. intros _. apply fold_left_Rmin_In. Qed.

Lemma amax_In (l : list R) : l <> [] -> In (Numpy.amax l) l.
Proof. destruct l as [|x t]; [congruence|]. intros _. apply fold_left_Rmax_In. Qed.

Lemma fold_left_Rmin_le (t : list R) (x0 : R) :
  fold_left Rmin t x0 <= x0 /\ forall y, In y t -> fold_left Rmin t x0 <= y.
Proof.
  revert x0. induction t as [|z t IH]; intros x0; simpl.
  - split; [lra|intros y []].
  - destruct (IH (Rmin x0 z)) as [H0 H1].
    pose proof (Rmin_l x0 z). pose proof (Rmin_r x0 z). split; [lra|].
    intros y [->|Hy]; [lra|now apply H1].
Qed.

Lemma fold_left_Rmax_ge (t : list R) (x0 : R) :
  x0 <= fold_left Rmax t x0 /\ forall y, In y t -> y <= fold_left Rmax t x0.
Proof.
  revert x0. induction t as [|z t IH]; intros x0; simpl.
  - split; [lra|intros y []].
  - destruct (IH (Rmax x0 z)) as [H0 H1].
    pose proof (Rmax_l x0 z). pose proof (Rmax_r x0 z). split; [lra|].
    intros y [->|Hy]; [lra|now apply H1].
Qed.

Lemma amin_le (l : list R) (x : R) : In x l -> Numpy.amin l <= x.
Proof.
  destruct l as [|x0 t]; [intros []|]. simpl.
  destruct (fold_left_Rmin_le t x0) as [H0 H1]. intros [<-|Hx]; [exact H0|now apply H1].
Qed.

Lemma amax_ge (l : list R) (x : R) : In x l -> x <= Numpy.amax l.
Proof.
  destruct l as [|x0 t]; [intros []|]. simpl.
  destruct (fold_left_Rmax_ge t x0) as [H0 H1]. intros [<-|Hx]; [exact H0|now apply H1].
Qed.

(** ** Bounding-box normalization *)

Lemma safe_range_positive (r : R) : Fitness.safe_range r > 0.
Proof.
  unfold Fitness.safe_range, Numpy.Rgtb. destruct (Rgt_dec r 0); lra.
Qed.

(** An axis without extent is divided by 1. *)
Lemma safe_range_zero_extent (r : R) : r <= 0 -> Fitness.safe_range r = 1.
Proof.
  intros H. unfold Fitness.safe_range, Numpy.Rgtb. destruct (Rgt_dec r 0); [lra|reflexivity].
Qed.

Lemma safe_range_extent (r : R) : r > 0 -> Fitness.safe_range r = r.
Proof.
  intros H. unfold Fitness.safe_range, Numpy.Rgtb. destruct (Rgt_dec r 0); [reflexivity|lra].
Qed.

Lemma bbox_axis_bounds (mn mx x : R) :
  mn <= x <= mx -> 0 <= (x - mn) / Fitness.safe_range (mx - mn) <= 1.
Proof.
  intros [Hlo Hhi]. destruct (Rgt_dec (mx - mn) 0) as [Hpos|Hzero].
  - rewrite (safe_range_extent _ Hpos). split.
    + apply Rmult_le_pos; [lra|]. left. now apply Rinv_0_lt_compat.
    + apply (Rmult_le_reg_r (mx - mn)); [lra|]. unfold Rdiv.
      rewrite Rmult_assoc, Rinv_l by lra. lra.
  - rewrite safe_range_zero_extent by lra. unfold Rdiv. rewrite Rinv_1. lra.
Qed.

Lemma divide_defined (a b : R) : b <> 0 -> Numpy.divide a b = Some (a / b).
Proof. intros H. unfold Numpy.divide. destruct (Req_dec_T b 0); [contradiction|reflexivity]. Qed.

(** The divisors of the ['bbox'] branch are never zero: its quotients all
    have a value. *)
Lemma bbox_transform_rows (sel : list Fitness.point) :
  Fitness.bbox_transform sel = Some (bbox_rows sel).
Proof.
  unfold Fitness.bbox_transform, bbox_rows. apply traverse_total. intros p.
  unfold Fitness.bbox_row, bbox_point.
  pose proof (safe_range_positive (Numpy.amax (map fst sel) - Numpy.amin (map fst sel))) as Hx.
  pose proof (safe_range_positive (Numpy.amax (map snd sel) - Numpy.amin (map snd sel))) as Hy.
  rewrite !divide_defined by lra. reflexivity.
Qed.

Lemma safe_range_divisor (mn mx : R) :
  mn <= mx -> axis_divisor mn mx (Fitness.safe_range (mx - mn)).
Proof.
  intros Hle. split; [apply safe_range_positive|]. split.
  - apply safe_range_extent.
  - intros Hz. apply safe_range_zero_extent. lra.
Qed.

Lemma any_false_iff (mask : list bool) :
  Fitness.any mask = false <-> forall b, In b mask -> b = false.
Proof.
  unfold Fitness.any. induction mask as [|b mask IH]; simpl.
  - split; [intros _ b []|reflexivity].
  - rewrite orb_false_iff, IH. split.
    + intros [Hb H] b' [<-|Hin]; [exact Hb|now apply H].
    + intros H. split; [apply H; now left|]. intros b' Hin. apply H. now right.
Qed.

Lemma visible_mask_nth (vis : list R) (i : nat) :
  (i < length vis)%nat ->
  nth i (Fitness.visible_mask_of vis) false = Numpy.Rgtb (nth i vis 0) 0.
Proof.
  intros Hi. unfold Fitness.visible_mask_of.
  rewrite (nth_indep _ false (Numpy.Rgtb 0 0)) by (now rewrite length_map).
  apply (map_nth (fun v => Numpy.Rgtb v 0)).
Qed.

Lemma any_visible (vis : list R) (i : nat) :
  (i < length vis)%nat -> nth i vis 0 > 0 -> Fitness.any (Fitness.visible_mask_of vis) = true.
Proof.
  intros Hi Hv. destruct (Fitness.any (Fitness.visible_mask_of vis)) eqn:E; [reflexivity|].
  rewrite any_false_iff in E.
  assert (Hin : In (nth i (Fitness.visible_mask_of vis) false) (Fitness.visible_mask_of vis)).
  { apply nth_In. unfold Fitness.visible_mask_of. now rewrite length_map. }
  apply E in Hin. rewrite visible_mask_nth in Hin by assumption.
  apply Rgtb_false in Hin. contradiction.
Qed.

(** Row [i] of the array written back under the mask. *)
Lemma masked_update_nth (f : Fitness.point -> Fitness.point) (coords : list Fitness.point)
      (vis : list R) (i : nat) :
  length coords = length vis -> (i < length vis)%nat ->
  nth i (map (fun xb : Fitness.point * bool => if snd xb then f (fst xb) else fst xb)
             (combine coords (Fitness.visible_mask_of vis))) (0, 0)
  = if Numpy.Rgtb (nth i vis 0) 0 then f (nth i coords (0, 0)) else nth i coords (0, 0).
Proof.
  intros Hlen Hi.
  set (g := fun xb : Fitness.point * bool => if snd xb then f (fst xb) else fst xb).
  change (0, 0) with (g ((0, 0), false)) at 1.
  rewrite map_nth, combine_nth.
  - unfold g. cbn [fst snd]. now rewrite visible_mask_nth.
  - unfold Fitness.visible_mask_of. now rewrite length_map.
Qed.

(** The least and the greatest coordinate of the visible rows are values
    taken by visible rows and bound all of them. *)
Lemma visible_axis_bounds (coords : list Fitness.point) (vis : list R)
      (visible : list Fitness.point) (axis : Fitness.point -> R) :
  length coords = 24%nat -> length vis = 24%nat ->
  Numpy.mask_select coords (Fitness.visible_mask_of vis) = Some visible ->
  (exists i, (i < 24)%nat /\ nth i vis 0 > 0) ->
  axis_bounds coords vis axis (Numpy.amin (map axis visible)) (Numpy.amax (map axis visible)).
Proof.
  intros Hc Hv Hsel (j & Hj & Hjv).
  assert (Hmask : length coords = length (Fitness.visible_mask_of vis)).
  { unfold Fitness.visible_mask_of. rewrite length_map. congruence. }
  assert (Hvis_in : forall i, (i < 24)%nat -> nth i vis 0 > 0 ->
                              In (nth i coords (0, 0)) visible).
  { intros i Hi Hvi.
    apply (mask_select_In coords (Fitness.visible_mask_of vis) visible i); [exact Hsel| |].
    - apply nth_error_nth'. lia.
    - rewrite (nth_error_nth' _ false) by (rewrite <- Hmask; lia).
      rewrite visible_mask_nth by lia. apply Rgtb_true in Hvi. now rewrite Hvi. }
  assert (Hne : map axis visible <> []).
  { pose proof (Hvis_in j Hj Hjv) as H. destruct visible; [destruct H|discriminate]. }
  assert (Hsrc : forall v, In v (map axis visible) ->
                           exists i, (i < 24)%nat /\ nth i vis 0 > 0 /\
                                     axis (nth i coords (0, 0)) = v).
  { intros v Hin. apply in_map_iff in Hin. destruct Hin as (p & <- & Hp).
    destruct (mask_select_source _ _ _ _ Hsel Hp) as (i & Hi & Hm).
    assert (Hlt : (i < 24)%nat).
    { rewrite <- Hc. apply nth_error_Some. congruence. }
    exists i. split; [exact Hlt|]. split.
    - apply Rgtb_true. rewrite <- visible_mask_nth by lia.
      now apply nth_error_nth.
    - f_equal. now apply nth_error_nth. }
  split; [apply Hsrc, amin_In, Hne|]. split; [apply Hsrc, amax_In, Hne|].
  intros i Hi Hvi. split; [apply amin_le | apply amax_ge]; apply in_map; now apply Hvis_in.
Qed.

(** C2: on 24 rows with at least one visible joint, bbox normalization
    returns 24 rows. With [min] and [max] the least and the greatest
    coordinate of the visible rows on an axis, a visible row is translated by
    [min] and divided by a positive divisor, [max - min] when that extent is
    positive and 1 when it is zero, and lands in [0, 1] on both axes; an
    invisible row is returned as it was. *)
Theorem bbox_normalization_unit_square (coords : list Fitness.point) (vis : list R) :
  length coords = 24%nat -> length vis = 24%nat ->
  (exists i, (i < 24)%nat /\ nth i vis 0 > 0) ->
  exists normalized min_x max_x min_y max_y range_x range_y,
    Fitness.normalize_coordinates coords vis "bbox" = Some normalized /\
    length normalized = 24%nat /\
    axis_bounds coords vis fst min_x max_x /\
    axis_bounds coords vis snd min_y max_y /\
    axis_divisor min_x max_x range_x /\
    axis_divisor min_y max_y range_y /\
    forall i, (i < 24)%nat ->
      let p := nth i coords (0, 0) in
      let q := nth i normalized (0, 0) in
      (nth i vis 0 > 0 ->
       fst q = (fst p - min_x) / range_x /\
       snd q = (snd p - min_y) / range_y /\
       0 <= fst q <= 1 /\ 0 <= snd q <= 1) /\
      (~ nth i vis 0 > 0 -> q = p).
Proof.
  intros Hc Hv Hex.
  assert (Hlen : length coords = length vis) by congruence.
  assert (Hmask : length coords = length (Fitness.visible_mask_of vis)).
  { unfold Fitness.visible_mask_of. now rewrite length_map. }
  destruct (mask_select_defined coords _ Hmask) as [visible Hsel].
  pose proof (visible_axis_bounds coords vis visible fst Hc Hv Hsel Hex) as Bx.
  pose proof (visible_axis_bounds coords vis visible snd Hc Hv Hsel Hex) as By.
  assert (Ex : Numpy.amin (map fst visible) <= Numpy.amax (map fst visible)).
  { destruct Bx as ((i & Hi & Hvi & _) & _ & Hall). destruct (Hall i Hi Hvi).
    eapply Rle_trans; eassumption. }
  assert (Ey : Numpy.amin (map snd visible) <= Numpy.amax (map snd visible)).
  { destruct By as ((i & Hi & Hvi & _) & _ & Hall). destruct (Hall i Hi Hvi).
    eapply Rle_trans; eassumption. }
  destruct Hex as (j & Hj & Hjv).
  exists (Numpy.mask_assign coords (Fitness.visible_mask_of vis) (bbox_rows visible)),
    (Numpy.amin (map fst visible)), (Numpy.amax (map fst visible)),
    (Numpy.amin (map snd visible)), (Numpy.amax (map snd visible)),
    (Fitness.safe_range (Numpy.amax (map fst visible) - Numpy.amin (map fst visible))),
    (Fitness.safe_range (Numpy.amax (map snd visible) - Numpy.amin (map snd visible))).
  split.
  { unfold Fitness.normalize_coordinates.
    rewrite (any_visible vis j) by (assumption || lia). cbn [negb]. rewrite Hsel.
    change (String.eqb "bbox" "bbox") with true. cbv iota.
    now rewrite bbox_transform_rows. }
  unfold bbox_rows. rewrite (mask_assign_map_select _ _ _ _ Hsel).
  split.
  { rewrite length_map, length_combine, <- Hmask, Hc. reflexivity. }
  split; [exact Bx|]. split; [exact By|].
  split; [now apply safe_range_divisor|]. split; [now apply safe_range_divisor|].
  intros i Hi. cbv zeta. rewrite masked_update_nth by (assumption || lia).
  split.
  - intros Hvis. pose proof Hvis as Hb. apply Rgtb_true in Hb. rewrite Hb.
    unfold bbox_point. cbn [fst snd].
    split; [reflexivity|]. split; [reflexivity|]. split.
    + apply bbox_axis_bounds. destruct Bx as (_ & _ & Hall). now apply Hall.
    + apply bbox_axis_bounds. destruct By as (_ & _ & Hall). now apply Hall.
  - intros Hinv. apply Rgtb_false in Hinv. now rewrite Hinv.
Qed.

(** The visible rows of the example pose all have ordinate 50. *)
Lemma example_rows_level (i : nat) :
  (i < 24)%nat -> nth i example_vis 0 > 0 -> snd (nth i example_coords (0, 0)) = 50.
Proof.
  intros Hi Hv.
  do 24 (destruct i as [|i]; [simpl in *; try reflexivity; lra|]). lia.
Qed.

(** C2 at the example pose, whose visible rows have no vertical extent: the
    ordinates are divided by 1. *)
Lemma bbox_normalization_unit_square_witness :
  exists normalized min_x max_x min_y max_y range_x range_y,
    Fitness.normalize_coordinates example_coords example_vis "bbox" = Some normalized /\
    length normalized = 24%nat /\
    axis_bounds example_coords example_vis fst min_x max_x /\
    axis_bounds example_coords example_vis snd min_y max_y /\
    axis_divisor min_x max_x range_x /\
    axis_divisor min_y max_y range_y /\
    (min_y = 50 /\ max_y = 50 /\ range_y = 1) /\
    forall i, (i < 24)%nat ->
      let p := nth i example_coords (0, 0) in
      let q := nth i normalized (0, 0) in
      (nth i example_vis 0 > 0 ->
       fst q = (fst p - min_x) / range_x /\
       snd q = (snd p - min_y) / range_y /\
       0 <= fst q <= 1 /\ 0 <= snd q <= 1) /\
      (~ nth i example_vis 0 > 0 -> q = p).
Proof.
  destruct (bbox_normalization_unit_square example_coords example_vis eq_refl eq_refl)
    as (normalized & min_x & max_x & min_y & max_y & range_x & range_y
        & Hn & Hlen & Bx & By & Dx & Dy & Hrows).
  { exists 0%nat. split; [lia|]. simpl. lra. }
  exists normalized, min_x, max_x, min_y, max_y, range_x, range_y.
  split; [exact Hn|]. split; [exact Hlen|]. split; [exact Bx|]. split; [exact By|].
  split; [exact Dx|]. split; [exact Dy|]. split; [|exact Hrows].
  destruct By as ((i & Hi & Hvi & Ei) & (j & Hj & Hvj & Ej) & _).
  assert (Emin : min_y = 50) by (rewrite <- Ei; now apply example_rows_level).
  assert (Emax : max_y = 50) by (rewrite <- Ej; now apply example_rows_level).
  split; [exact Emin|]. split; [exact Emax|].
  destruct Dy as (_ & _ & Hzero). apply Hzero. rewrite Emin, Emax. lra.
Defined.

(** ** Hip-center normalization and the all-invisible case *)

Lemma keypoint_index_left_hip : Fitness.keypoint_index "Left Hip" = Some 11%nat.
Proof. reflexivity. Qed.

Lemma keypoint_index_right_hip : Fitness.keypoint_index "Right Hip" = Some 12%nat.
Proof. reflexivity. Qed.

(** With no visible joint the function returns its copy of the input before
    it looks at the method. *)
Lemma normalize_nothing_visible (coords : list Fitness.point) (vis : list R) (method : string) :
  (forall v, In v vis -> ~ v > 0) ->
  Fitness.normalize_coordinates coords vis method = Some coords.
Proof.
  intros H. unfold Fitness.normalize_coordinates.
  assert (E : Fitness.any (Fitness.visible_mask_of vis) = false).
  { apply any_false_iff. intros b Hb. unfold Fitness.visible_mask_of in Hb.
    apply in_map_iff in Hb. destruct Hb as (v & <- & Hv).
    apply Rgtb_false. now apply H. }
  now rewrite E.
Qed.

(** C9: on 24 rows, when the left hip (row 11) or the right hip (row 12) is
    not visible, hip-center normalization returns the coordinates it was
    given. *)
Theorem hip_center_skipped_without_both_hips (coords : list Fitness.point) (vis : list R) :
  length coords = 24%nat -> length vis = 24%nat ->
  ~ nth 11 vis 0 > 0 \/ ~ nth 12 vis 0 > 0 ->
  Fitness.normalize_coordinates coords vis "hip_center" = Some coords.
Proof.
  intros Hc Hv Hhip. unfold Fitness.normalize_coordinates.
  destruct (Fitness.any (Fitness.visible_mask_of vis)); [|reflexivity]. cbn [negb].
  assert (Hmask : length coords = length (Fitness.visible_mask_of vis)).
  { unfold Fitness.visible_mask_of. rewrite length_map. congruence. }
  destruct (mask_select_defined coords _ Hmask) as [visible Hsel]. rewrite Hsel.
  change (String.eqb "hip_center" "bbox") with false.
  change (String.eqb "hip_center" "hip_center") with true. cbv iota.
  rewrite keypoint_index_left_hip, keypoint_index_right_hip.
  rewrite (nth_error_nth' coords (0, 0)) by lia.
  rewrite (nth_error_nth' coords (0, 0)) by lia.
  rewrite (nth_error_nth' vis 0) by lia.
  rewrite (nth_error_nth' vis 0) by lia.
  destruct Hhip as [H|H]; apply Rgtb_false in H; rewrite H.
  - reflexivity.
  - now rewrite andb_false_r.
Qed.

(** C9 at a pose whose right hip is not visible. *)
Lemma hip_center_skipped_without_both_hips_witness :
  Fitness.normalize_coordinates example_coords example_vis_no_right_hip "hip_center"
  = Some example_coords.
Proof.
  apply (hip_center_skipped_without_both_hips example_coords example_vis_no_right_hip).
  - reflexivity.
  - reflexivity.
  - right. simpl. lra.
Defined.

(** C10: on 24 rows none of which is visible, [normalize_coordinates]
    returns its input, for the method ['bbox'] as for ['hip_center']. *)
Theorem normalize_identity_when_all_invisible (coords : list Fitness.point) (vis : list R)
        (method : string) :
  length coords = 24%nat -> length vis = 24%nat ->
  method = "bbox"%string \/ method = "hip_center"%string ->
  (forall i, (i < 24)%nat -> ~ nth i vis 0 > 0) ->
  Fitness.normalize_coordinates coords vis method = Some coords.
Proof.
  intros _ Hv _ Hinv. apply normalize_nothing_visible.
  intros v Hin. destruct (In_nth vis v 0 Hin) as (i & Hi & <-). apply Hinv. lia.
Qed.

(** C10 at a pose with no observed joint, for both methods. *)
Lemma normalize_identity_when_all_invisible_witness :
  Fitness.normalize_coordinates example_coords (repeat 0 24) "bbox" = Some example_coords /\
  Fitness.normalize_coordinates example_coords (repeat 0 24) "hip_center"
  = Some example_coords.
Proof.
  assert (Hinv : forall i, (i < 24)%nat -> ~ nth i (repeat 0 24) 0 > 0).
  { intros i _. rewrite nth_repeat. lra. }
  split.
  - apply (normalize_identity_when_all_invisible example_coords (repeat 0 24) "bbox");
      [reflexivity | reflexivity | now left | exact Hinv].
  - apply (normalize_identity_when_all_invisible example_coords (repeat 0 24) "hip_center");
      [reflexivity | reflexivity | now right | exact Hinv].
Defined.

(** ** Correctness label of a fitness sample *)

(** For a condition that carries a JSON boolean, that is the boolean itself. *)
Lemma condition_true_bool (b : bool) : condition_true (cond_of b) <-> b = true.
Proof. unfold condition_true. simpl. tauto. Qed.

(** A condition without a value does not count as true. *)
Lemma condition_true_missing : ~ condition_true {| Fitness.value := None |}.
Proof. unfold condition_true. simpl. tauto. Qed.

(** The truth value that the code reads from a condition is the truth of
    the value stored in the file. *)
Lemma condition_value_truth (c : Fitness.condition) :
  Fitness.truthy (Fitness.condition_value c) = true <-> condition_true c.
Proof.
  unfold condition_true, Fitness.condition_value, Fitness.option_default.
  destruct (Fitness.value c) as [[|b|q|t]|]; cbn [Fitness.truthy].
  - split; [discriminate|tauto].
  - tauto.
  - rewrite negb_true_iff. split.
    + intros H Hq. apply Qeq_bool_iff in Hq. congruence.
    + intros H. destruct (Qeq_bool q 0) eqn:E; [|reflexivity].
      apply Qeq_bool_iff in E. contradiction.
  - rewrite negb_true_iff. split.
    + intros H Ht. subst t. discriminate.
    + intros H. destruct (String.eqb_spec t ""); [contradiction|reflexivity].
  - split; [discriminate|tauto].
Qed.

Lemma derive_is_correct_iff (conds : list Fitness.condition) :
  Fitness.derive_is_correct conds = true <-> conds <> [] /\ Forall condition_true conds.
Proof.
  unfold Fitness.derive_is_correct. destruct conds as [|c conds].
  - split; [discriminate|]. intros [H _]. congruence.
  - rewrite forallb_forall, Forall_forall. split.
    + intros H. split; [discriminate|]. intros x Hx. now apply condition_value_truth, H.
    + intros [_ H] x Hx. now apply condition_value_truth, H.
Qed.

Lemma all_booleans_true (bs : list bool) :
  Forall condition_true (map cond_of bs) <-> forall b, In b bs -> b = true.
Proof.
  rewrite Forall_forall. split.
  - intros H b Hb. apply (proj1 (condition_true_bool b)), H. now apply in_map.
  - intros H c Hc. apply in_map_iff in Hc. destruct Hc as (b & <- & Hb).
    apply (proj2 (condition_true_bool b)). now apply H.
Qed.

(** C3: the sample returned by [parse_json_file] carries the condition list
    of the file, and its [is_correct] is true exactly when that list is not
    empty and the value of every condition is true; for a list of conditions
    that carry booleans, exactly when there is at least one and all the
    booleans are [true]; with an empty list it is false. *)
Theorem is_correct_iff_all_conditions_true (json_name : string)
        (f : option Fitness.document) (target_exercises : option (list string))
        (s : Fitness.SampleData) :
  Fitness.parse_json_file json_name f target_exercises = Some s ->
  Fitness.sample_conditions s = file_conditions f /\
  (Fitness.is_correct s = true <->
   Fitness.sample_conditions s <> [] /\ Forall condition_true (Fitness.sample_conditions s)) /\
  (forall bs, Fitness.sample_conditions s = map cond_of bs ->
              (Fitness.is_correct s = true <-> bs <> [] /\ forall b, In b bs -> b = true)) /\
  (Fitness.sample_conditions s = [] -> Fitness.is_correct s = false).
Proof.
  unfold Fitness.parse_json_file, file_conditions. destruct f as [data|]; [|discriminate].
  set (ti := Fitness.option_default _ (Fitness.doc_type_info data)).
  destruct (Fitness.get_english_exercise_name _) as [en|]; [|discriminate].
  destruct (match target_exercises with Some _ => _ | None => _ end); [discriminate|].
  destruct (Fitness.is_empty _); [discriminate|].
  intros H. inversion H; subst; clear H. cbn [Fitness.sample_conditions Fitness.is_correct].
  assert (E : Fitness.option_default [] (Fitness.conditions ti)
              = match Fitness.doc_type_info data with
                | Some ti0 => Fitness.option_default [] (Fitness.conditions ti0)
                | None => []
                end).
  { subst ti. destruct (Fitness.doc_type_info data); reflexivity. }
  split; [exact E|]. split; [apply derive_is_correct_iff|]. split.
  - intros bs Hbs. rewrite Hbs, derive_is_correct_iff, all_booleans_true.
    split; intros [Hne Hall]; (split; [|exact Hall]).
    + intros ->. now apply Hne.
    + destruct bs; [congruence|discriminate].
  - intros ->. reflexivity.
Qed.

(** C3 at two squat files: two true conditions give a correct posture, a
    true and a false condition an incorrect one. *)
Lemma is_correct_iff_all_conditions_true_witness :
  (exists s,
      Fitness.parse_json_file "D15-1-001.json" (example_fitness_doc [cond_of true; cond_of true])
                              (Some Fitness.TARGET_EXERCISES) = Some s /\
      Fitness.is_correct s = true) /\
  (exists s,
      Fitness.parse_json_file "D15-1-002.json" (example_fitness_doc [cond_of true; cond_of false])
                              (Some Fitness.TARGET_EXERCISES) = Some s /\
      Fitness.is_correct s = false).
Proof.
  split.
  - eexists.
    assert (P : Fitness.parse_json_file "D15-1-001.json"
                  (example_fitness_doc [cond_of true; cond_of true])
                  (Some Fitness.TARGET_EXERCISES) = Some _) by reflexivity.
    split; [exact P|].
    destruct (is_correct_iff_all_conditions_true _ _ _ _ P) as (_ & _ & Hb & _).
    apply (Hb [true; true] eq_refl). split; [discriminate|].
    intros b [<-|[<-|[]]]; reflexivity.
  - eexists.
    assert (P : Fitness.parse_json_file "D15-1-002.json"
                  (example_fitness_doc [cond_of true; cond_of false])
                  (Some Fitness.TARGET_EXERCISES) = Some _) by reflexivity.
    split; [exact P|].
    destruct (is_correct_iff_all_conditions_true _ _ _ _ P) as (_ & _ & Hb & _).
    apply not_true_is_false. intros Hc.
    apply (Hb [true; false] eq_refl) in Hc. destruct Hc as [_ Hall].
    discriminate (Hall false (or_intror (or_introl eq_refl))).
Defined.

(** An empty condition list, and a list with one false condition, give
    [is_correct = False]. *)
Example is_correct_false_examples :
  (exists s, Fitness.parse_json_file "a.json" (example_fitness_doc []) None = Some s /\
             Fitness.is_correct s = false) /\
  (exists s, Fitness.parse_json_file "b.json"
               (example_fitness_doc [cond_of true; cond_of false]) None = Some s /\
             Fitness.is_correct s = false).
Proof. split; eexists; split; reflexivity. Qed.

(** ** Joint angles *)

Lemma clip_inside (x : R) : -1 <= x <= 1 -> Numpy.clip x (-1) 1 = x.
Proof.
  intros [Hlo Hhi]. unfold Numpy.clip.
  rewrite (Rmax_left x (-1)) by lra. now rewrite Rmin_left by lra.
Qed.

Lemma clip_bounds (x : R) : -1 <= Numpy.clip x (-1) 1 <= 1.
Proof.
  unfold Numpy.clip. split.
  - apply Rmin_glb; [|lra]. apply Rmax_r.
  - apply Rmin_r.
Qed.

Lemma norm_nonneg (v : Fitness.point) : 0 <= Fitness.norm v.
Proof. unfold Fitness.norm. apply sqrt_pos. Qed.

Lemma norm_sub_positive (p q : Fitness.point) : p <> q -> 0 < Fitness.norm (Fitness.sub p q).
Proof.
  intros Hne. unfold Fitness.norm, Fitness.sub. cbn [fst snd]. apply sqrt_lt_R0.
  destruct p as [px py], q as [qx qy]. cbn [fst snd].
  assert (Hsq : forall a b : R, a <> b -> 0 < (a - b) * (a - b)).
  { intros a b Hab. apply (Rsqr_pos_lt (a - b)). intros E. apply Hab. lra. }
  pose proof (Rle_0_sqr (px - qx)) as Hx0. pose proof (Rle_0_sqr (py - qy)) as Hy0.
  unfold Rsqr in Hx0, Hy0.
  destruct (Req_dec px qx) as [Hx|Hx].
  - destruct (Req_dec py qy) as [Hy|Hy]; [subst; congruence|].
    pose proof (Hsq py qy Hy). lra.
  - pose proof (Hsq px qx Hx). lra.
Qed.

Lemma angle_eps_positive : 0 < Fitness.ANGLE_EPS.
Proof. unfold Fitness.ANGLE_EPS. lra. Qed.

(** When an end point coincides with the vertex the dot product is zero and
    the denominator is the epsilon alone: the angle is a right angle. *)
Lemma calc_angle_coincident (p1 p2 p3 : Fitness.point) :
  p1 = p2 \/ p3 = p2 -> Fitness.calc_angle p1 p2 p3 = PI / 2.
Proof.
  intros H. unfold Fitness.calc_angle, Fitness.cos_angle.
  assert (D : Fitness.dot (Fitness.sub p1 p2) (Fitness.sub p3 p2) = 0).
  { unfold Fitness.dot, Fitness.sub. cbn [fst snd]. destruct H as [->| ->]; ring. }
  rewrite D. unfold Rdiv. rewrite Rmult_0_l. rewrite clip_inside by lra. apply acos_0.
Qed.

(** Cauchy-Schwarz with equality: for collinear points the dot product of the
    two vectors is, up to sign, the product of their lengths. *)
Lemma dot_of_collinear (p1 p2 p3 : Fitness.point) :
  collinear p1 p2 p3 ->
  let n := Fitness.norm (Fitness.sub p1 p2) * Fitness.norm (Fitness.sub p3 p2) in
  Fitness.dot (Fitness.sub p1 p2) (Fitness.sub p3 p2) = n \/
  Fitness.dot (Fitness.sub p1 p2) (Fitness.sub p3 p2) = - n.
Proof.
  intros Hcol n.
  set (d := Fitness.dot (Fitness.sub p1 p2) (Fitness.sub p3 p2)).
  assert (Hsq : d * d = n * n).
  { unfold n, Fitness.norm. 
    set (s1 := fst (Fitness.sub p1 p2) * fst (Fitness.sub p1 p2)
               + snd (Fitness.sub p1 p2) * snd (Fitness.sub p1 p2)).
    set (s2 := fst (Fitness.sub p3 p2) * fst (Fitness.sub p3 p2)
               + snd (Fitness.sub p3 p2) * snd (Fitness.sub p3 p2)).
    assert (H1 : 0 <= s1) by (unfold s1; nra).
    assert (H2 : 0 <= s2) by (unfold s2; nra).
    replace (sqrt s1 * sqrt s2 * (sqrt s1 * sqrt s2))
      with ((sqrt s1 * sqrt s1) * (sqrt s2 * sqrt s2)) by ring.
    rewrite !sqrt_sqrt by assumption.
    unfold d, s1, s2, Fitness.dot, Fitness.sub. cbn [fst snd].
    unfold collinear in Hcol.
    set (a := fst p1 - fst p2) in *. set (b := snd p1 - snd p2) in *.
    set (c := fst p3 - fst p2) in *. set (e := snd p3 - snd p2) in *.
    replace ((a * a + b * b) * (c * c + e * e))
      with ((a * c + b * e) * (a * c + b * e) + (a * e - b * c) * (a * e - b * c)) by ring.
    rewrite Hcol. ring. }
  assert (Hprod : (d - n) * (d + n) = 0).
  { replace ((d - n) * (d + n)) with (d * d - n * n) by ring. rewrite Hsq. ring. }
  apply Rmult_integral in Hprod. destruct Hprod; [left|right]; lra.
Qed.

(** For collinear points with both end points away from the vertex nothing is
    clipped: the cosine is the signed quotient [n / (n + eps)] and the angle
    lies strictly inside the range of the arc cosine. *)
Lemma calc_angle_collinear_proper (p1 p2 p3 : Fitness.point) :
  collinear p1 p2 p3 -> p1 <> p2 -> p3 <> p2 ->
  let n := Fitness.norm (Fitness.sub p1 p2) * Fitness.norm (Fitness.sub p3 p2) in
  0 < n /\
  (Fitness.cos_angle p1 p2 p3 = n / (n + Fitness.ANGLE_EPS) \/
   Fitness.cos_angle p1 p2 p3 = - (n / (n + Fitness.ANGLE_EPS))) /\
  0 < Fitness.calc_angle p1 p2 p3 < PI.
Proof.
  intros Hcol H1 H3 n.
  assert (Hn : 0 < n).
  { unfold n. apply Rmult_lt_0_compat; now apply norm_sub_positive. }
  pose proof angle_eps_positive as He.
  assert (Hq : 0 < n / (n + Fitness.ANGLE_EPS) < 1).
  { split.
    - apply Rdiv_lt_0_compat; lra.
    - apply (Rmult_lt_reg_r (n + Fitness.ANGLE_EPS)); [lra|].
      unfold Rdiv. rewrite Rmult_assoc, Rinv_l by lra. lra. }
  assert (Hcos : Fitness.cos_angle p1 p2 p3 = n / (n + Fitness.ANGLE_EPS) \/
                 Fitness.cos_angle p1 p2 p3 = - (n / (n + Fitness.ANGLE_EPS))).
  { unfold Fitness.cos_angle. fold n.
    destruct (dot_of_collinear p1 p2 p3 Hcol) as [D|D]; fold n in D; rewrite D.
    - left. apply clip_inside. lra.
    - right. replace (- n / (n + Fitness.ANGLE_EPS)) with (- (n / (n + Fitness.ANGLE_EPS)))
        by (unfold Rdiv; ring).
      apply clip_inside. lra. }
  split; [exact Hn|]. split; [exact Hcos|].
  unfold Fitness.calc_angle. apply acos_bound_lt. destruct Hcos as [-> | ->]; lra.
Qed.

Lemma traverse_defined {A B : Type} (f : A -> option B) (l : list A) :
  (forall a, In a l -> exists b, f a = Some b) -> exists r, traverse f l = Some r.
Proof.
  induction l as [|x l IH]; intros H; simpl.
  - now exists [].
  - destruct (H x) as [y Hy]; [now left|]. rewrite Hy.
    destruct IH as [ys Hys]; [intros a Ha; apply H; now right|]. rewrite Hys. eauto.
Qed.

Lemma enumerate_from_bound (start : nat) (names : list string) (name : string) (i : nat) :
  Fitness.get (Fitness.enumerate_from start names) name = Some i ->
  (start <= i < start + length names)%nat.
Proof.
  revert start. induction names as [|n names IH]; intros start; simpl; [discriminate|].
  destruct (String.eqb n name).
  - intros H. inversion H. lia.
  - intros H. apply IH in H. lia.
Qed.

Lemma keypoint_index_bound (name : string) (i : nat) :
  Fitness.keypoint_index name = Some i -> (i < 24)%nat.
Proof. intros H. apply enumerate_from_bound in H. simpl in H. lia. Qed.

Lemma angle_definitions_resolved : forallb resolved Fitness.angle_definitions = true.
Proof. reflexivity. Qed.

Lemma visible3_true (vis : list R) (i1 i2 i3 : nat) :
  visible3 vis i1 i2 i3 = true <-> nth i1 vis 0 > 0 /\ nth i2 vis 0 > 0 /\ nth i3 vis 0 > 0.
Proof.
  unfold visible3. rewrite !andb_true_iff, !Rgtb_true. tauto.
Qed.

Lemma visible3_false (vis : list R) (i1 i2 i3 : nat) :
  ~ nth i1 vis 0 > 0 \/ ~ nth i2 vis 0 > 0 \/ ~ nth i3 vis 0 > 0 ->
  visible3 vis i1 i2 i3 = false.
Proof.
  intros H. destruct (visible3 vis i1 i2 i3) eqn:E; [|reflexivity].
  apply visible3_true in E. tauto.
Qed.

Lemma angle_of_resolved (coords : list Fitness.point) (vis : list R)
      (kp1 kp2 kp3 name : string) (i1 i2 i3 : nat) :
  length coords = 24%nat -> length vis = 24%nat ->
  Fitness.keypoint_index kp1 = Some i1 -> Fitness.keypoint_index kp2 = Some i2 ->
  Fitness.keypoint_index kp3 = Some i3 ->
  Fitness.angle_of coords vis (kp1, kp2, kp3, name)
  = Some (if visible3 vis i1 i2 i3
          then Fitness.calc_angle (nth i1 coords (0, 0)) (nth i2 coords (0, 0))
                                  (nth i3 coords (0, 0))
          else 0).
Proof.
  intros Hc Hv K1 K2 K3.
  pose proof (keypoint_index_bound _ _ K1). pose proof (keypoint_index_bound _ _ K2).
  pose proof (keypoint_index_bound _ _ K3).
  unfold Fitness.angle_of, Fitness.all_visible, visible3. rewrite K1, K2, K3.
  rewrite (nth_error_nth' vis 0) by lia. destruct (Numpy.Rgtb (nth i1 vis 0) 0); [|reflexivity].
  rewrite (nth_error_nth' vis 0) by lia. destruct (Numpy.Rgtb (nth i2 vis 0) 0); [|reflexivity].
  rewrite (nth_error_nth' vis 0) by lia. destruct (Numpy.Rgtb (nth i3 vis 0) 0); [|reflexivity].
  rewrite !(nth_error_nth' coords (0, 0)) by lia. reflexivity.
Qed.

(** On arrays of 24 entries the extraction returns ten angles, the one of
    each triplet being [calc_angle] of its three rows when the three joints
    are visible and zero otherwise. *)
Lemma extract_joint_angles_characterized (coords : list Fitness.point) (vis : list R) :
  length coords = 24%nat -> length vis = 24%nat ->
  exists angles,
    Fitness.extract_joint_angles coords vis = Some angles /\
    length angles = 10%nat /\
    forall k kp1 kp2 kp3 name i1 i2 i3,
      nth_error Fitness.angle_definitions k = Some (kp1, kp2, kp3, name) ->
      Fitness.keypoint_index kp1 = Some i1 -> Fitness.keypoint_index kp2 = Some i2 ->
      Fitness.keypoint_index kp3 = Some i3 ->
      nth k angles 0
      = if visible3 vis i1 i2 i3
        then Fitness.calc_angle (nth i1 coords (0, 0)) (nth i2 coords (0, 0))
                                (nth i3 coords (0, 0))
        else 0.
Proof.
  intros Hc Hv. unfold Fitness.extract_joint_angles.
  destruct (traverse_defined (Fitness.angle_of coords vis) Fitness.angle_definitions)
    as [angles Hangles].
  { intros [[[kp1 kp2] kp3] name] Hin.
    pose proof angle_definitions_resolved as R. rewrite forallb_forall in R.
    specialize (R _ Hin). unfold resolved in R.
    destruct (Fitness.keypoint_index kp1) as [i1|] eqn:K1; [|discriminate].
    destruct (Fitness.keypoint_index kp2) as [i2|] eqn:K2; [|discriminate].
    destruct (Fitness.keypoint_index kp3) as [i3|] eqn:K3; [|discriminate].
    eexists. now apply (angle_of_resolved coords vis kp1 kp2 kp3 name i1 i2 i3). }
  exists angles. split; [exact Hangles|]. split.
  { now rewrite (traverse_length _ _ _ Hangles). }
  intros k kp1 kp2 kp3 name i1 i2 i3 Hk K1 K2 K3.
  destruct (traverse_nth _ _ _ Hangles k _ Hk) as (b & Hb & Hnth).
  rewrite (angle_of_resolved coords vis kp1 kp2 kp3 name i1 i2 i3) in Hb by assumption.
  inversion Hb; subst. now apply nth_error_nth.
Qed.

(** C4, as stated, fails on collinear points that coincide: with every joint
    visible and at the point (1, 1), the left knee angle (hip, knee, ankle)
    is a right angle, neither 0 nor pi. *)
Lemma coincident_visible_triplet_gives_right_angle :
  exists angles,
    Fitness.extract_joint_angles (repeat (1, 1) 24) (repeat 1 24) = Some angles /\
    collinear (nth 11 (repeat (1, 1) 24) (0, 0)) (nth 13 (repeat (1, 1) 24) (0, 0))
              (nth 15 (repeat (1, 1) 24) (0, 0)) /\
    nth 11 (repeat 1 24) 0 > 0 /\ nth 13 (repeat 1 24) 0 > 0 /\ nth 15 (repeat 1 24) 0 > 0 /\
    nth 0 angles 0 = PI / 2 /\ nth 0 angles 0 <> 0 /\ nth 0 angles 0 <> PI.
Proof.
  destruct (extract_joint_angles_characterized (repeat (1, 1) 24) (repeat 1 24))
    as (angles & Hex & _ & Hnth); [reflexivity|reflexivity|].
  exists angles. split; [exact Hex|].
  assert (Ha : nth 0 angles 0 = PI / 2).
  { rewrite (Hnth 0%nat "Left Hip" "Left Knee" "Left Ankle" "Left Knee Angle"
                  11%nat 13%nat 15%nat)%string by reflexivity.
    assert (V : visible3 (repeat 1 24) 11 13 15 = true).
    { apply visible3_true. simpl. lra. }
    rewrite V. apply calc_angle_coincident. now left. }
  pose proof PI_RGT_0.
  split; [unfold collinear; simpl; ring|].
  repeat split; try (simpl; lra); rewrite Ha; lra.
Qed.

Lemma cos_calc_angle (p1 p2 p3 : Fitness.point) :
  cos (Fitness.calc_angle p1 p2 p3) = Fitness.cos_angle p1 p2 p3.
Proof.
  unfold Fitness.calc_angle. apply cos_acos. unfold Fitness.cos_angle. apply clip_bounds.
Qed.

(** C4 (amended): on arrays of 24 entries the extraction returns ten angles.
    The angle of a triplet with a joint that is not visible is exactly 0. The
    angle of a fully visible triplet is [calc_angle] of its three points and
    lies in [0, pi]; when the three points are collinear it is pi/2 if an end
    point coincides with the vertex, and otherwise it lies strictly between 0
    and pi, its cosine being [n / (n + 1e-8)] up to sign, with [n] the
    product of the lengths of the two vectors. *)
Theorem joint_angles_invisible_zero_collinear_near_bounds
        (coords : list Fitness.point) (vis : list R) :
  length coords = 24%nat -> length vis = 24%nat ->
  exists angles,
    Fitness.extract_joint_angles coords vis = Some angles /\
    length angles = 10%nat /\
    forall k kp1 kp2 kp3 name i1 i2 i3,
      nth_error Fitness.angle_definitions k = Some (kp1, kp2, kp3, name) ->
      Fitness.keypoint_index kp1 = Some i1 -> Fitness.keypoint_index kp2 = Some i2 ->
      Fitness.keypoint_index kp3 = Some i3 ->
      let p1 := nth i1 coords (0, 0) in
      let p2 := nth i2 coords (0, 0) in
      let p3 := nth i3 coords (0, 0) in
      let a := nth k angles 0 in
      let n := Fitness.norm (Fitness.sub p1 p2) * Fitness.norm (Fitness.sub p3 p2) in
      (~ nth i1 vis 0 > 0 \/ ~ nth i2 vis 0 > 0 \/ ~ nth i3 vis 0 > 0 -> a = 0) /\
      (nth i1 vis 0 > 0 -> nth i2 vis 0 > 0 -> nth i3 vis 0 > 0 ->
       a = Fitness.calc_angle p1 p2 p3 /\ 0 <= a <= PI /\
       (collinear p1 p2 p3 ->
        (p1 = p2 \/ p3 = p2 -> a = PI / 2) /\
        (p1 <> p2 -> p3 <> p2 ->
         0 < a < PI /\
         (cos a = n / (n + Fitness.ANGLE_EPS) \/ cos a = - (n / (n + Fitness.ANGLE_EPS)))))).
Proof.
  intros Hc Hv.
  destruct (extract_joint_angles_characterized coords vis Hc Hv) as (angles & Hex & Hlen & Hnth).
  exists angles. split; [exact Hex|]. split; [exact Hlen|].
  intros k kp1 kp2 kp3 name i1 i2 i3 Hk K1 K2 K3. cbv zeta.
  rewrite (Hnth k kp1 kp2 kp3 name i1 i2 i3 Hk K1 K2 K3). split.
  - intros Hinv. now rewrite visible3_false.
  - intros V1 V2 V3.
    assert (V : visible3 vis i1 i2 i3 = true) by (apply visible3_true; tauto).
    rewrite V. split; [reflexivity|]. split.
    { unfold Fitness.calc_angle. apply acos_bound. }
    intros Hcol. split.
    + apply calc_angle_coincident.
    + intros N1 N3.
      destruct (calc_angle_collinear_proper _ _ _ Hcol N1 N3) as (_ & Hcos & Hin).
      split; [exact Hin|]. now rewrite cos_calc_angle.
Qed.

(** The amended C4 at a pose whose last joint is not visible. *)
Lemma joint_angles_invisible_zero_collinear_near_bounds_witness :
  exists angles,
    Fitness.extract_joint_angles example_coords example_vis = Some angles /\
    length angles = 10%nat /\
    forall k kp1 kp2 kp3 name i1 i2 i3,
      nth_error Fitness.angle_definitions k = Some (kp1, kp2, kp3, name) ->
      Fitness.keypoint_index kp1 = Some i1 -> Fitness.keypoint_index kp2 = Some i2 ->
      Fitness.keypoint_index kp3 = Some i3 ->
      let p1 := nth i1 example_coords (0, 0) in
      let p2 := nth i2 example_coords (0, 0) in
      let p3 := nth i3 example_coords (0, 0) in
      let a := nth k angles 0 in
      let n := Fitness.norm (Fitness.sub p1 p2) * Fitness.norm (Fitness.sub p3 p2) in
      (~ nth i1 example_vis 0 > 0 \/ ~ nth i2 example_vis 0 > 0 \/ ~ nth i3 example_vis 0 > 0 ->
       a = 0) /\
      (nth i1 example_vis 0 > 0 -> nth i2 example_vis 0 > 0 -> nth i3 example_vis 0 > 0 ->
       a = Fitness.calc_angle p1 p2 p3 /\ 0 <= a <= PI /\
       (collinear p1 p2 p3 ->
        (p1 = p2 \/ p3 = p2 -> a = PI / 2) /\
        (p1 <> p2 -> p3 <> p2 ->
         0 < a < PI /\
         (cos a = n / (n + Fitness.ANGLE_EPS) \/ cos a = - (n / (n + Fitness.ANGLE_EPS)))))).
Proof.
  apply (joint_angles_invisible_zero_collinear_near_bounds example_coords example_vis);
    reflexivity.
Defined.

(** A straight leg, hip (0, 0), knee (1, 0), ankle (2, 0): in exact
    arithmetic the epsilon of the denominator keeps the angle below pi. *)
Example straight_leg_angle_below_pi :
  collinear (0, 0) (1, 0) (2, 0) /\ 0 < Fitness.calc_angle (0, 0) (1, 0) (2, 0) < PI.
Proof.
  assert (Hcol : collinear (0, 0) (1, 0) (2, 0)) by (unfold collinear; simpl; ring).
  split; [exact Hcol|].
  apply (calc_angle_collinear_proper (0, 0) (1, 0) (2, 0) Hcol).
  - intros E. inversion E. lra.
  - intros E. inversion E. lra.
Qed.

(** ** Split of a small dataset *)

Lemma traverse_app {A B : Type} (f : A -> option B) (l1 l2 : list A) :
  traverse f (l1 ++ l2)
  = match traverse f l1, traverse f l2 with
    | Some r1, Some r2 => Some (r1 ++ r2)
    | _, _ => None
    end.
Proof.
  induction l1 as [|x l1 IH]; simpl.
  - now destruct (traverse f l2).
  - destruct (f x); [|reflexivity]. rewrite IH.
    destruct (traverse f l1); [|reflexivity]. now destruct (traverse f l2).
Qed.

Lemma slice_prefix {A : Type} (l : list A) (stop : Z) :
  (0 <= stop <= Z.of_nat (length l))%Z ->
  Fitness.slice l None (Some stop) = firstn (Z.to_nat stop) l.
Proof.
  intros H. unfold Fitness.slice, Fitness.slice_bound.
  destruct (Z.ltb_spec stop 0); [lia|]. rewrite Nat.sub_0_r. simpl.
  f_equal. lia.
Qed.

Lemma slice_middle {A : Type} (l : list A) (start stop : Z) :
  (0 <= start <= stop)%Z -> (stop <= Z.of_nat (length l))%Z ->
  Fitness.slice l (Some start) (Some stop)
  = firstn (Z.to_nat (stop - start)) (skipn (Z.to_nat start) l).
Proof.
  intros H1 H2. unfold Fitness.slice, Fitness.slice_bound.
  destruct (Z.ltb_spec start 0); [lia|]. destruct (Z.ltb_spec stop 0); [lia|].
  rewrite !Nat.min_l by lia. f_equal; lia.
Qed.

Lemma slice_suffix {A : Type} (l : list A) (start : Z) :
  (0 <= start <= Z.of_nat (length l))%Z ->
  Fitness.slice l (Some start) None = skipn (Z.to_nat start) l.
Proof.
  intros H. unfold Fitness.slice, Fitness.slice_bound.
  destruct (Z.ltb_spec start 0); [lia|]. rewrite Nat.min_l by lia.
  apply firstn_all2. rewrite length_skipn. lia.
Qed.

Lemma n_test_of_positive (n : nat) (q : Q) : (1 <= Fitness.n_test_of n q)%Z.
Proof. unfold Fitness.n_test_of. lia. Qed.

Lemma n_val_of_positive (n : nat) (q : Q) : (1 <= Fitness.n_val_of n q)%Z.
Proof. unfold Fitness.n_val_of. lia. Qed.

(** With the default fractions 0.1 and 0.1 a dataset of 3 to 19 rows keeps
    one row for validation, one for test and the others for training. *)
Lemma default_fractions_leave_training_rows (n : nat) :
  (3 <= n < 20)%nat ->
  Fitness.n_test_of n (1 # 10) = 1%Z /\ Fitness.n_val_of n (1 # 10) = 1%Z /\
  (Fitness.n_test_of n (1 # 10) + Fitness.n_val_of n (1 # 10) < Z.of_nat n)%Z.
Proof.
  intros [Hlo Hhi].
  do 20 (destruct n as [|n]; [try lia; vm_compute; repeat split; reflexivity|]). lia.
Qed.

Section SmallSplit.

Variable A : Type.
Variable shuffle : Z -> list nat -> list nat.
Variable stratified_split : list A -> Q -> Q -> Z -> option (Fitness.dataset_split A).

(** The generator permutes the array it is given. *)
Hypothesis shuffle_permutes : forall seed l, Permutation l (shuffle seed l).

Lemma shuffled_indices_length (seed : Z) (n : nat) :
  length (shuffle seed (Fitness.arange n)) = n.
Proof.
  rewrite <- (Permutation_length (shuffle_permutes seed (Fitness.arange n))).
  apply length_seq.
Qed.

Lemma take_rows_defined (rows : list A) (idx : list nat) :
  (forall i, In i idx -> (i < length rows)%nat) ->
  exists r, Fitness.take_rows A rows idx = Some r.
Proof.
  intros H. apply traverse_defined. intros i Hi.
  destruct (nth_error rows i) eqn:E; [eauto|].
  apply nth_error_None in E. specialize (H i Hi). lia.
Qed.

(** The three index arrays of the small branch, when validation and test
    leave room for training. *)
Lemma simple_split_indices_shape (n : nat) (test_size val_size : Q) (seed : Z) :
  (Fitness.n_test_of n test_size + Fitness.n_val_of n val_size < Z.of_nat n)%Z ->
  let indices := shuffle seed (Fitness.arange n) in
  let n_test := Z.to_nat (Fitness.n_test_of n test_size) in
  let n_val := Z.to_nat (Fitness.n_val_of n val_size) in
  let s := Fitness.simple_split_indices shuffle n test_size val_size seed in
  Fitness.train_idx s = firstn (n - n_test - n_val) indices /\
  Fitness.val_idx s = firstn n_val (skipn (n - n_test - n_val) indices) /\
  Fitness.test_idx s = skipn (n - n_test) indices.
Proof.
  intros Hroom. cbv zeta. unfold Fitness.simple_split_indices.
  cbn [Fitness.train_idx Fitness.val_idx Fitness.test_idx].
  pose proof (n_test_of_positive n test_size) as Ht.
  pose proof (n_val_of_positive n val_size) as Hv.
  pose proof (shuffled_indices_length seed n) as Hlen.
  set (nt := Fitness.n_test_of n test_size) in *.
  set (nv := Fitness.n_val_of n val_size) in *.
  rewrite slice_prefix by (rewrite Hlen; lia).
  rewrite slice_middle by (rewrite ?Hlen; lia).
  rewrite slice_suffix by (rewrite Hlen; lia).
  repeat split; repeat (f_equal; try lia).
Qed.

(** C6 (amended): for fewer than 20 rows, when the validation and test
    sizes max(1, int(n * fraction)) together stay below n, the call returns
    a split whose test and validation parts have these sizes, whose
    training part has the n - n_test - n_val remaining rows, each part
    holding at least one row; the three parts in a row are the dataset in
    the order of the seeded shuffle of its indices. *)
Theorem small_split_sizes (rows : list A) (test_size val_size : Q) (random_state : Z) :
  (length rows < 20)%nat ->
  (Fitness.n_test_of (length rows) test_size + Fitness.n_val_of (length rows) val_size
   < Z.of_nat (length rows))%Z ->
  exists d,
    Fitness.split_dataset A shuffle stratified_split rows test_size val_size random_state
    = Some d /\
    Z.of_nat (length (Fitness.test d))
    = Z.max 1 (Fitness.py_int (inject_Z (Z.of_nat (length rows)) * test_size)) /\
    Z.of_nat (length (Fitness.val d))
    = Z.max 1 (Fitness.py_int (inject_Z (Z.of_nat (length rows)) * val_size)) /\
    (length (Fitness.train d)
     = length rows - length (Fitness.test d) - length (Fitness.val d))%nat /\
    (1 <= length (Fitness.train d))%nat /\ (1 <= length (Fitness.val d))%nat /\
    (1 <= length (Fitness.test d))%nat /\
    Fitness.take_rows A rows (shuffle random_state (Fitness.arange (length rows)))
    = Some (Fitness.train d ++ Fitness.val d ++ Fitness.test d).
Proof.
  intros Hsmall Hroom. set (n := length rows) in *.
  destruct (simple_split_indices_shape n test_size val_size random_state Hroom)
    as (Htr & Hva & Hte).
  pose proof (n_test_of_positive n test_size) as Ht.
  pose proof (n_val_of_positive n val_size) as Hv.
  pose proof (shuffled_indices_length random_state n) as Hlen.
  set (indices := shuffle random_state (Fitness.arange n)) in *.
  assert (Hrange : forall i, In i indices -> (i < length rows)%nat).
  { intros i Hi. apply (Permutation_in _ (Permutation_sym (shuffle_permutes _ _))) in Hi.
    unfold Fitness.arange in Hi. apply in_seq in Hi. fold n. lia. }
  set (nt := Z.to_nat (Fitness.n_test_of n test_size)) in *.
  set (nv := Z.to_nat (Fitness.n_val_of n val_size)) in *.
  assert (Hnt : Z.of_nat nt = Fitness.n_test_of n test_size) by (unfold nt; lia).
  assert (Hnv : Z.of_nat nv = Fitness.n_val_of n val_size) by (unfold nv; lia).
  assert (Hdecomp : indices
                    = firstn (n - nt - nv) indices
                      ++ firstn nv (skipn (n - nt - nv) indices)
                      ++ skipn (n - nt) indices).
  { rewrite <- (firstn_skipn (n - nt - nv) indices) at 1. f_equal.
    rewrite <- (firstn_skipn nv (skipn (n - nt - nv) indices)) at 1. f_equal.
    rewrite skipn_skipn. f_equal. lia. }
  destruct (take_rows_defined rows indices Hrange) as [all Hall].
  pose proof Hall as Hsplit. rewrite Hdecomp in Hsplit. unfold Fitness.take_rows in Hsplit.
  rewrite !traverse_app in Hsplit.
  destruct (traverse (nth_error rows) (firstn (n - nt - nv) indices)) as [tr|] eqn:Etr;
    [|discriminate].
  destruct (traverse (nth_error rows) (firstn nv (skipn (n - nt - nv) indices)))
    as [va|] eqn:Eva; [|discriminate].
  destruct (traverse (nth_error rows) (skipn (n - nt) indices)) as [te|] eqn:Ete;
    [|discriminate].
  exists {| Fitness.train := tr; Fitness.val := va; Fitness.test := te |}.
  assert (Ltr : length tr = (n - nt - nv)%nat).
  { rewrite (traverse_length _ _ _ Etr), length_firstn. lia. }
  assert (Lva : length va = nv).
  { rewrite (traverse_length _ _ _ Eva), length_firstn, length_skipn. lia. }
  assert (Lte : length te = nt).
  { rewrite (traverse_length _ _ _ Ete), length_skipn. lia. }
  cbn [Fitness.train Fitness.val Fitness.test].
  split.
  { unfold Fitness.split_dataset. fold n.
    destruct (Nat.ltb_spec n 20) as [_|]; [|lia].
    fold indices in Htr, Hva, Hte. rewrite Htr, Hva, Hte.
    unfold Fitness.take_rows. now rewrite Etr, Eva, Ete. }
  split; [rewrite Lte, Hnt; reflexivity|].
  split; [rewrite Lva, Hnv; reflexivity|].
  split; [lia|]. split; [lia|]. split; [lia|]. split; [lia|].
  rewrite Hall. now inversion Hsplit.
Qed.

End SmallSplit.

Lemma no_shuffle_permutes : forall seed l, Permutation l (no_shuffle seed l).
Proof. intros seed l. apply Permutation_refl. Qed.

(** C6, as stated, fails on a dataset of one row with the default fractions:
    [n_test = n_val = 1] and [n_train = -1], so [indices[:-1]] and
    [indices[-1:0]] are empty and the row goes to the test part. Any shuffle
    of one index gives the same split. *)
Lemma small_split_of_one_row_leaves_train_empty :
  (length ["a.json"%string] < 20)%nat /\
  Fitness.split_dataset string no_shuffle unreachable_split ["a.json"%string]
                        (1 # 10) (1 # 10) 42
  = Some {| Fitness.train := []; Fitness.val := []; Fitness.test := ["a.json"%string] |}.
Proof. split; [simpl; lia|reflexivity]. Qed.

(** The amended C6 on ten rows with the default fractions. *)
Lemma small_split_sizes_witness :
  let rows := map (fun i => String (ascii_of_nat (97 + i)) EmptyString) (seq 0 10) in
  exists d,
    Fitness.split_dataset string no_shuffle unreachable_split rows (1 # 10) (1 # 10) 42
    = Some d /\
    Z.of_nat (length (Fitness.test d))
    = Z.max 1 (Fitness.py_int (inject_Z (Z.of_nat (length rows)) * (1 # 10))) /\
    Z.of_nat (length (Fitness.val d))
    = Z.max 1 (Fitness.py_int (inject_Z (Z.of_nat (length rows)) * (1 # 10))) /\
    (length (Fitness.train d)
     = length rows - length (Fitness.test d) - length (Fitness.val d))%nat /\
    (1 <= length (Fitness.train d))%nat /\ (1 <= length (Fitness.val d))%nat /\
    (1 <= length (Fitness.test d))%nat /\
    Fitness.take_rows string rows (no_shuffle 42 (Fitness.arange (length rows)))
    = Some (Fitness.train d ++ Fitness.val d ++ Fitness.test d).
Proof.
  apply (small_split_sizes string no_shuffle unreachable_split no_shuffle_permutes).
  - simpl. lia.
  - vm_compute. reflexivity.
Defined.

(** ** Resolution of the 3D file of a 2D record *)

(** The scan returns the first listed directory that holds the file. *)
Lemma scan_folders_first (r : Fs.root) (pattern : string) (listing : list (string * Fs.entry)) :
  Preprocess.scan_folders r pattern listing
  = option_map (fun fe => (fst fe, pattern)) (find (holds_pattern r pattern) listing).
Proof.
  induction listing as [|[folder e] rest IH]; simpl; [reflexivity|].
  unfold holds_pattern at 1. cbn [fst snd].
  destruct (Fs.is_dir e && Fs.exists_file r (folder, pattern)); [reflexivity|exact IH].
Qed.

Lemma exists_file_entry (r : Fs.root) (p : Fs.path) :
  Fs.exists_file r p = true -> Fs.exists_entry r (fst p) = true.
Proof.
  unfold Fs.exists_file, Fs.exists_entry. destruct (Fs.lookup (fst p) r); [reflexivity|discriminate].
Qed.

(** C7, as stated, fails for [src/ml/preprocess_full.py]: with the 3D file of
    key (70, M180D, 0) stored in a folder of another name, the scan of
    [preprocess.py] finds it, while [get_3d_file_path] answers "not matched"
    after the direct path alone. *)
Lemma full_matcher_has_no_fallback_scan :
  let pattern := Preprocess.pattern_3d "70" "M180D" "0" in
  let r : Fs.root := [("batch_01"%string, Fs.Dir [(pattern, example_doc_3d [])])] in
  Fs.exists_file r (underscore "70" "M180D", pattern) = false /\
  Preprocess.scan_folders r pattern r = Some ("batch_01"%string, pattern) /\
  Preprocess.find_matching_3d_file r "70" "M180D" "0" = Some ("batch_01"%string, pattern) /\
  PreprocessFull.get_3d_file_path r "70" "M180D" "0" = None.
Proof. repeat split; reflexivity. Qed.

(** C7 (amended): both matchers first try the path
    [{action}_{actor}/3D_{action}_{actor}_{frame}.json] and return it when
    the file exists. When it does not, [find_matching_3d_file] of
    [preprocess.py] returns the first listed directory of the 3D root that
    holds a file of that name, or "not matched" when there is none, while
    [get_3d_file_path] of [preprocess_full.py] returns "not matched" without
    any scan. *)
Theorem matcher_resolution_order (r : Fs.root) (action actor frame : string) :
  let pattern := Preprocess.pattern_3d action actor frame in
  let direct := (underscore action actor, pattern) in
  (Fs.exists_file r direct = true ->
   Preprocess.find_matching_3d_file r action actor frame = Some direct /\
   PreprocessFull.get_3d_file_path r action actor frame = Some direct) /\
  (Fs.exists_file r direct = false ->
   Preprocess.find_matching_3d_file r action actor frame
   = option_map (fun fe => (fst fe, pattern)) (find (holds_pattern r pattern) r) /\
   (Preprocess.find_matching_3d_file r action actor frame = None <->
    forall fe, In fe r -> holds_pattern r pattern fe = false) /\
   PreprocessFull.get_3d_file_path r action actor frame = None).
Proof.
  cbv zeta. unfold Preprocess.find_matching_3d_file, PreprocessFull.get_3d_file_path. split.
  - intros Hd. rewrite Hd. pose proof (exists_file_entry _ _ Hd) as He. cbn [fst] in He.
    rewrite He. split; reflexivity.
  - intros Hd. rewrite Hd, andb_false_r. rewrite scan_folders_first.
    split; [reflexivity|]. split; [|reflexivity].
    destruct (find _ r) as [fe|] eqn:F; simpl.
    + split; [discriminate|]. intros H. apply find_some in F. destruct F as [Hin Hp].
      rewrite (H fe Hin) in Hp. discriminate.
    + split; [|reflexivity]. intros _ fe Hin.
      destruct (holds_pattern r _ fe) eqn:E; [|reflexivity].
      now rewrite (find_none _ _ F fe Hin) in E.
Qed.

(** The amended C7 at the root above: frame 0 is found by the direct path in
    both scripts, frame 7 by the scan of [preprocess.py] only. *)
Lemma matcher_resolution_order_witness :
  (Preprocess.find_matching_3d_file example_root "70" "M180D" "0"
   = Some (underscore "70" "M180D", Preprocess.pattern_3d "70" "M180D" "0") /\
   PreprocessFull.get_3d_file_path example_root "70" "M180D" "0"
   = Some (underscore "70" "M180D", Preprocess.pattern_3d "70" "M180D" "0")) /\
  (Preprocess.find_matching_3d_file example_root "70" "M180D" "7"
   = option_map (fun fe => (fst fe, Preprocess.pattern_3d "70" "M180D" "7"))
       (find (holds_pattern example_root (Preprocess.pattern_3d "70" "M180D" "7"))
             example_root) /\
   (Preprocess.find_matching_3d_file example_root "70" "M180D" "7" = None <->
    forall fe, In fe example_root ->
               holds_pattern example_root (Preprocess.pattern_3d "70" "M180D" "7") fe = false) /\
   PreprocessFull.get_3d_file_path example_root "70" "M180D" "7" = None).
Proof.
  split.
  - apply (proj1 (matcher_resolution_order example_root "70" "M180D" "0")). reflexivity.
  - apply (proj2 (matcher_resolution_order example_root "70" "M180D" "7")). reflexivity.
Defined.

(** ** Tally of skipped records *)

Lemma count_fate_total (dir_3d : Fs.root) (files : list file_2d) :
  (count_fate dir_3d Matched files + count_fate dir_3d Rejected2D files
   + count_fate dir_3d Unmatched3D files + count_fate dir_3d Rejected3D files
   = length files)%nat.
Proof.
  unfold count_fate. induction files as [|f files IH]; simpl; [reflexivity|].
  destruct (fate_of dir_3d f); simpl; lia.
Qed.

(** One iteration adds one to the counter of the file's fate and to no other;
    the two data lists grow on a match only. *)
Lemma full_step_counts (dir_3d : Fs.root) (t : PreprocessFull.tally) (f : file_2d) :
  let t' := PreprocessFull.step dir_3d t f in
  let bump x := if fate_eqb (fate_of dir_3d f) x then 1%nat else 0%nat in
  PreprocessFull.matched t' = (PreprocessFull.matched t + bump Matched)%nat /\
  PreprocessFull.skipped_2d t' = (PreprocessFull.skipped_2d t + bump Rejected2D)%nat /\
  PreprocessFull.skipped_3d_not_found t'
  = (PreprocessFull.skipped_3d_not_found t + bump Unmatched3D)%nat /\
  PreprocessFull.skipped_3d_parse t' = (PreprocessFull.skipped_3d_parse t + bump Rejected3D)%nat /\
  length (PreprocessFull.data_2d t') = (length (PreprocessFull.data_2d t) + bump Matched)%nat /\
  length (PreprocessFull.data_3d t') = (length (PreprocessFull.data_3d t) + bump Matched)%nat.
Proof.
  cbv zeta. unfold PreprocessFull.step, fate_of.
  destruct (PreprocessFull.parse_2d_json f) as [r2|]; [|simpl; lia].
  destruct (PreprocessFull.get_3d_file_path _ _ _ _) as [p|]; [|simpl; lia].
  destruct (PreprocessFull.parse_3d_json _); simpl; rewrite ?length_app; simpl; lia.
Qed.

Lemma full_loop_counts (dir_3d : Fs.root) (files : list file_2d) (t : PreprocessFull.tally) :
  let t' := fold_left (PreprocessFull.step dir_3d) files t in
  PreprocessFull.matched t' = (PreprocessFull.matched t + count_fate dir_3d Matched files)%nat /\
  PreprocessFull.skipped_2d t'
  = (PreprocessFull.skipped_2d t + count_fate dir_3d Rejected2D files)%nat /\
  PreprocessFull.skipped_3d_not_found t'
  = (PreprocessFull.skipped_3d_not_found t + count_fate dir_3d Unmatched3D files)%nat /\
  PreprocessFull.skipped_3d_parse t'
  = (PreprocessFull.skipped_3d_parse t + count_fate dir_3d Rejected3D files)%nat /\
  length (PreprocessFull.data_2d t')
  = (length (PreprocessFull.data_2d t) + count_fate dir_3d Matched files)%nat /\
  length (PreprocessFull.data_3d t')
  = (length (PreprocessFull.data_3d t) + count_fate dir_3d Matched files)%nat.
Proof.
  revert t. induction files as [|f files IH]; intros t; cbv zeta.
  - unfold count_fate. simpl. lia.
  - cbn [fold_left]. specialize (IH (PreprocessFull.step dir_3d t f)). cbv zeta in IH.
    destruct IH as (I1 & I2 & I3 & I4 & I5 & I6).
    destruct (full_step_counts dir_3d t f) as (S1 & S2 & S3 & S4 & S5 & S6).
    rewrite I1, I2, I3, I4, I5, I6, S1, S2, S3, S4, S5, S6.
    unfold count_fate. cbn [filter].
    destruct (fate_of dir_3d f); cbn [fate_eqb length]; lia.
Qed.

(** C8, as stated, fails for [src/ml/preprocess.py]: a well-formed 2D file
    without 3D counterpart, like a file that cannot be read, leaves the
    accumulators of [preprocess_data] as they were. The only counter of that
    loop is [matched_count], so runs that drop one, three or no records end
    in the same state. *)
Lemma preprocess_data_drops_without_tally :
  let unreadable := {| stem := "70_M180D_3_1"%string; content_2d := None |} in
  (exists p2,
      Preprocess.parse_2d_json (content_2d example_good_2d) = Returned p2 /\
      Preprocess.find_matching_3d_file [] (Preprocess.action_id p2) (Preprocess.actor_id p2)
                                       (Preprocess.frame_no p2) = None) /\
  Preprocess.parse_2d_json (content_2d unreadable) = Raised /\
  Preprocess.preprocess_data [] [] = Preprocess.initial /\
  Preprocess.preprocess_data [] [example_good_2d] = Preprocess.initial /\
  Preprocess.preprocess_data [] [example_good_2d; unreadable; example_good_2d]
  = Preprocess.initial.
Proof.
  cbv zeta. split; [eexists; split; reflexivity|]. repeat split; reflexivity.
Qed.

(** C8 (amended): in [process_dataset] of [src/ml/preprocess_full.py] every
    listed 2D file adds one to exactly one of four counters: [matched], or
    [skipped_2d] when its 2D parse fails, [skipped_3d_not_found] when no 3D
    file is resolved for its key, [skipped_3d_parse] when the 3D parse fails.
    The four counters sum to the number of files processed and the output
    arrays have [matched] rows. *)
Theorem full_pipeline_tallies_every_file (files_2d : list file_2d) (dir_3d : Fs.root)
        (max_samples : option nat) :
  let processed := PreprocessFull.limit max_samples files_2d in
  let t := PreprocessFull.process_dataset (Some files_2d) (Some dir_3d) max_samples in
  PreprocessFull.matched t = count_fate dir_3d Matched processed /\
  PreprocessFull.skipped_2d t = count_fate dir_3d Rejected2D processed /\
  PreprocessFull.skipped_3d_not_found t = count_fate dir_3d Unmatched3D processed /\
  PreprocessFull.skipped_3d_parse t = count_fate dir_3d Rejected3D processed /\
  (PreprocessFull.matched t + PreprocessFull.skipped_2d t
   + PreprocessFull.skipped_3d_not_found t + PreprocessFull.skipped_3d_parse t
   = length processed)%nat /\
  length (PreprocessFull.data_2d t) = PreprocessFull.matched t /\
  length (PreprocessFull.data_3d t) = PreprocessFull.matched t.
Proof.
  cbv zeta. unfold PreprocessFull.process_dataset.
  set (processed := PreprocessFull.limit max_samples files_2d).
  destruct (full_loop_counts dir_3d processed PreprocessFull.initial)
    as (H1 & H2 & H3 & H4 & H5 & H6).
  cbn [PreprocessFull.initial PreprocessFull.matched PreprocessFull.skipped_2d
       PreprocessFull.skipped_3d_not_found PreprocessFull.skipped_3d_parse
       PreprocessFull.data_2d PreprocessFull.data_3d length plus] in *.
  pose proof (count_fate_total dir_3d processed) as Htot.
  rewrite H1, H2, H3, H4, H5, H6. repeat split; try reflexivity. exact Htot.
Qed.

(** A run over four files under [example_root]: frame 0 is matched, frame 7
    has no 3D file on the direct path, one file has 23 joints, and the 3D
    file of frame 3 holds a single joint. *)
Example full_pipeline_tally_example :
  let root_3d : Fs.root :=
    [("70_M180D"%string,
      Fs.Dir [(Preprocess.pattern_3d "70" "M180D" "0", example_doc_3d example_joints);
              (Preprocess.pattern_3d "70" "M180D" "3", example_doc_3d [nested 1 2 3])]);
     ("batch_01"%string,
      Fs.Dir [(Preprocess.pattern_3d "70" "M180D" "7", example_doc_3d example_joints)])] in
  let file frame rows :=
    {| stem := ("70_M180D_3_" ++ frame)%string; content_2d := example_doc_2d rows |} in
  let files := [file "0"%string (repeat [960; 540] 24);
                file "7"%string (repeat [960; 540] 24);
                file "1"%string (repeat [960; 540] 23);
                file "3"%string (repeat [960; 540] 24)] in
  let t := PreprocessFull.process_dataset (Some files) (Some root_3d) None in
  PreprocessFull.matched t = 1%nat /\ PreprocessFull.skipped_2d t = 1%nat /\
  PreprocessFull.skipped_3d_not_found t = 1%nat /\ PreprocessFull.skipped_3d_parse t = 1%nat.
Proof. cbv zeta. repeat split; reflexivity. Qed.

(** The joints of [example_joints] have centroid (100, 200, 300). *)
Example example_joints_centroid :
  exists joints,
    decoded_joints PreprocessFull.joint_xyz (example_doc_3d example_joints) = Some joints /\
    Numpy.mean3 joints = (100, 200, 300).
Proof.
  eexists. split; [vm_compute; reflexivity|].
  unfold Numpy.mean3, Numpy.Rsum.
  cbn [map fold_right length Numpy.vx Numpy.vy Numpy.vz fst snd].
  rewrite INR_IZR_INZ. cbn [Z.of_nat Pos.of_succ_nat Pos.succ].
  repeat f_equal; lra.
Qed.

(** ** File-name keys of the full-data script *)

Lemma split_on_nonempty (sep : ascii) (s : string) : PreprocessFull.split_on sep s <> [].
Proof.
  destruct s as [|c s]; simpl; [discriminate|].
  destruct (Ascii.eqb c sep); [discriminate|].
  destruct (PreprocessFull.split_on sep s); discriminate.
Qed.

Lemma concat_cons (sep h : string) (t : list string) :
  t <> [] -> String.concat sep (h :: t) = (h ++ sep ++ String.concat sep t)%string.
Proof. destruct t; [congruence|reflexivity]. Qed.

(** Joining the parts with the separator gives the string back. *)
Lemma split_on_join (sep : ascii) (s : string) :
  String.concat (String sep EmptyString) (PreprocessFull.split_on sep s) = s.
Proof.
  induction s as [|c s IH]; [reflexivity|]. simpl.
  destruct (Ascii.eqb_spec c sep) as [->|Hne].
  - rewrite concat_cons by apply split_on_nonempty. simpl. now rewrite IH.
  - pose proof (split_on_nonempty sep s) as Hn.
    destruct (PreprocessFull.split_on sep s) as [|h t]; [congruence|].
    destruct t as [|h' t]; simpl in *; now rewrite IH.
Qed.

Lemma split_on_free (sep : ascii) (s : string) :
  free_of sep s = true -> PreprocessFull.split_on sep s = [s].
Proof.
  induction s as [|c s IH]; [reflexivity|]. simpl.
  destruct (Ascii.eqb c sep); simpl; [discriminate|].
  intros H. now rewrite (IH H).
Qed.

Lemma split_on_app (sep : ascii) (h rest : string) :
  free_of sep h = true ->
  PreprocessFull.split_on sep (h ++ String sep rest) = h :: PreprocessFull.split_on sep rest.
Proof.
  induction h as [|c h IH]; simpl.
  - intros _. now rewrite Ascii.eqb_refl.
  - destruct (Ascii.eqb c sep); simpl; [discriminate|].
    intros H. now rewrite (IH H).
Qed.

(** Splitting a joined list of separator-free parts gives the parts back. *)
Lemma split_on_concat (sep : ascii) (parts : list string) :
  parts <> [] -> forallb (free_of sep) parts = true ->
  PreprocessFull.split_on sep (String.concat (String sep EmptyString) parts) = parts.
Proof.
  induction parts as [|h t IH]; [congruence|]. intros _ Hfree. simpl in Hfree.
  apply andb_true_iff in Hfree. destruct Hfree as [Hh Ht].
  destruct t as [|h' t].
  - simpl. now apply split_on_free.
  - rewrite concat_cons by discriminate.
    change (String sep EmptyString ++ ?x)%string with (String sep x).
    rewrite split_on_app by assumption. f_equal. apply IH; [discriminate|assumption].
Qed.

Lemma split_on_parts_free (sep : ascii) (s : string) :
  forallb (free_of sep) (PreprocessFull.split_on sep s) = true.
Proof.
  induction s as [|c s IH]; [reflexivity|]. simpl.
  destruct (Ascii.eqb c sep) eqn:E.
  - simpl. exact IH.
  - destruct (PreprocessFull.split_on sep s) as [|h t]; simpl in *.
    + now rewrite E.
    + rewrite E. exact IH.
Qed.

(** X1: [split_on], the [str.split('_')] of the file-name parser, loses
    nothing: no part contains the separator, and joining the parts with the
    separator gives the stem back; conversely a stem joined from
    separator-free parts splits into these parts. *)
Theorem split_on_round_trip (sep : ascii) (s : string) (parts : list string) :
  forallb (free_of sep) (PreprocessFull.split_on sep s) = true /\
  String.concat (String sep EmptyString) (PreprocessFull.split_on sep s) = s /\
  (parts <> [] -> forallb (free_of sep) parts = true ->
   PreprocessFull.split_on sep (String.concat (String sep EmptyString) parts) = parts).
Proof.
  split; [apply split_on_parts_free|]. split; [apply split_on_join|]. apply split_on_concat.
Qed.

(** X1 at the stem of a 2D file. *)
Lemma split_on_round_trip_witness :
  forallb (free_of "_") (PreprocessFull.split_on "_" "70_M180D_3_0") = true /\
  String.concat "_" (PreprocessFull.split_on "_" "70_M180D_3_0") = "70_M180D_3_0"%string /\
  PreprocessFull.split_on "_" (String.concat "_" ["70"; "M180D"; "3"; "0"]%string)
  = ["70"; "M180D"; "3"; "0"]%string.
Proof.
  destruct (split_on_round_trip "_" "70_M180D_3_0" ["70"; "M180D"; "3"; "0"]%string)
    as (H1 & H2 & H3).
  split; [exact H1|]. split; [exact H2|]. apply H3; [discriminate|reflexivity].
Defined.

(** The acceptance condition of [parse_2d_json] in [preprocess_full.py]. *)
Lemma full_parse_2d_spec (file : file_2d) (rec : PreprocessFull.parsed_2d) :
  PreprocessFull.parse_2d_json file = Some rec <->
  exists data info ann rows action actor camera frame rest,
    content_2d file = Some data /\ Json.doc_info data = Some info /\
    Json.doc_annotations data = Some ann /\ Json.pos_2d ann = Some rows /\
    Numpy.same_width rows = true /\ length rows = 24%nat /\
    (forall row, In row rows -> (2 <= length row)%nat) /\
    PreprocessFull.split_on "_" (stem file) = action :: actor :: camera :: frame :: rest /\
    rec = {| PreprocessFull.action := action; PreprocessFull.actor := actor;
             PreprocessFull.frame := frame;
             PreprocessFull.coords_2d :=
               Numpy.flatten (map (Numpy.scale_row IMG_WIDTH IMG_HEIGHT) rows) |}.
Proof.
  unfold PreprocessFull.parse_2d_json, PreprocessFull.parse_2d_body. split.
  - destruct (content_2d file) as [data|] eqn:Hc; [|discriminate]. cbn [bind_raise].
    destruct (Json.doc_info data) as [info|] eqn:Hi; [|discriminate]. cbn [bind_raise].
    destruct (Json.doc_annotations data) as [ann|] eqn:Ha; [|discriminate]. cbn [bind_raise].
    destruct (Json.pos_2d ann) as [rows|] eqn:Hp; [|discriminate]. cbn [bind_raise].
    unfold Numpy.array2. destruct (Numpy.same_width rows) eqn:W; [|discriminate].
    cbn [bind_raise].
    destruct (Nat.eqb (length rows) NUM_JOINTS) eqn:E; cbn [negb]; [|discriminate].
    apply Nat.eqb_eq in E.
    destruct rows as [|r rows]; [discriminate|]. cbn [Numpy.width bind_raise].
    destruct (Nat.leb 2 (length r)) eqn:L; [|discriminate]. apply Nat.leb_le in L.
    destruct (PreprocessFull.split_on "_" (stem file)) as [|a [|b [|c [|d rest]]]];
      try discriminate.
    cbn. intros H. inversion H; subst; clear H.
    exists data, info, ann, (r :: rows), a, b, c, d, rest.
    do 6 (split; [first [reflexivity | assumption]|]).
    split; [|split; reflexivity].
    intros row [<-|Hin]; [exact L|].
    cbn [Numpy.same_width] in W. rewrite forallb_forall in W. specialize (W row Hin).
    apply Nat.eqb_eq in W. lia.
  - intros (data & info & ann & rows & a & b & c & d & rest &
            Hc & Hi & Ha & Hp & W & Hlen & Hw & Hs & ->).
    rewrite Hc. cbn [bind_raise]. rewrite Hi. cbn [bind_raise]. rewrite Ha.
    cbn [bind_raise]. rewrite Hp. cbn [bind_raise].
    unfold Numpy.array2. rewrite W. cbn [bind_raise]. unfold NUM_JOINTS. rewrite Hlen.
    cbn [Nat.eqb negb].
    destruct rows as [|r rows]; [discriminate|]. cbn [Numpy.width bind_raise].
    assert (L : Nat.leb 2 (length r) = true) by (apply Nat.leb_le, Hw; now left).
    rewrite L, Hs. reflexivity.
Qed.

(** X2: [parse_2d_json] of [preprocess_full.py] returns a record exactly
    when the file is readable, has the keys [info], [annotations] and
    [2d_pos], its coordinate rows are 24 rows of one width of at least two
    columns, and its stem has at least four parts between underscores; the
    record then holds the first, second and fourth part as action, actor and
    frame, and the rows with the first column divided by 1920 and the second
    by 1080. *)
Theorem full_parse_2d_accepts_exactly (file : file_2d) (rec : PreprocessFull.parsed_2d) :
  PreprocessFull.parse_2d_json file = Some rec <->
  exists data info ann rows action actor camera frame rest,
    content_2d file = Some data /\ Json.doc_info data = Some info /\
    Json.doc_annotations data = Some ann /\ Json.pos_2d ann = Some rows /\
    Numpy.same_width rows = true /\ length rows = 24%nat /\
    (forall row, In row rows -> (2 <= length row)%nat) /\
    PreprocessFull.split_on "_" (stem file) = action :: actor :: camera :: frame :: rest /\
    rec = {| PreprocessFull.action := action; PreprocessFull.actor := actor;
             PreprocessFull.frame := frame;
             PreprocessFull.coords_2d :=
               Numpy.flatten (map (Numpy.scale_row IMG_WIDTH IMG_HEIGHT) rows) |}.
Proof.
  intros. eapply full_parse_2d_spec; eassumption.
Qed.

(** X2 at a well-formed file: the record of [example_good_2d]. *)
Lemma full_parse_2d_accepts_exactly_witness :
  PreprocessFull.parse_2d_json example_good_2d
  = Some {| PreprocessFull.action := "70"; PreprocessFull.actor := "M180D";
            PreprocessFull.frame := "0";
            PreprocessFull.coords_2d :=
              Numpy.flatten (map (Numpy.scale_row IMG_WIDTH IMG_HEIGHT)
                                 (repeat [960; 540] 24)) |}.
Proof.
  apply (proj2 (full_parse_2d_accepts_exactly example_good_2d _)).
  eexists _, _, _, (repeat [960; 540] 24), "70"%string, "M180D"%string, "3"%string,
    "0"%string, [].
  repeat split; try reflexivity.
  intros row Hin. apply repeat_spec in Hin. subst. simpl. lia.
Defined.

(** X3: the camera part of the stem plays no role in matching. Two 2D files
    [{action}_{actor}_{camera}_{frame}] with the same content that differ in
    the camera only are parsed into the same record, so that
    [get_3d_file_path] resolves both to the same 3D file. *)
Theorem full_key_ignores_camera (action actor camera1 camera2 frame : string)
        (content : file_content) :
  forallb (free_of "_") [action; actor; camera1; camera2; frame] = true ->
  let file camera :=
    {| stem := String.concat "_" [action; actor; camera; frame]; content_2d := content |} in
  PreprocessFull.parse_2d_json (file camera1) = PreprocessFull.parse_2d_json (file camera2) /\
  forall rec, PreprocessFull.parse_2d_json (file camera1) = Some rec ->
              PreprocessFull.action rec = action /\ PreprocessFull.actor rec = actor /\
              PreprocessFull.frame rec = frame.
Proof.
  intros Hfree. cbv zeta. simpl in Hfree.
  repeat (apply andb_true_iff in Hfree; destruct Hfree as [? Hfree]).
  assert (Hs : forall camera, free_of "_" camera = true ->
               PreprocessFull.split_on "_" (String.concat "_" [action; actor; camera; frame])
               = [action; actor; camera; frame]).
  { intros camera Hc. apply split_on_concat; [discriminate|]. simpl.
    now repeat (apply andb_true_iff; split). }
  assert (Hparse : forall camera, free_of "_" camera = true ->
            forall rec,
              PreprocessFull.parse_2d_json
                {| stem := String.concat "_" [action; actor; camera; frame];
                   content_2d := content |} = Some rec ->
              PreprocessFull.action rec = action /\ PreprocessFull.actor rec = actor /\
              PreprocessFull.frame rec = frame /\
              exists rows, raw_2d content = Some rows /\
                PreprocessFull.coords_2d rec
                = Numpy.flatten (map (Numpy.scale_row IMG_WIDTH IMG_HEIGHT) rows)).
  { intros camera Hc rec Hrec. apply full_parse_2d_spec in Hrec.
    destruct Hrec as (data & info & ann & rows & a & b & c & d & rest &
                      Hc' & Hi & Ha & Hp & W & Hlen & Hw & Hsplit & ->).
    cbn [stem content_2d] in *. rewrite (Hs camera Hc) in Hsplit.
    inversion Hsplit; subst. repeat split. exists rows. split; [|reflexivity].
    unfold raw_2d. now rewrite Ha. }
  split.
  - destruct (PreprocessFull.parse_2d_json
                {| stem := String.concat "_" [action; actor; camera1; frame];
                   content_2d := content |}) as [r1|] eqn:P1;
      destruct (PreprocessFull.parse_2d_json
                  {| stem := String.concat "_" [action; actor; camera2; frame];
                     content_2d := content |}) as [r2|] eqn:P2.
    + destruct (Hparse camera1 ltac:(assumption) r1 P1) as (A1 & B1 & C1 & rows1 & R1 & D1).
      destruct (Hparse camera2 ltac:(assumption) r2 P2) as (A2 & B2 & C2 & rows2 & R2 & D2).
      destruct r1, r2. simpl in *. subst. rewrite R1 in R2. inversion R2; subst. reflexivity.
    + exfalso. apply full_parse_2d_spec in P1.
      destruct P1 as (data & info & ann & rows & a & b & c & d & rest &
                      Hc' & Hi & Ha & Hp & W & Hlen & Hw & Hsplit & ->).
      cbn [stem content_2d] in *.
      enough (E : exists r, PreprocessFull.parse_2d_json
                    {| stem := String.concat "_" [action; actor; camera2; frame];
                       content_2d := content |} = Some r)
        by (destruct E as [r E]; rewrite E in P2; discriminate).
      eexists. apply full_parse_2d_spec.
      exists data, info, ann, rows, action, actor, camera2, frame, [].
      cbn [stem content_2d]. repeat split; try assumption; try reflexivity.
      now apply Hs.
    + exfalso. apply full_parse_2d_spec in P2.
      destruct P2 as (data & info & ann & rows & a & b & c & d & rest &
                      Hc' & Hi & Ha & Hp & W & Hlen & Hw & Hsplit & ->).
      cbn [stem content_2d] in *.
      enough (E : exists r, PreprocessFull.parse_2d_json
                    {| stem := String.concat "_" [action; actor; camera1; frame];
                       content_2d := content |} = Some r)
        by (destruct E as [r E]; rewrite E in P1; discriminate).
      eexists. apply full_parse_2d_spec.
      exists data, info, ann, rows, action, actor, camera1, frame, [].
      cbn [stem content_2d]. repeat split; try assumption; try reflexivity.
      now apply Hs.
    + reflexivity.
  - intros rec Hrec. destruct (Hparse camera1 ltac:(assumption) rec Hrec) as (A & B & C & _).
    now repeat split.
Qed.

(** X3 at cameras 1 and 3 of the same frame. *)
Lemma full_key_ignores_camera_witness :
  let file camera :=
    {| stem := String.concat "_" ["70"; "M180D"; camera; "0"]%string;
       content_2d := example_doc_2d (repeat [960; 540] 24) |} in
  PreprocessFull.parse_2d_json (file "1"%string) = PreprocessFull.parse_2d_json (file "3"%string) /\
  forall rec, PreprocessFull.parse_2d_json (file "1"%string) = Some rec ->
              PreprocessFull.action rec = "70"%string /\
              PreprocessFull.actor rec = "M180D"%string /\
              PreprocessFull.frame rec = "0"%string.
Proof.
  apply (full_key_ignores_camera "70" "M180D" "1" "3" "0"
           (example_doc_2d (repeat [960; 540] 24))).
  reflexivity.
Defined.

(** ** Keypoints, frames and samples of the fitness corpus *)

Lemma enumerate_from_keys {A : Type} (start : nat) (l : list A) :
  map fst (Fitness.enumerate_from start l) = l.
Proof.
  revert start. induction l as [|x l IH]; intros start; simpl; [reflexivity|].
  now rewrite IH.
Qed.

Lemma keypoint_of_cases (pts : Fitness.dict (option Fitness.pt)) (name : string) :
  (annotated pts name = true /\ snd (Fitness.keypoint_of pts name) = 1) \/
  (annotated pts name = false /\ Fitness.keypoint_of pts name = ((0, 0), 0)).
Proof.
  unfold annotated, Fitness.keypoint_of.
  destruct (Fitness.get pts name) as [[p|]|]; [|now right|now right].
  destruct (Fitness.pt_x p) as [[x|]|]; [|now right|now right].
  destruct (Fitness.pt_y p) as [[y|]|]; [now left|now right|now right].
Qed.

Lemma Rsum_visibility (pts : Fitness.dict (option Fitness.pt)) (names : list string) :
  Numpy.Rsum (map (fun n => snd (Fitness.keypoint_of pts n)) names)
  = INR (length (filter (annotated pts) names)).
Proof.
  induction names as [|n names IH]; [reflexivity|].
  cbn [map Numpy.Rsum fold_right filter].
  fold (Numpy.Rsum (map (fun n => snd (Fitness.keypoint_of pts n)) names)). rewrite IH.
  destruct (keypoint_of_cases pts n) as [[Ha Hv]|[Ha Hk]]; rewrite Ha.
  - rewrite Hv. cbn [length]. rewrite S_INR. ring.
  - rewrite Hk. cbn [snd]. ring.
Qed.

(** Shape and content of the arrays built by [parse_keypoints_from_pts]. *)
Lemma parse_keypoints_facts (pts : Fitness.dict (option Fitness.pt)) :
  let kp := Fitness.parse_keypoints_from_pts pts in
  skeleton_shaped kp /\
  (forall i name,
      nth_error Fitness.KEYPOINT_NAMES i = Some name ->
      (annotated pts name = true /\ nth i (Fitness.visibility kp) 0 = 1) \/
      (annotated pts name = false /\ nth i (Fitness.visibility kp) 0 = 0 /\
       nth i (Fitness.coordinates kp) (0, 0) = (0, 0))) /\
  Numpy.Rsum (Fitness.visibility kp)
  = INR (length (filter (annotated pts) Fitness.KEYPOINT_NAMES)) /\
  0 <= Numpy.Rsum (Fitness.visibility kp) <= 24.
Proof.
  cbv zeta. unfold Fitness.parse_keypoints_from_pts. cbn [Fitness.coordinates Fitness.visibility].
  rewrite !map_map.
  assert (Hc : map (fun x => fst (Fitness.keypoint_of pts (fst x))) Fitness.PTS_KEY_MAPPING
               = map (fun n => fst (Fitness.keypoint_of pts n)) Fitness.KEYPOINT_NAMES).
  { unfold Fitness.PTS_KEY_MAPPING.
    rewrite <- (enumerate_from_keys 0 Fitness.KEYPOINT_NAMES) at 2. now rewrite map_map. }
  assert (Hv : map (fun x => snd (Fitness.keypoint_of pts (fst x))) Fitness.PTS_KEY_MAPPING
               = map (fun n => snd (Fitness.keypoint_of pts n)) Fitness.KEYPOINT_NAMES).
  { unfold Fitness.PTS_KEY_MAPPING.
    rewrite <- (enumerate_from_keys 0 Fitness.KEYPOINT_NAMES) at 2. now rewrite map_map. }
  rewrite Hc, Hv. split; [|split; [|split]].
  - unfold skeleton_shaped. cbn [Fitness.coordinates Fitness.visibility].
    now rewrite !length_map.
  - intros i name Hi.
    assert (Hvi : nth i (map (fun n => snd (Fitness.keypoint_of pts n)) Fitness.KEYPOINT_NAMES) 0
                  = snd (Fitness.keypoint_of pts name)).
    { apply nth_error_nth. now rewrite nth_error_map, Hi. }
    assert (Hci : nth i (map (fun n => fst (Fitness.keypoint_of pts n)) Fitness.KEYPOINT_NAMES)
                      (0, 0) = fst (Fitness.keypoint_of pts name)).
    { apply nth_error_nth. now rewrite nth_error_map, Hi. }
    rewrite Hvi, Hci.
    destruct (keypoint_of_cases pts name) as [[Ha Hs]|[Ha Hk]]; [left|right].
    + now split.
    + rewrite Hk. now repeat split.
  - apply Rsum_visibility.
  - rewrite Rsum_visibility. split; [apply pos_INR|].
    replace 24 with (INR 24) by (rewrite INR_IZR_INZ; reflexivity).
    apply le_INR. etransitivity; [apply filter_length_le|]. reflexivity.
Qed.

(** X4: whatever the [pts] object holds, [parse_keypoints_from_pts]
    returns 24 coordinate rows and 24 visibility flags. The flag of a joint
    is 1 when the joint is annotated with two non-null coordinates and 0
    otherwise, in which case its row is the placeholder (0, 0); the flags sum
    to the number of annotated joints of the vocabulary, so keys outside the
    vocabulary count for nothing. *)
Theorem parse_keypoints_shape (pts : Fitness.dict (option Fitness.pt)) :
  let kp := Fitness.parse_keypoints_from_pts pts in
  skeleton_shaped kp /\
  (forall i name,
      nth_error Fitness.KEYPOINT_NAMES i = Some name ->
      (annotated pts name = true /\ nth i (Fitness.visibility kp) 0 = 1) \/
      (annotated pts name = false /\ nth i (Fitness.visibility kp) 0 = 0 /\
       nth i (Fitness.coordinates kp) (0, 0) = (0, 0))) /\
  Numpy.Rsum (Fitness.visibility kp)
  = INR (length (filter (annotated pts) Fitness.KEYPOINT_NAMES)) /\
  0 <= Numpy.Rsum (Fitness.visibility kp) <= 24.
Proof.
  intros. eapply parse_keypoints_facts; eassumption.
Qed.

Lemma parse_frame_fold (fr : Fitness.frame) (names : list string) (acc : Fitness.FrameData) :
  fold_left
    (fun acc view_name =>
       match Fitness.get fr view_name with
       | Some view_data =>
           match Fitness.pts view_data with
           | Some p =>
               if Fitness.str_eq_opt (Fitness.active view_data) "Yes" then
                 {| Fitness.keypoints :=
                      Fitness.keypoints acc ++ [(view_name, Fitness.parse_keypoints_from_pts p)];
                    Fitness.active_views := Fitness.active_views acc ++ [view_name] |}
               else acc
           | None => acc
           end
       | None => acc
       end) names acc
  = {| Fitness.keypoints :=
         Fitness.keypoints acc
         ++ map (fun v => (v, view_keypoints fr v)) (filter (view_is_active fr) names);
       Fitness.active_views :=
         Fitness.active_views acc ++ filter (view_is_active fr) names |}.
Proof.
  revert acc. induction names as [|v names IH]; intros acc.
  - simpl. rewrite !app_nil_r. now destruct acc.
  - cbn [fold_left filter]. rewrite IH.
    assert (Ha : view_is_active fr v
                 = match Fitness.get fr v with
                   | Some vd =>
                       match Fitness.pts vd with
                       | Some _ => Fitness.str_eq_opt (Fitness.active vd) "Yes"
                       | None => false
                       end
                   | None => false
                   end) by reflexivity.
    assert (Hk : view_keypoints fr v
                 = match Fitness.get fr v with
                   | Some vd =>
                       match Fitness.pts vd with
                       | Some p => Fitness.parse_keypoints_from_pts p
                       | None => Fitness.parse_keypoints_from_pts []
                       end
                   | None => Fitness.parse_keypoints_from_pts []
                   end) by reflexivity.
    destruct (Fitness.get fr v) as [vd|]; [|now rewrite Ha].
    destruct (Fitness.pts vd) as [p|]; [|now rewrite Ha].
    destruct (Fitness.str_eq_opt (Fitness.active vd) "Yes"); rewrite Ha; [|reflexivity].
    cbn [Fitness.keypoints Fitness.active_views map]. rewrite Hk.
    now rewrite <- !app_assoc.
Qed.

Lemma get_tabulated {A : Type} (f : string -> A) (names : list string) (v : string) :
  Fitness.get (map (fun n => (n, f n)) names) v
  = if Fitness.mem v names then Some (f v) else None.
Proof.
  unfold Fitness.get, Fitness.mem. induction names as [|n names IH]; [reflexivity|].
  cbn [map Fs.lookup existsb]. rewrite (String.eqb_sym v n).
  destruct (String.eqb_spec n v) as [->|Hne]; [reflexivity|exact IH].
Qed.

Lemma mem_In (v : string) (names : list string) : Fitness.mem v names = true <-> In v names.
Proof.
  unfold Fitness.mem. rewrite existsb_exists. split.
  - intros (x & Hin & Hx). apply String.eqb_eq in Hx. now subst.
  - intros Hin. exists v. split; [exact Hin|apply String.eqb_refl].
Qed.

Lemma view_names_nodup : NoDup Fitness.VIEW_NAMES.
Proof.
  unfold Fitness.VIEW_NAMES.
  repeat (constructor; [simpl; intros H; repeat (destruct H as [H|H]; [discriminate|]);
                        exact H|]).
  constructor.
Qed.

(** Views and keypoints of a parsed frame. *)
Lemma parse_frame_facts (fr : Fitness.frame) :
  let fd := Fitness.parse_frame fr in
  Fitness.active_views fd = filter (view_is_active fr) Fitness.VIEW_NAMES /\
  map fst (Fitness.keypoints fd) = Fitness.active_views fd /\
  NoDup (Fitness.active_views fd) /\
  forall v,
    (In v (Fitness.active_views fd) ->
     Fitness.get (Fitness.keypoints fd) v = Some (view_keypoints fr v) /\
     skeleton_shaped (view_keypoints fr v)) /\
    (~ In v (Fitness.active_views fd) -> Fitness.get (Fitness.keypoints fd) v = None).
Proof.
  cbv zeta. unfold Fitness.parse_frame. rewrite parse_frame_fold.
  cbn [Fitness.keypoints Fitness.active_views app].
  split; [reflexivity|]. split; [|split].
  - rewrite map_map. cbn [fst]. apply map_id.
  - apply NoDup_filter, view_names_nodup.
  - intros v. rewrite get_tabulated. split.
    + intros Hin. apply mem_In in Hin. rewrite Hin. split; [reflexivity|].
      unfold view_keypoints.
      destruct (Fitness.get fr v) as [vd|]; [destruct (Fitness.pts vd)|];
        apply parse_keypoints_facts.
    + intros Hin. destruct (Fitness.mem v _) eqn:E; [|reflexivity].
      apply mem_In in E. contradiction.
Qed.

(** X5: in the frame data returned by [parse_frame] the active views are
    the views among view1 .. view5 that are present, marked ["Yes"] and carry
    points, in that order and without repetition; the keys of [keypoints] are
    exactly these views, and each holds the 24-row arrays parsed from the
    points of its view. *)
Theorem parse_frame_views (fr : Fitness.frame) :
  let fd := Fitness.parse_frame fr in
  Fitness.active_views fd = filter (view_is_active fr) Fitness.VIEW_NAMES /\
  map fst (Fitness.keypoints fd) = Fitness.active_views fd /\
  NoDup (Fitness.active_views fd) /\
  forall v,
    (In v (Fitness.active_views fd) ->
     Fitness.get (Fitness.keypoints fd) v = Some (view_keypoints fr v) /\
     skeleton_shaped (view_keypoints fr v)) /\
    (~ In v (Fitness.active_views fd) -> Fitness.get (Fitness.keypoints fd) v = None).
Proof.
  intros. eapply parse_frame_facts; eassumption.
Qed.

Lemma lookup_In {A : Type} (k : string) (l : list (string * A)) (a : A) :
  Fs.lookup k l = Some a -> In (k, a) l.
Proof.
  induction l as [|[n b] l IH]; simpl; [discriminate|].
  destruct (String.eqb_spec n k) as [->|Hne].
  - intros H. inversion H. now left.
  - intros H. right. now apply IH.
Qed.

Lemma partial_match_In (name : string) (items : list (string * string)) (en : string) :
  Fitness.partial_match name items = Some en -> exists kr, In (kr, en) items.
Proof.
  induction items as [|[kr e] items IH]; simpl; [discriminate|].
  destruct (Fitness.contains kr name || Fitness.contains name kr).
  - intros H. inversion H; subst. exists kr. now left.
  - intros H. destruct (IH H) as [kr' Hin]. exists kr'. now right.
Qed.

(** Where the canonical name of an exercise comes from. *)
Lemma exercise_name_facts (korean_name : string) :
  (forall en, Fitness.get_english_exercise_name korean_name = Some en ->
              exists kr, In (kr, en) Fitness.EXERCISE_NAME_MAP /\
                         (kr = korean_name \/ Fitness.contains kr korean_name = true \/
                          Fitness.contains korean_name kr = true)) /\
  (Fitness.get_english_exercise_name korean_name = None <->
   forall kr en, In (kr, en) Fitness.EXERCISE_NAME_MAP ->
                 kr <> korean_name /\ Fitness.contains kr korean_name = false /\
                 Fitness.contains korean_name kr = false) /\
  (forall en, Fitness.get Fitness.EXERCISE_NAME_MAP korean_name = Some en ->
              Fitness.get_english_exercise_name korean_name = Some en).
Proof.
  assert (Hpm : forall items,
             (forall en, Fitness.partial_match korean_name items = Some en ->
                         exists kr, In (kr, en) items /\
                                    (Fitness.contains kr korean_name = true \/
                                     Fitness.contains korean_name kr = true)) /\
             (Fitness.partial_match korean_name items = None <->
              forall kr en, In (kr, en) items ->
                            Fitness.contains kr korean_name = false /\
                            Fitness.contains korean_name kr = false)).
  { induction items as [|[kr e] items [IH1 IH2]]; simpl.
    - split; [discriminate|]. split; [intros _ kr en []|reflexivity].
    - destruct (Fitness.contains kr korean_name) eqn:C1; simpl.
      + split.
        * intros en H. inversion H; subst. exists kr. split; [now left|now left].
        * split; [discriminate|]. intros H. destruct (H kr e (or_introl eq_refl)). congruence.
      + destruct (Fitness.contains korean_name kr) eqn:C2.
        * split.
          -- intros en H. inversion H; subst. exists kr. split; [now left|now right].
          -- split; [discriminate|]. intros H. destruct (H kr e (or_introl eq_refl)).
             congruence.
        * split.
          -- intros en H. destruct (IH1 en H) as (kr' & Hin & Hc). exists kr'.
             split; [now right|exact Hc].
          -- rewrite IH2. split.
             ++ intros H kr' en [E|Hin]; [inversion E; subst; now split|].
                exact (H kr' en Hin).
             ++ intros H kr' en Hin. apply (H kr' en). now right. }
  assert (Hself : forall s, Fitness.contains s s = true).
  { intros s.
    assert (P : String.prefix s s = true).
    { induction s as [|a s IH]; simpl; [reflexivity|].
      destruct (ascii_dec a a); [exact IH|congruence]. }
    destruct s; cbn [Fitness.contains]; now rewrite P. }
  unfold Fitness.get_english_exercise_name.
  destruct (Fitness.get Fitness.EXERCISE_NAME_MAP korean_name) as [en0|] eqn:G.
  - split; [|split].
    + intros en H. inversion H; subst. exists korean_name. split; [|now left].
      now apply lookup_In.
    + split; [discriminate|]. intros H. apply lookup_In in G.
      destruct (H _ _ G) as [Hne _]. congruence.
    + intros en H. exact H.
  - destruct (Hpm Fitness.EXERCISE_NAME_MAP) as [H1 H2]. split; [|split].
    + intros en H. destruct (H1 en H) as (kr & Hin & Hc). exists kr. split; [exact Hin|].
      now right.
    + rewrite H2. split.
      * intros H kr en Hin. destruct (H kr en Hin) as [C1 C2]. split; [|now split].
        intros ->. rewrite Hself in C1. discriminate.
      * intros H kr en Hin. destruct (H kr en Hin) as (_ & C1 & C2). now split.
    + discriminate.
Qed.

(** X6: the name returned by [get_english_exercise_name] is always a value
    of the synonym table; a name matched by no key, exactly or by
    containment either way, gives [None]; and a name that is itself a key
    gives the value stored under it. *)
Theorem exercise_name_from_table (korean_name : string) :
  (forall en, Fitness.get_english_exercise_name korean_name = Some en ->
              exists kr, In (kr, en) Fitness.EXERCISE_NAME_MAP /\
                         (kr = korean_name \/ Fitness.contains kr korean_name = true \/
                          Fitness.contains korean_name kr = true)) /\
  (Fitness.get_english_exercise_name korean_name = None <->
   forall kr en, In (kr, en) Fitness.EXERCISE_NAME_MAP ->
                 kr <> korean_name /\ Fitness.contains kr korean_name = false /\
                 Fitness.contains korean_name kr = false) /\
  (forall en, Fitness.get Fitness.EXERCISE_NAME_MAP korean_name = Some en ->
              Fitness.get_english_exercise_name korean_name = Some en).
Proof.
  intros. eapply exercise_name_facts; eassumption.
Qed.

Lemma parse_frame_usable (fr : Fitness.frame) :
  negb (Fitness.is_empty (Fitness.active_views (Fitness.parse_frame fr))) = frame_usable fr.
Proof.
  unfold frame_usable. now rewrite (proj1 (parse_frame_facts fr)).
Qed.

Lemma parsed_frames_filter (frs : list Fitness.frame) :
  filter (fun fd => negb (Fitness.is_empty (Fitness.active_views fd)))
         (map Fitness.parse_frame frs)
  = map Fitness.parse_frame (filter frame_usable frs).
Proof.
  induction frs as [|fr frs IH]; [reflexivity|]. cbn [map filter].
  rewrite parse_frame_usable, IH. now destruct (frame_usable fr).
Qed.

(** The shape of a call of [parse_json_file] on a readable file. *)
Lemma parse_json_file_unfold (json_name : string) (data : Fitness.document)
      (targets : option (list string)) :
  Fitness.parse_json_file json_name (Some data) targets
  = match Fitness.get_english_exercise_name (file_exercise_kr data) with
    | None => None
    | Some en =>
        if match targets with
           | Some t => negb (Fitness.mem en t)
           | None => false
           end
        then None
        else if Fitness.is_empty (filter frame_usable (file_frames data)) then None
             else Some {| Fitness.file_name := json_name;
                          Fitness.exercise_type := en;
                          Fitness.exercise_name := en;
                          Fitness.exercise_name_kr := file_exercise_kr data;
                          Fitness.pose_type :=
                            match Fitness.doc_type_info data with
                            | Some ti => Fitness.option_default "Unknown"%string (Fitness.pose ti)
                            | None => "Unknown"%string
                            end;
                          Fitness.sample_conditions := file_conditions (Some data);
                          Fitness.is_correct :=
                            Fitness.derive_is_correct (file_conditions (Some data));
                          Fitness.frames :=
                            map Fitness.parse_frame (filter frame_usable (file_frames data)) |}
    end.
Proof.
  unfold Fitness.parse_json_file, file_exercise_kr, file_frames, file_conditions.
  rewrite parsed_frames_filter.
  destruct (Fitness.doc_type_info data) as [ti|]; cbn [Fitness.option_default Fitness.exercise
    Fitness.pose Fitness.conditions].
  - destruct (Fitness.get_english_exercise_name _); [|reflexivity].
    destruct (match targets with Some _ => _ | None => _ end); [reflexivity|].
    destruct (filter frame_usable _); reflexivity.
  - destruct (Fitness.get_english_exercise_name _); [|reflexivity].
    destruct (match targets with Some _ => _ | None => _ end); [reflexivity|].
    destruct (filter frame_usable _); reflexivity.
Qed.

(** What a returned sample holds. *)
Lemma parse_json_file_facts (json_name : string) (f : option Fitness.document)
        (targets : option (list string)) (s : Fitness.SampleData) :
  Fitness.parse_json_file json_name f targets = Some s ->
  Fitness.file_name s = json_name /\
  Fitness.exercise_type s = Fitness.exercise_name s /\
  (exists kr, In (kr, Fitness.exercise_type s) Fitness.EXERCISE_NAME_MAP) /\
  (forall t, targets = Some t -> In (Fitness.exercise_type s) t) /\
  Fitness.frames s <> [] /\
  (forall fd, In fd (Fitness.frames s) -> Fitness.active_views fd <> []) /\
  exists data, f = Some data /\
    Fitness.frames s = map Fitness.parse_frame (filter frame_usable (file_frames data)) /\
    (length (Fitness.frames s) <= length (file_frames data))%nat.
Proof.
  destruct f as [data|]; [|discriminate]. rewrite parse_json_file_unfold.
  destruct (Fitness.get_english_exercise_name (file_exercise_kr data)) as [en|] eqn:G;
    [|discriminate].
  destruct targets as [t|].
  - destruct (Fitness.mem en t) eqn:M; cbn [negb]; [|discriminate].
    destruct (filter frame_usable (file_frames data)) as [|fr frs] eqn:F; [discriminate|].
    cbn [Fitness.is_empty]. intros H. inversion H; subst; clear H.
    cbn [Fitness.file_name Fitness.exercise_type Fitness.exercise_name Fitness.frames].
    split; [reflexivity|]. split; [reflexivity|]. split.
    { destruct (proj1 (exercise_name_facts _) en G) as (kr & Hin & _). now exists kr. }
    split. { intros t' E. inversion E; subst. now apply mem_In. }
    split; [discriminate|]. split.
    { intros fd Hin.
      change (In fd (map Fitness.parse_frame (fr :: frs))) in Hin.
      apply in_map_iff in Hin. destruct Hin as (fr' & <- & Hin).
      rewrite <- F in Hin. apply filter_In in Hin. destruct Hin as [_ Hu].
      rewrite <- parse_frame_usable in Hu. now destruct (Fitness.active_views _). }
    exists data. split; [reflexivity|]. rewrite F. split; [reflexivity|].
    change (length (map Fitness.parse_frame (fr :: frs)) <= length (file_frames data))%nat.
    rewrite length_map, <- F. apply filter_length_le.
  - destruct (filter frame_usable (file_frames data)) as [|fr frs] eqn:F; [discriminate|].
    cbn [Fitness.is_empty]. intros H. inversion H; subst; clear H.
    cbn [Fitness.file_name Fitness.exercise_type Fitness.exercise_name Fitness.frames].
    split; [reflexivity|]. split; [reflexivity|]. split.
    { destruct (proj1 (exercise_name_facts _) en G) as (kr & Hin & _). now exists kr. }
    split; [discriminate|]. split; [discriminate|]. split.
    { intros fd Hin.
      change (In fd (map Fitness.parse_frame (fr :: frs))) in Hin.
      apply in_map_iff in Hin. destruct Hin as (fr' & <- & Hin).
      rewrite <- F in Hin. apply filter_In in Hin. destruct Hin as [_ Hu].
      rewrite <- parse_frame_usable in Hu. now destruct (Fitness.active_views _). }
    exists data. split; [reflexivity|]. rewrite F. split; [reflexivity|].
    change (length (map Fitness.parse_frame (fr :: frs)) <= length (file_frames data))%nat.
    rewrite length_map, <- F. apply filter_length_le.
Qed.

(** X7: a sample returned by [parse_json_file] carries the file name it was
    given and a canonical exercise name that is a value of the synonym table
    and, when a target list is given, one of the targets; its frames are the
    parsed frames of the file that have at least one active view, in file
    order, and there is at least one. *)
Theorem parse_json_file_sample (json_name : string) (f : option Fitness.document)
        (targets : option (list string)) (s : Fitness.SampleData) :
  Fitness.parse_json_file json_name f targets = Some s ->
  Fitness.file_name s = json_name /\
  Fitness.exercise_type s = Fitness.exercise_name s /\
  (exists kr, In (kr, Fitness.exercise_type s) Fitness.EXERCISE_NAME_MAP) /\
  (forall t, targets = Some t -> In (Fitness.exercise_type s) t) /\
  Fitness.frames s <> [] /\
  (forall fd, In fd (Fitness.frames s) -> Fitness.active_views fd <> []) /\
  exists data, f = Some data /\
    Fitness.frames s = map Fitness.parse_frame (filter frame_usable (file_frames data)) /\
    (length (Fitness.frames s) <= length (file_frames data))%nat.
Proof.
  intros. eapply parse_json_file_facts; eassumption.
Qed.

(** X7 at the squat file of the examples. *)
Lemma parse_json_file_sample_witness :
  exists s,
    Fitness.parse_json_file "D15-1-001.json" (example_fitness_doc [cond_of true])
                            (Some Fitness.TARGET_EXERCISES) = Some s /\
    Fitness.file_name s = "D15-1-001.json"%string /\
    Fitness.exercise_type s = Fitness.exercise_name s /\
    (exists kr, In (kr, Fitness.exercise_type s) Fitness.EXERCISE_NAME_MAP) /\
    (forall t, Some Fitness.TARGET_EXERCISES = Some t -> In (Fitness.exercise_type s) t) /\
    Fitness.frames s <> [] /\
    (forall fd, In fd (Fitness.frames s) -> Fitness.active_views fd <> []) /\
    exists data, example_fitness_doc [cond_of true] = Some data /\
      Fitness.frames s = map Fitness.parse_frame (filter frame_usable (file_frames data)) /\
      (length (Fitness.frames s) <= length (file_frames data))%nat.
Proof.
  eexists.
  assert (P : Fitness.parse_json_file "D15-1-001.json" (example_fitness_doc [cond_of true])
                (Some Fitness.TARGET_EXERCISES) = Some _) by reflexivity.
  split; [exact P|]. exact (parse_json_file_sample _ _ _ _ P).
Defined.

(** X8: [parse_json_file] returns no sample exactly when the file cannot be
    read, or its exercise name has no canonical name, or that name is not
    among the targets, or no frame has an active view. A file without the
    [exercise] key is read as ["Unknown"], which the table does not map, and
    is therefore skipped. *)
Theorem parse_json_file_rejects_exactly (json_name : string) (f : option Fitness.document)
        (targets : option (list string)) :
  (Fitness.parse_json_file json_name f targets = None <->
   f = None \/
   exists data, f = Some data /\
     (Fitness.get_english_exercise_name (file_exercise_kr data) = None \/
      (exists en t, Fitness.get_english_exercise_name (file_exercise_kr data) = Some en /\
                    targets = Some t /\ ~ In en t) \/
      (forall fr, In fr (file_frames data) -> frame_usable fr = false))) /\
  (forall data, f = Some data ->
     (forall ti, Fitness.doc_type_info data = Some ti -> Fitness.exercise ti = None) ->
     Fitness.parse_json_file json_name f targets = None).
Proof.
  assert (Hempty : forall frs : list Fitness.frame,
             Fitness.is_empty (filter frame_usable frs) = true <->
             forall fr, In fr frs -> frame_usable fr = false).
  { intros frs. induction frs as [|fr frs IH]; simpl.
    - split; [intros _ fr []|reflexivity].
    - destruct (frame_usable fr) eqn:U; simpl.
      + split; [discriminate|]. intros H. specialize (H fr (or_introl eq_refl)). congruence.
      + rewrite IH. split.
        * intros H fr' [<-|Hin]; [exact U|now apply H].
        * intros H fr' Hin. apply H. now right. }
  split.
  - destruct f as [data|]; [|split; [now left|reflexivity]].
    rewrite parse_json_file_unfold. split.
    + intros H. right. exists data. split; [reflexivity|].
      destruct (Fitness.get_english_exercise_name (file_exercise_kr data)) as [en|];
        [|now left].
      right. destruct targets as [t|].
      * destruct (Fitness.mem en t) eqn:M; cbn [negb] in H.
        -- right. apply Hempty.
           now destruct (Fitness.is_empty (filter frame_usable (file_frames data))).
        -- left. exists en, t. repeat split. intros Hin. apply mem_In in Hin. congruence.
      * right. apply Hempty.
        now destruct (Fitness.is_empty (filter frame_usable (file_frames data))).
    + intros [H|(data' & E & H)]; [discriminate|]. inversion E; subst data'; clear E.
      destruct H as [G|[(en & t & G & -> & Hn)|Hf]].
      * now rewrite G.
      * rewrite G. destruct (Fitness.mem en t) eqn:M; [|reflexivity].
        apply mem_In in M. contradiction.
      * apply Hempty in Hf. rewrite Hf.
        destruct (Fitness.get_english_exercise_name (file_exercise_kr data)); [|reflexivity].
        now destruct (match targets with Some _ => _ | None => _ end).
  - intros data -> Hmissing. rewrite parse_json_file_unfold.
    assert (E : file_exercise_kr data = "Unknown"%string).
    { unfold file_exercise_kr. destruct (Fitness.doc_type_info data) as [ti|]; [|reflexivity].
      now rewrite (Hmissing ti eq_refl). }
    rewrite E. reflexivity.
Qed.

(** ** Shape and fixed points of the coordinate normalization *)

Lemma mask_assign_length {A : Type} (a : list A) (mask : list bool) (values : list A) :
  length (Numpy.mask_assign a mask values) = length a.
Proof.
  revert mask values. induction a as [|x a IH]; intros [|b mask] values; simpl; try reflexivity.
  destruct b; [destruct values|]; simpl; now rewrite IH.
Qed.

Lemma mask_select_mismatch {A : Type} (a : list A) (mask : list bool) :
  length a <> length mask -> Numpy.mask_select a mask = None.
Proof.
  intros H. destruct (Numpy.mask_select a mask) as [sel|] eqn:E; [|reflexivity].
  apply mask_select_length in E. contradiction.
Qed.

(** Selecting under the mask right after writing under it gives back what
    was written. *)
Lemma mask_select_update {A : Type} (f : A -> A) (a : list A) (mask : list bool)
      (sel : list A) :
  Numpy.mask_select a mask = Some sel ->
  Numpy.mask_select (Numpy.mask_assign a mask (map f sel)) mask = Some (map f sel).
Proof.
  revert mask sel. induction a as [|x a IH]; intros [|b mask] sel H; simpl in *;
    try discriminate.
  - now inversion H.
  - destruct (Numpy.mask_select a mask) as [r|] eqn:E; [|discriminate].
    inversion H; subst; clear H. destruct b; simpl; now rewrite (IH mask r E).
Qed.

(** Writing back the selected rows changes nothing. *)
Lemma mask_assign_selected {A : Type} (a : list A) (mask : list bool) (sel : list A) :
  Numpy.mask_select a mask = Some sel -> Numpy.mask_assign a mask sel = a.
Proof.
  revert mask sel. induction a as [|x a IH]; intros [|b mask] sel H; simpl in *;
    try discriminate; [reflexivity|].
  destruct (Numpy.mask_select a mask) as [r|] eqn:E; [|discriminate].
  inversion H; subst; clear H. destruct b; now rewrite (IH mask r E).
Qed.

Lemma fold_left_Rmin_map (g : R -> R) (t : list R) (x : R) :
  (forall a b, a <= b -> g a <= g b) ->
  fold_left Rmin (map g t) (g x) = g (fold_left Rmin t x).
Proof.
  intros Hmono. revert x. induction t as [|z t IH]; intros x; simpl; [reflexivity|].
  rewrite <- IH. f_equal. unfold Rmin.
  destruct (Rle_dec x z) as [H|H]; destruct (Rle_dec (g x) (g z)) as [H'|H'];
    try reflexivity.
  - exfalso. apply H'. now apply Hmono.
  - assert (g z <= g x) by (apply Hmono; lra). lra.
Qed.

Lemma fold_left_Rmax_map (g : R -> R) (t : list R) (x : R) :
  (forall a b, a <= b -> g a <= g b) ->
  fold_left Rmax (map g t) (g x) = g (fold_left Rmax t x).
Proof.
  intros Hmono. revert x. induction t as [|z t IH]; intros x; simpl; [reflexivity|].
  rewrite <- IH. f_equal. unfold Rmax.
  destruct (Rle_dec x z) as [H|H]; destruct (Rle_dec (g x) (g z)) as [H'|H'];
    try reflexivity.
  - exfalso. apply H'. now apply Hmono.
  - assert (g z <= g x) by (apply Hmono; lra). lra.
Qed.

Lemma amin_map (g : R -> R) (l : list R) :
  l <> [] -> (forall a b, a <= b -> g a <= g b) ->
  Numpy.amin (map g l) = g (Numpy.amin l).
Proof.
  destruct l as [|x t]; [congruence|]. intros _ Hmono. simpl.
  now apply fold_left_Rmin_map.
Qed.

Lemma amax_map (g : R -> R) (l : list R) :
  l <> [] -> (forall a b, a <= b -> g a <= g b) ->
  Numpy.amax (map g l) = g (Numpy.amax l).
Proof.
  destruct l as [|x t]; [congruence|]. intros _ Hmono. simpl.
  now apply fold_left_Rmax_map.
Qed.

Lemma amin_le_amax (l : list R) : l <> [] -> Numpy.amin l <= Numpy.amax l.
Proof.
  destruct l as [|x t]; [congruence|]. intros _.
  apply Rle_trans with x; [apply amin_le|apply amax_ge]; now left.
Qed.

Lemma shift_scale_monotone (mn r : R) :
  0 < r -> forall a b, a <= b -> (a - mn) / r <= (b - mn) / r.
Proof.
  intros Hr a b Hab. unfold Rdiv. apply Rmult_le_compat_r; [|lra].
  left. now apply Rinv_0_lt_compat.
Qed.

(** After one pass the minimum of an axis is 0 and its extent is 1 or 0, so
    that the range used by a second pass is 1. *)
Lemma bbox_axis_after (l : list R) :
  l <> [] ->
  let g := fun x => (x - Numpy.amin l) / Fitness.safe_range (Numpy.amax l - Numpy.amin l) in
  Numpy.amin (map g l) = 0 /\
  Fitness.safe_range (Numpy.amax (map g l) - Numpy.amin (map g l)) = 1.
Proof.
  intros Hne g.
  pose proof (safe_range_positive (Numpy.amax l - Numpy.amin l)) as Hr.
  assert (Hmono : forall a b, a <= b -> g a <= g b).
  { intros a b. apply shift_scale_monotone. lra. }
  rewrite (amin_map g l Hne Hmono), (amax_map g l Hne Hmono).
  assert (Hmin : g (Numpy.amin l) = 0).
  { unfold g. unfold Rdiv. ring. }
  split; [exact Hmin|]. rewrite Hmin.
  pose proof (amin_le_amax l Hne) as Hle.
  destruct (Rgt_dec (Numpy.amax l - Numpy.amin l) 0) as [Hpos|Hzero].
  - assert (Hmax : g (Numpy.amax l) = 1).
    { unfold g. rewrite (safe_range_extent _ Hpos). field. lra. }
    rewrite Hmax. rewrite safe_range_extent; lra.
  - assert (Hmax : g (Numpy.amax l) = 0).
    { unfold g. replace (Numpy.amax l - Numpy.amin l) with 0 by lra.
      unfold Rdiv. ring. }
    rewrite Hmax. apply safe_range_zero_extent. lra.
Qed.

Lemma bbox_transform_idempotent (sel : list Fitness.point) :
  bbox_rows (bbox_rows sel) = bbox_rows sel.
Proof.
  destruct sel as [|p0 sel0]; [reflexivity|].
  set (sel := p0 :: sel0).
  assert (Hx : map fst sel <> []) by discriminate.
  assert (Hy : map snd sel <> []) by discriminate.
  destruct (bbox_axis_after (map fst sel) Hx) as [Hminx Hrx].
  destruct (bbox_axis_after (map snd sel) Hy) as [Hminy Hry].
  cbv zeta in Hminx, Hrx, Hminy, Hry. rewrite map_map in Hminx, Hrx, Hminy, Hry.
  set (out := bbox_rows sel).
  assert (Ax : Numpy.amin (map fst out) = 0).
  { unfold out, bbox_rows. rewrite map_map. exact Hminx. }
  assert (Ay : Numpy.amin (map snd out) = 0).
  { unfold out, bbox_rows. rewrite map_map. exact Hminy. }
  assert (Bx : Fitness.safe_range (Numpy.amax (map fst out) - Numpy.amin (map fst out)) = 1).
  { unfold out, bbox_rows. rewrite map_map. exact Hrx. }
  assert (By : Fitness.safe_range (Numpy.amax (map snd out) - Numpy.amin (map snd out)) = 1).
  { unfold out, bbox_rows. rewrite map_map. exact Hry. }
  unfold bbox_rows at 1. rewrite Bx, By, Ax, Ay.
  rewrite <- (map_id out) at 2. apply map_ext. intros [x y].
  unfold bbox_point. cbn [fst snd]. f_equal; field.
Qed.

Lemma Rltb_false (x y : R) : Numpy.Rltb x y = false <-> ~ x < y.
Proof. unfold Numpy.Rltb. destruct (Rlt_dec x y); split; intros; try easy. Qed.

Lemma Rltb_true (x y : R) : Numpy.Rltb x y = true <-> x < y.
Proof. unfold Numpy.Rltb. destruct (Rlt_dec x y); split; intros; try easy. Qed.

Lemma scale_floor_positive : 0 < Fitness.SCALE_FLOOR.
Proof. unfold Fitness.SCALE_FLOOR. lra. Qed.

Lemma hip_scale_positive (lh rh : Fitness.point) : 0 < hip_scale lh rh.
Proof.
  unfold hip_scale. pose proof scale_floor_positive.
  destruct (Numpy.Rltb _ _) eqn:E; [lra|]. apply Rltb_false in E. lra.
Qed.

Lemma hip_transform_rows (lh rh : Fitness.point) (l : list Fitness.point) :
  Fitness.hip_transform lh rh l = map (hip_row lh rh) l.
Proof. reflexivity. Qed.

Lemma norm_div (a b s : R) :
  0 < s -> Fitness.norm (a / s, b / s) = Fitness.norm (a, b) / s.
Proof.
  intros Hs. unfold Fitness.norm. cbn [fst snd].
  replace (a / s * (a / s) + b / s * (b / s)) with ((a * a + b * b) / (s * s))
    by (field; lra).
  rewrite sqrt_div_alt by nra. now rewrite sqrt_square by lra.
Qed.

(** The normalized hips are symmetric about the origin, at distance
    [d / scale] of each other. *)
Lemma hip_rows_of_hips (lh rh : Fitness.point) :
  (fst (hip_row lh rh lh) + fst (hip_row lh rh rh)) / 2 = 0 /\
  (snd (hip_row lh rh lh) + snd (hip_row lh rh rh)) / 2 = 0 /\
  Fitness.norm (Fitness.sub (hip_row lh rh rh) (hip_row lh rh lh))
  = Fitness.norm (Fitness.sub rh lh) / hip_scale lh rh.
Proof.
  pose proof (hip_scale_positive lh rh) as Hs.
  unfold hip_row. cbn [fst snd]. split; [field; lra|]. split; [field; lra|].
  unfold Fitness.sub at 1. cbn [fst snd].
  replace ((fst rh - (fst lh + fst rh) / 2) / hip_scale lh rh
           - (fst lh - (fst lh + fst rh) / 2) / hip_scale lh rh)
    with ((fst rh - fst lh) / hip_scale lh rh) by (field; lra).
  replace ((snd rh - (snd lh + snd rh) / 2) / hip_scale lh rh
           - (snd lh - (snd lh + snd rh) / 2) / hip_scale lh rh)
    with ((snd rh - snd lh) / hip_scale lh rh) by (field; lra).
  rewrite norm_div by exact Hs. reflexivity.
Qed.

(** A second hip-center pass finds the center at the origin and a scale of
    1: it is the identity. *)
Lemma hip_scale_after (lh rh : Fitness.point) :
  hip_scale (hip_row lh rh lh) (hip_row lh rh rh) = 1.
Proof.
  destruct (hip_rows_of_hips lh rh) as (_ & _ & Hn).
  unfold hip_scale at 1. rewrite Hn. unfold hip_scale.
  pose proof scale_floor_positive as Hf. unfold Fitness.SCALE_FLOOR in *.
  destruct (Numpy.Rltb (Fitness.norm (Fitness.sub rh lh)) (1 / 1000000)) eqn:E.
  - replace (Fitness.norm (Fitness.sub rh lh) / 1) with (Fitness.norm (Fitness.sub rh lh))
      by (unfold Rdiv; rewrite Rinv_1; ring).
    now rewrite E.
  - apply Rltb_false in E.
    replace (Fitness.norm (Fitness.sub rh lh) / Fitness.norm (Fitness.sub rh lh)) with 1
      by (field; lra).
    assert (F : Numpy.Rltb 1 (1 / 1000000) = false) by (apply Rltb_false; lra).
    now rewrite F.
Qed.

Lemma hip_row_after (lh rh q : Fitness.point) :
  hip_row (hip_row lh rh lh) (hip_row lh rh rh) q = q.
Proof.
  destruct (hip_rows_of_hips lh rh) as (Hx & Hy & _).
  unfold hip_row at 1. rewrite hip_scale_after, Hx, Hy. destruct q as [x y].
  cbn [fst snd]. f_equal; field.
Qed.

(** The result of [normalize_coordinates] on 24 rows, branch by branch. *)
Lemma normalize_cases (coords : list Fitness.point) (vis : list R) (method : string) :
  length coords = 24%nat -> length vis = 24%nat ->
  exists sel,
    Numpy.mask_select coords (Fitness.visible_mask_of vis) = Some sel /\
    Fitness.normalize_coordinates coords vis method
    = Some (if negb (Fitness.any (Fitness.visible_mask_of vis)) then coords
            else if String.eqb method "bbox" then
                   Numpy.mask_assign coords (Fitness.visible_mask_of vis)
                                     (bbox_rows sel)
            else if String.eqb method "hip_center" then
                   if Numpy.Rgtb (nth 11 vis 0) 0 && Numpy.Rgtb (nth 12 vis 0) 0 then
                     Numpy.mask_assign coords (Fitness.visible_mask_of vis)
                       (Fitness.hip_transform (nth 11 coords (0, 0)) (nth 12 coords (0, 0)) sel)
                   else coords
            else coords).
Proof.
  intros Hc Hv.
  assert (Hmask : length coords = length (Fitness.visible_mask_of vis)).
  { unfold Fitness.visible_mask_of. rewrite length_map. congruence. }
  destruct (mask_select_defined coords _ Hmask) as [sel Hsel]. exists sel.
  split; [exact Hsel|]. unfold Fitness.normalize_coordinates.
  destruct (negb (Fitness.any (Fitness.visible_mask_of vis))); [reflexivity|].
  rewrite Hsel. rewrite bbox_transform_rows.
  destruct (String.eqb method "bbox"); [reflexivity|].
  destruct (String.eqb method "hip_center"); [|reflexivity].
  rewrite keypoint_index_left_hip, keypoint_index_right_hip.
  rewrite !(nth_error_nth' coords (0, 0)) by lia.
  rewrite !(nth_error_nth' vis 0) by lia.
  now destruct (Numpy.Rgtb (nth 11 vis 0) 0 && Numpy.Rgtb (nth 12 vis 0) 0).
Qed.

(** Shape of the output of [normalize_coordinates] on 24 rows. *)
Lemma normalize_shape_facts (coords : list Fitness.point) (vis : list R) (method : string) :
  length coords = 24%nat -> length vis = 24%nat ->
  exists out,
    Fitness.normalize_coordinates coords vis method = Some out /\
    length out = 24%nat /\
    (forall i, (i < 24)%nat -> ~ nth i vis 0 > 0 -> nth i out (0, 0) = nth i coords (0, 0)) /\
    (method <> "bbox"%string -> method <> "hip_center"%string -> out = coords).
Proof.
  intros Hc Hv. destruct (normalize_cases coords vis method Hc Hv) as (sel & Hsel & Hn).
  eexists. split; [exact Hn|].
  assert (Hlen : length coords = length vis) by congruence.
  assert (Hupd : forall f : Fitness.point -> Fitness.point,
             length (Numpy.mask_assign coords (Fitness.visible_mask_of vis) (map f sel))
             = 24%nat /\
             forall i, (i < 24)%nat -> ~ nth i vis 0 > 0 ->
               nth i (Numpy.mask_assign coords (Fitness.visible_mask_of vis) (map f sel)) (0, 0)
               = nth i coords (0, 0)).
  { intros f. split; [now rewrite mask_assign_length|].
    intros i Hi Hinv. rewrite (mask_assign_map_select f _ _ _ Hsel).
    rewrite masked_update_nth by (assumption || lia).
    apply Rgtb_false in Hinv. now rewrite Hinv. }
  destruct (negb (Fitness.any (Fitness.visible_mask_of vis))).
  { split; [exact Hc|]. split; [reflexivity|reflexivity]. }
  destruct (String.eqb_spec method "bbox") as [->|Hb].
  { unfold bbox_rows. destruct (Hupd (bbox_point
      (Numpy.amin (map fst sel)) (Numpy.amin (map snd sel))
      (Fitness.safe_range (Numpy.amax (map fst sel) - Numpy.amin (map fst sel)))
      (Fitness.safe_range (Numpy.amax (map snd sel) - Numpy.amin (map snd sel)))))
      as [H1 H2].
    split; [exact H1|]. split; [exact H2|]. congruence. }
  destruct (String.eqb_spec method "hip_center") as [->|Hh].
  { destruct (Numpy.Rgtb (nth 11 vis 0) 0 && Numpy.Rgtb (nth 12 vis 0) 0).
    - rewrite hip_transform_rows.
      destruct (Hupd (hip_row (nth 11 coords (0, 0)) (nth 12 coords (0, 0)))) as [H1 H2].
      split; [exact H1|]. split; [exact H2|]. congruence.
    - split; [exact Hc|]. split; reflexivity. }
  split; [exact Hc|]. split; reflexivity.
Qed.

(** X9: on 24 rows [normalize_coordinates] never fails and returns 24 rows,
    whatever the method string; rows of joints that are not visible are
    returned as they were; and a method other than ['bbox'] and
    ['hip_center'] returns every row as it was. *)
Theorem normalize_keeps_shape (coords : list Fitness.point) (vis : list R) (method : string) :
  length coords = 24%nat -> length vis = 24%nat ->
  exists out,
    Fitness.normalize_coordinates coords vis method = Some out /\
    length out = 24%nat /\
    (forall i, (i < 24)%nat -> ~ nth i vis 0 > 0 -> nth i out (0, 0) = nth i coords (0, 0)) /\
    (method <> "bbox"%string -> method <> "hip_center"%string -> out = coords).
Proof.
  intros. eapply normalize_shape_facts; eassumption.
Qed.

(** X9 at a pose with an unobserved joint and a method name the function
    does not know. *)
Lemma normalize_keeps_shape_witness :
  exists out,
    Fitness.normalize_coordinates example_coords example_vis "zscore" = Some out /\
    length out = 24%nat /\
    (forall i, (i < 24)%nat -> ~ nth i example_vis 0 > 0 ->
               nth i out (0, 0) = nth i example_coords (0, 0)) /\
    ("zscore"%string <> "bbox"%string -> "zscore"%string <> "hip_center"%string ->
     out = example_coords).
Proof.
  apply (normalize_keeps_shape example_coords example_vis "zscore"); reflexivity.
Defined.

(** X10: on 24 rows with both hips visible, hip-center normalization
    subtracts the midpoint of the hips from every visible row and divides by
    the distance between the hips, or by 1 when that distance is below 1e-6;
    rows that are not visible stay as they were. The normalized hips are
    symmetric about the origin and, when the distance was at least 1e-6, at
    distance 1 of each other. *)
Theorem hip_center_normalization (coords : list Fitness.point) (vis : list R) :
  length coords = 24%nat -> length vis = 24%nat ->
  nth 11 vis 0 > 0 -> nth 12 vis 0 > 0 ->
  let left_hip := nth 11 coords (0, 0) in
  let right_hip := nth 12 coords (0, 0) in
  exists out,
    Fitness.normalize_coordinates coords vis "hip_center" = Some out /\
    (forall i, (i < 24)%nat ->
       (nth i vis 0 > 0 -> nth i out (0, 0) = hip_row left_hip right_hip (nth i coords (0, 0))) /\
       (~ nth i vis 0 > 0 -> nth i out (0, 0) = nth i coords (0, 0))) /\
    (fst (nth 11 out (0, 0)) + fst (nth 12 out (0, 0))) / 2 = 0 /\
    (snd (nth 11 out (0, 0)) + snd (nth 12 out (0, 0))) / 2 = 0 /\
    (Fitness.SCALE_FLOOR <= Fitness.norm (Fitness.sub right_hip left_hip) ->
     Fitness.norm (Fitness.sub (nth 12 out (0, 0)) (nth 11 out (0, 0))) = 1).
Proof.
  intros Hc Hv V11 V12. cbv zeta.
  destruct (normalize_cases coords vis "hip_center" Hc Hv) as (sel & Hsel & Hn).
  assert (Hany : Fitness.any (Fitness.visible_mask_of vis) = true).
  { apply (any_visible vis 11); [lia|exact V11]. }
  rewrite Hany in Hn. cbn [negb] in Hn.
  change (String.eqb "hip_center" "bbox") with false in Hn.
  change (String.eqb "hip_center" "hip_center") with true in Hn. cbv iota in Hn.
  pose proof V11 as B11. pose proof V12 as B12.
  apply Rgtb_true in B11, B12. rewrite B11, B12 in Hn. cbn [andb] in Hn.
  rewrite hip_transform_rows, (mask_assign_map_select _ _ _ _ Hsel) in Hn.
  eexists. split; [exact Hn|].
  assert (Hrow : forall i, (i < 24)%nat ->
            nth i (map (fun xb : Fitness.point * bool =>
                          if snd xb
                          then hip_row (nth 11 coords (0, 0)) (nth 12 coords (0, 0)) (fst xb)
                          else fst xb)
                       (combine coords (Fitness.visible_mask_of vis))) (0, 0)
            = if Numpy.Rgtb (nth i vis 0) 0
              then hip_row (nth 11 coords (0, 0)) (nth 12 coords (0, 0)) (nth i coords (0, 0))
              else nth i coords (0, 0)).
  { intros i Hi. apply masked_update_nth; [congruence|lia]. }
  split.
  { intros i Hi. rewrite (Hrow i Hi). split.
    - intros Hvis. apply Rgtb_true in Hvis. now rewrite Hvis.
    - intros Hinv. apply Rgtb_false in Hinv. now rewrite Hinv. }
  rewrite (Hrow 11%nat), (Hrow 12%nat) by lia. rewrite B11, B12.
  destruct (hip_rows_of_hips (nth 11 coords (0, 0)) (nth 12 coords (0, 0))) as (Hx & Hy & Hd).
  split; [exact Hx|]. split; [exact Hy|].
  intros Hfloor. rewrite Hd. unfold hip_scale.
  assert (F : Numpy.Rltb (Fitness.norm (Fitness.sub (nth 12 coords (0, 0)) (nth 11 coords (0, 0))))
                         Fitness.SCALE_FLOOR = false) by (apply Rltb_false; lra).
  rewrite F. pose proof scale_floor_positive. field. lra.
Qed.

(** X10 at a pose with the hips at (100, 50) and (300, 50). *)
Lemma hip_center_normalization_witness :
  let left_hip := nth 11 example_coords (0, 0) in
  let right_hip := nth 12 example_coords (0, 0) in
  exists out,
    Fitness.normalize_coordinates example_coords example_vis "hip_center" = Some out /\
    (forall i, (i < 24)%nat ->
       (nth i example_vis 0 > 0 ->
        nth i out (0, 0) = hip_row left_hip right_hip (nth i example_coords (0, 0))) /\
       (~ nth i example_vis 0 > 0 -> nth i out (0, 0) = nth i example_coords (0, 0))) /\
    (fst (nth 11 out (0, 0)) + fst (nth 12 out (0, 0))) / 2 = 0 /\
    (snd (nth 11 out (0, 0)) + snd (nth 12 out (0, 0))) / 2 = 0 /\
    (Fitness.SCALE_FLOOR <= Fitness.norm (Fitness.sub right_hip left_hip) ->
     Fitness.norm (Fitness.sub (nth 12 out (0, 0)) (nth 11 out (0, 0))) = 1).
Proof.
  apply (hip_center_normalization example_coords example_vis).
  - reflexivity.
  - reflexivity.
  - simpl. lra.
  - simpl. lra.
Defined.

(** X11: in exact arithmetic [normalize_coordinates] is idempotent on 24
    rows: normalizing the output again, with the same visibility and the
    same method, returns the output. After a bbox pass the visible rows have
    minimum 0 and extent 1 or 0 on each axis; after a hip-center pass the hips
    have their midpoint at the origin and a scale of 1. *)
Theorem normalize_idempotent (coords out : list Fitness.point) (vis : list R)
        (method : string) :
  length coords = 24%nat -> length vis = 24%nat ->
  Fitness.normalize_coordinates coords vis method = Some out ->
  Fitness.normalize_coordinates out vis method = Some out.
Proof.
  intros Hc Hv Hout.
  destruct (normalize_shape_facts coords vis method Hc Hv) as (out' & Hout' & Hlen & _).
  rewrite Hout in Hout'. inversion Hout'; subst out'; clear Hout'.
  destruct (normalize_cases coords vis method Hc Hv) as (sel & Hsel & Hn).
  destruct (normalize_cases out vis method Hlen Hv) as (sel' & Hsel' & Hn').
  rewrite Hn'. rewrite Hout in Hn. inversion Hn as [Eout]; clear Hn Hn'.
  revert Eout.
  destruct (negb (Fitness.any (Fitness.visible_mask_of vis))); [reflexivity|].
  destruct (String.eqb method "bbox").
  { intros Eout.
    assert (Hs2 : Numpy.mask_select out (Fitness.visible_mask_of vis)
                  = Some (bbox_rows sel)).
    { rewrite Eout. unfold bbox_rows. now apply mask_select_update. }
    rewrite Hs2 in Hsel'. inversion Hsel'; subst sel'.
    rewrite bbox_transform_idempotent. f_equal. rewrite <- ?Eout.
    now apply mask_assign_selected. }
  destruct (String.eqb method "hip_center"); [|reflexivity].
  destruct (Numpy.Rgtb (nth 11 vis 0) 0) eqn:B11;
    destruct (Numpy.Rgtb (nth 12 vis 0) 0) eqn:B12; cbn [andb]; try reflexivity.
  set (lh := nth 11 coords (0, 0)). set (rh := nth 12 coords (0, 0)).
  rewrite hip_transform_rows. intros Eout.
  assert (Hs2 : Numpy.mask_select out (Fitness.visible_mask_of vis)
                = Some (map (hip_row lh rh) sel)).
  { rewrite Eout. now apply mask_select_update. }
  rewrite Hs2 in Hsel'. inversion Hsel'; subst sel'. rewrite <- ?Eout.
  assert (Hrow : forall i, (i < 24)%nat -> Numpy.Rgtb (nth i vis 0) 0 = true ->
                           nth i out (0, 0) = hip_row lh rh (nth i coords (0, 0))).
  { intros i Hi Hb. rewrite Eout, (mask_assign_map_select _ _ _ _ Hsel).
    rewrite masked_update_nth by (congruence || lia). now rewrite Hb. }
  rewrite (Hrow 11%nat) by (lia || assumption). rewrite (Hrow 12%nat) by (lia || assumption).
  fold lh rh. rewrite hip_transform_rows.
  rewrite (map_ext _ (fun q => q) (hip_row_after lh rh)), map_id.
  f_equal. rewrite <- ?Eout. now apply mask_assign_selected.
Qed.

(** X11 at the bbox normalization of the example pose. *)
Lemma normalize_idempotent_witness :
  exists out,
    Fitness.normalize_coordinates example_coords example_vis "bbox" = Some out /\
    Fitness.normalize_coordinates out example_vis "bbox" = Some out.
Proof.
  destruct (normalize_shape_facts example_coords example_vis "bbox" eq_refl eq_refl)
    as (out & Hout & _).
  exists out. split; [exact Hout|].
  exact (normalize_idempotent example_coords out example_vis "bbox" eq_refl eq_refl Hout).
Defined.

(** ** Range of the angles and size of the feature vector *)

(** X12: on arrays of 24 entries every one of the ten extracted angles lies
    in [0, pi], whatever the coordinates and the visibility. *)
Theorem joint_angles_in_range (coords : list Fitness.point) (vis : list R) :
  length coords = 24%nat -> length vis = 24%nat ->
  exists angles,
    Fitness.extract_joint_angles coords vis = Some angles /\
    length angles = 10%nat /\
    forall a, In a angles -> 0 <= a <= PI.
Proof.
  intros Hc Hv.
  destruct (extract_joint_angles_characterized coords vis Hc Hv) as (angles & Hex & Hlen & Hnth).
  exists angles. split; [exact Hex|]. split; [exact Hlen|].
  intros a Hin. destruct (In_nth angles a 0 Hin) as (k & Hk & <-).
  assert (Hd : exists d, nth_error Fitness.angle_definitions k = Some d).
  { destruct (nth_error Fitness.angle_definitions k) eqn:E; [eauto|].
    apply nth_error_None in E. simpl in E. lia. }
  destruct Hd as [[[[kp1 kp2] kp3] name] Hd].
  pose proof angle_definitions_resolved as R. rewrite forallb_forall in R.
  specialize (R _ (nth_error_In _ _ Hd)). unfold resolved in R.
  destruct (Fitness.keypoint_index kp1) as [i1|] eqn:K1; [|discriminate].
  destruct (Fitness.keypoint_index kp2) as [i2|] eqn:K2; [|discriminate].
  destruct (Fitness.keypoint_index kp3) as [i3|] eqn:K3; [|discriminate].
  rewrite (Hnth k kp1 kp2 kp3 name i1 i2 i3 Hd K1 K2 K3).
  destruct (visible3 vis i1 i2 i3).
  - unfold Fitness.calc_angle. apply acos_bound.
  - pose proof PI_RGT_0. lra.
Qed.

(** X12 at the example pose. *)
Lemma joint_angles_in_range_witness :
  exists angles,
    Fitness.extract_joint_angles example_coords example_vis = Some angles /\
    length angles = 10%nat /\
    forall a, In a angles -> 0 <= a <= PI.
Proof.
  apply (joint_angles_in_range example_coords example_vis); reflexivity.
Defined.

(** X13: the angle at a vertex does not depend on the order of the two end
    points nor on a common translation of the three points, and it is
    exactly pi/2 when the two arms are perpendicular, whatever their
    lengths. *)
Theorem calc_angle_geometry (p1 p2 p3 t : Fitness.point) :
  let shift p := (fst p + fst t, snd p + snd t) in
  Fitness.calc_angle p1 p2 p3 = Fitness.calc_angle p3 p2 p1 /\
  Fitness.calc_angle (shift p1) (shift p2) (shift p3) = Fitness.calc_angle p1 p2 p3 /\
  (Fitness.dot (Fitness.sub p1 p2) (Fitness.sub p3 p2) = 0 ->
   Fitness.calc_angle p1 p2 p3 = PI / 2).
Proof.
  cbv zeta. split; [|split].
  - unfold Fitness.calc_angle, Fitness.cos_angle. f_equal. f_equal.
    unfold Fitness.dot. f_equal; [ring|]. f_equal. ring.
  - unfold Fitness.calc_angle, Fitness.cos_angle.
    assert (S : forall p q : Fitness.point,
               Fitness.sub (fst p + fst t, snd p + snd t) (fst q + fst t, snd q + snd t)
               = Fitness.sub p q).
    { intros p q. unfold Fitness.sub. cbn [fst snd]. f_equal; ring. }
    now rewrite !S.
  - intros D. unfold Fitness.calc_angle, Fitness.cos_angle. rewrite D.
    unfold Rdiv. rewrite Rmult_0_l. rewrite clip_inside by lra. apply acos_0.
Qed.

(** X13 at a right angle with arms of lengths 3 and 4. *)
Lemma calc_angle_geometry_witness :
  Fitness.calc_angle (3, 0) (0, 0) (0, 4) = PI / 2.
Proof.
  apply (proj2 (proj2 (calc_angle_geometry (3, 0) (0, 0) (0, 4) (0, 0)))).
  unfold Fitness.dot, Fitness.sub. simpl. ring.
Defined.

Lemma flatten2_length (a : list Fitness.point) :
  length (Fitness.flatten2 a) = (2 * length a)%nat.
Proof.
  unfold Fitness.flatten2. induction a as [|p a IH]; simpl; [reflexivity|].
  rewrite IH. lia.
Qed.

(** The three feature vectors of one skeleton. *)
Lemma extract_features_facts (kp : Fitness.KeypointData) :
  skeleton_shaped kp ->
  exists coords angles,
    Fitness.normalize_coordinates (Fitness.coordinates kp) (Fitness.visibility kp) "bbox"
    = Some coords /\
    Fitness.extract_joint_angles coords (Fitness.visibility kp) = Some angles /\
    Fitness.extract_features kp "coordinates" = Some (Fitness.flatten2 coords) /\
    length (Fitness.flatten2 coords) = 48%nat /\
    Fitness.extract_features kp "angles" = Some angles /\
    length angles = 10%nat /\
    Fitness.extract_features kp "hybrid" = Some (Fitness.flatten2 coords ++ angles) /\
    length (Fitness.flatten2 coords ++ angles) = 58%nat /\
    forall feature_type,
      feature_type <> "coordinates"%string -> feature_type <> "angles"%string ->
      feature_type <> "hybrid"%string ->
      Fitness.extract_features kp feature_type = None.
Proof.
  intros [Hc Hv].
  destruct (normalize_shape_facts _ _ "bbox" Hc Hv) as (coords & Hn & Hlen & _).
  destruct (extract_joint_angles_characterized coords _ Hlen Hv) as (angles & Ha & Hla & _).
  exists coords, angles. unfold Fitness.extract_features. rewrite Hn, Ha.
  split; [reflexivity|]. split; [reflexivity|]. split; [reflexivity|].
  split; [rewrite flatten2_length, Hlen; reflexivity|].
  split; [reflexivity|]. split; [exact Hla|]. split; [reflexivity|].
  split; [rewrite length_app, flatten2_length, Hlen, Hla; reflexivity|].
  intros ft H1 H2 H3.
  destruct (String.eqb_spec ft "coordinates"); [contradiction|].
  destruct (String.eqb_spec ft "angles"); [contradiction|].
  destruct (String.eqb_spec ft "hybrid"); [contradiction|reflexivity].
Qed.

(** X14: for keypoint arrays of 24 entries [extract_features] returns 48
    numbers for ['coordinates'] (the flattened bbox-normalized rows), 10 for
    ['angles'] and 58 for ['hybrid'], the coordinates followed by the angles
    computed on the normalized rows; any other feature type raises. *)
Theorem extract_features_dimension (kp : Fitness.KeypointData) :
  skeleton_shaped kp ->
  exists coords angles,
    Fitness.normalize_coordinates (Fitness.coordinates kp) (Fitness.visibility kp) "bbox"
    = Some coords /\
    Fitness.extract_joint_angles coords (Fitness.visibility kp) = Some angles /\
    Fitness.extract_features kp "coordinates" = Some (Fitness.flatten2 coords) /\
    length (Fitness.flatten2 coords) = 48%nat /\
    Fitness.extract_features kp "angles" = Some angles /\
    length angles = 10%nat /\
    Fitness.extract_features kp "hybrid" = Some (Fitness.flatten2 coords ++ angles) /\
    length (Fitness.flatten2 coords ++ angles) = 58%nat /\
    forall feature_type,
      feature_type <> "coordinates"%string -> feature_type <> "angles"%string ->
      feature_type <> "hybrid"%string ->
      Fitness.extract_features kp feature_type = None.
Proof.
  intros. eapply extract_features_facts; eassumption.
Qed.

(** X14 at the keypoints parsed from the example view. *)
Lemma extract_features_dimension_witness :
  let kp := Fitness.parse_keypoints_from_pts
              (Fitness.option_default [] (Fitness.pts example_view)) in
  exists coords angles,
    Fitness.normalize_coordinates (Fitness.coordinates kp) (Fitness.visibility kp) "bbox"
    = Some coords /\
    Fitness.extract_joint_angles coords (Fitness.visibility kp) = Some angles /\
    Fitness.extract_features kp "coordinates" = Some (Fitness.flatten2 coords) /\
    length (Fitness.flatten2 coords) = 48%nat /\
    Fitness.extract_features kp "angles" = Some angles /\
    length angles = 10%nat /\
    Fitness.extract_features kp "hybrid" = Some (Fitness.flatten2 coords ++ angles) /\
    length (Fitness.flatten2 coords ++ angles) = 58%nat /\
    forall feature_type,
      feature_type <> "coordinates"%string -> feature_type <> "angles"%string ->
      feature_type <> "hybrid"%string ->
      Fitness.extract_features kp feature_type = None.
Proof.
  apply extract_features_dimension. split; reflexivity.
Defined.

(** ** The exercise id map *)

Lemma get_dict_set {A : Type} (d : Fitness.dict A) (k k' : string) (v : A) :
  Fitness.get (Fitness.dict_set d k v) k'
  = if String.eqb k k' then Some v else Fitness.get d k'.
Proof.
  unfold Fitness.get. induction d as [|[n a] d IH]; simpl.
  - reflexivity.
  - destruct (String.eqb_spec n k) as [->|Hne]; simpl.
    + now destruct (String.eqb k k').
    + rewrite IH. destruct (String.eqb_spec n k') as [->|Hne'].
      * destruct (String.eqb_spec k k') as [->|]; [congruence|reflexivity].
      * reflexivity.
Qed.

Lemma lookup_app {A : Type} (k : string) (l1 l2 : list (string * A)) :
  Fs.lookup k (l1 ++ l2)
  = match Fs.lookup k l1 with
    | Some v => Some v
    | None => Fs.lookup k l2
    end.
Proof.
  induction l1 as [|[n a] l1 IH]; simpl; [reflexivity|].
  now destruct (String.eqb n k).
Qed.

(** Reading a dictionary filled by successive assignments: the last
    assignment to the key wins. *)
Lemma get_after_assignments {A : Type} (l : list (string * A)) (d : Fitness.dict A)
      (k : string) :
  Fitness.get (fold_left (fun d entry => Fitness.dict_set d (fst entry) (snd entry)) l d) k
  = match Fs.lookup k (rev l) with
    | Some v => Some v
    | None => Fitness.get d k
    end.
Proof.
  revert d. induction l as [|[n a] l IH]; intros d; [reflexivity|].
  cbn [fold_left rev fst snd]. rewrite IH, lookup_app, get_dict_set. cbn [Fs.lookup].
  destruct (Fs.lookup k (rev l)); [reflexivity|]. now destruct (String.eqb n k).
Qed.

Lemma last_index_none (name : string) (names : list string) (start : nat) :
  Fs.lookup name (rev (Fitness.enumerate_from start names)) = None <-> ~ In name names.
Proof.
  revert start. induction names as [|n names IH]; intros start.
  - simpl. tauto.
  - cbn [Fitness.enumerate_from rev]. rewrite lookup_app. cbn [Fs.lookup].
    specialize (IH (S start)).
    destruct (Fs.lookup name (rev (Fitness.enumerate_from (S start) names))) as [v|].
    + split; [discriminate|]. intros H. exfalso. apply H. right.
      destruct (in_dec string_dec name names) as [Hin|Hn]; [exact Hin|].
      apply IH in Hn. discriminate.
    + destruct (String.eqb_spec n name) as [->|Hne].
      * split; [discriminate|]. intros H. exfalso. apply H. now left.
      * split; [|reflexivity]. intros _ [E|Hin]; [congruence|].
        now apply (proj1 IH).
Qed.

Lemma last_index_some (name : string) (names : list string) (start i : nat) :
  Fs.lookup name (rev (Fitness.enumerate_from start names)) = Some i ->
  (start <= i)%nat /\ nth_error names (i - start) = Some name /\
  forall j, (i - start < j)%nat -> nth_error names j <> Some name.
Proof.
  revert start. induction names as [|n names IH]; intros start; [discriminate|].
  cbn [Fitness.enumerate_from rev]. rewrite lookup_app. cbn [Fs.lookup].
  destruct (Fs.lookup name (rev (Fitness.enumerate_from (S start) names))) as [v|] eqn:E.
  - intros H. inversion H; subst v; clear H.
    destruct (IH (S start) E) as (Hle & Hnth & Hlast).
    split; [lia|]. split.
    + replace (i - start)%nat with (S (i - S start)) by lia. exact Hnth.
    + intros j Hj. destruct j as [|j]; [lia|]. cbn [nth_error]. apply Hlast. lia.
  - destruct (String.eqb_spec n name) as [->|Hne]; [|discriminate].
    intros H. inversion H; subst i; clear H.
    split; [lia|]. rewrite Nat.sub_diag. split; [reflexivity|].
    intros j Hj. destruct j as [|j]; [lia|]. cbn [nth_error]. intros Hn.
    apply last_index_none in E. apply E. eapply nth_error_In, Hn.
Qed.

(** X15: [create_exercise_id_map] gives every listed name an id, the
    position of its last occurrence in the list, and no id to any other name.
    For a list without repetition a name has the id [i] exactly when it is at
    position [i]: the ids are the positions 0 .. K-1, in the order of the
    list. *)
Theorem exercise_id_map_positions (exercise_names : list string) :
  (forall name i,
      Fitness.get (Fitness.create_exercise_id_map exercise_names) name = Some i ->
      nth_error exercise_names i = Some name /\ (i < length exercise_names)%nat /\
      forall j, (i < j)%nat -> nth_error exercise_names j <> Some name) /\
  (forall name, In name exercise_names <->
                exists i, Fitness.get (Fitness.create_exercise_id_map exercise_names) name
                          = Some i) /\
  (NoDup exercise_names ->
   forall name i,
     Fitness.get (Fitness.create_exercise_id_map exercise_names) name = Some i <->
     nth_error exercise_names i = Some name).
Proof.
  assert (Hget : forall name,
             Fitness.get (Fitness.create_exercise_id_map exercise_names) name
             = Fs.lookup name (rev (Fitness.enumerate_from 0 exercise_names))).
  { intros name. unfold Fitness.create_exercise_id_map. rewrite get_after_assignments.
    now destruct (Fs.lookup name _). }
  assert (H1 : forall name i,
             Fitness.get (Fitness.create_exercise_id_map exercise_names) name = Some i ->
             nth_error exercise_names i = Some name /\ (i < length exercise_names)%nat /\
             forall j, (i < j)%nat -> nth_error exercise_names j <> Some name).
  { intros name i H. rewrite Hget in H. apply last_index_some in H.
    destruct H as (_ & Hnth & Hlast). rewrite Nat.sub_0_r in Hnth.
    split; [exact Hnth|]. split.
    - apply nth_error_Some. congruence.
    - intros j Hj. apply Hlast. lia. }
  assert (H2 : forall name, In name exercise_names <->
                 exists i, Fitness.get (Fitness.create_exercise_id_map exercise_names) name
                           = Some i).
  { intros name. rewrite Hget. split.
    - intros Hin. destruct (Fs.lookup name _) as [i|] eqn:E; [eauto|].
      apply last_index_none in E. contradiction.
    - intros [i Hi]. destruct (in_dec string_dec name exercise_names) as [Hin|Hn];
        [exact Hin|]. apply (last_index_none name exercise_names 0) in Hn. congruence. }
  split; [exact H1|]. split; [exact H2|].
  intros Hnd name i. split; [intros H; now apply H1|].
  intros Hnth. destruct (proj1 (H2 name) (nth_error_In _ _ Hnth)) as [i' Hi'].
  destruct (H1 name i' Hi') as (Hnth' & Hlt & _).
  assert (i = i').
  { apply (proj1 (NoDup_nth_error exercise_names) Hnd); [|congruence].
    apply nth_error_Some. congruence. }
  now subst.
Qed.

(** X15 at the configured target list: "Squat" has id 0 and "Burpee Test"
    id 20. *)
Lemma exercise_id_map_positions_witness :
  Fitness.get (Fitness.create_exercise_id_map Fitness.TARGET_EXERCISES) "Squat" = Some 0%nat /\
  Fitness.get (Fitness.create_exercise_id_map Fitness.TARGET_EXERCISES) "Burpee Test"
  = Some 20%nat.
Proof.
  assert (Hnd : NoDup Fitness.TARGET_EXERCISES).
  { apply (NoDup_count_occ' string_dec). intros x Hin.
    repeat (destruct Hin as [<-|Hin]; [reflexivity|]). destruct Hin. }
  split; apply (proj2 (proj2 (exercise_id_map_positions Fitness.TARGET_EXERCISES)) Hnd);
    reflexivity.
Defined.

(** ** Assembly of the fitness dataset *)









Lemma same_width_of_dim (d : nat) (rows : list (list R)) :
  Forall (fun row => length row = d) rows -> Numpy.same_width rows = true.
Proof.
  intros H. destruct rows as [|r rows]; [reflexivity|]. simpl.
  inversion H as [|? ? Hr Hrows]; subst. apply forallb_forall. intros r' Hin.
  rewrite Forall_forall in Hrows. rewrite (Hrows r' Hin). apply Nat.eqb_refl.
Qed.






(** ** The matchers return files that exist *)

(** X18: a path returned by [find_matching_3d_file] names an existing file
    called [3D_{action}_{actor}_{frame}.json] in a directory listed under the
    3D root; a path returned by [get_3d_file_path] is the direct path, exists,
    and is also what [find_matching_3d_file] returns: the matcher of the
    full-data script finds nothing that the other one misses. *)
Theorem matchers_sound (r : Fs.root) (action actor frame : string) (p : Fs.path) :
  (Preprocess.find_matching_3d_file r action actor frame = Some p ->
   Fs.exists_file r p = true /\ snd p = Preprocess.pattern_3d action actor frame /\
   exists e, In (fst p, e) r) /\
  (PreprocessFull.get_3d_file_path r action actor frame = Some p ->
   p = (underscore action actor, Preprocess.pattern_3d action actor frame) /\
   Fs.exists_file r p = true /\
   Preprocess.find_matching_3d_file r action actor frame = Some p).
Proof.
  assert (Hentry : forall q, Fs.exists_file r q = true -> exists e, In (fst q, e) r).
  { intros q. unfold Fs.exists_file. destruct (Fs.lookup (fst q) r) as [e|] eqn:E;
      [|discriminate]. intros _. exists e. now apply lookup_In. }
  split.
  - unfold Preprocess.find_matching_3d_file.
    destruct (Fs.exists_entry r (underscore action actor)
              && Fs.exists_file r (underscore action actor,
                                   Preprocess.pattern_3d action actor frame)) eqn:D.
    + intros H. inversion H; subst; clear H. apply andb_true_iff in D. destruct D as [_ D].
      split; [exact D|]. split; [reflexivity|]. now apply Hentry.
    + rewrite scan_folders_first.
      destruct (find _ r) as [[folder e]|] eqn:F; [|discriminate]. cbn [option_map fst].
      intros H. inversion H; subst; clear H. apply find_some in F. destruct F as [Hin Hp].
      unfold holds_pattern in Hp. cbn [fst snd] in Hp. apply andb_true_iff in Hp.
      destruct Hp as [_ Hp]. split; [exact Hp|]. split; [reflexivity|]. now exists e.
  - unfold PreprocessFull.get_3d_file_path.
    destruct (Fs.exists_file r (underscore action actor,
                                Preprocess.pattern_3d action actor frame)) eqn:D;
      [|discriminate].
    intros H. inversion H; subst; clear H. split; [reflexivity|]. split; [exact D|].
    unfold Preprocess.find_matching_3d_file. rewrite D.
    pose proof (exists_file_entry _ _ D) as He. cbn [fst] in He. now rewrite He.
Qed.

(** X18 at the example root. *)
Lemma matchers_sound_witness :
  Fs.exists_file example_root (underscore "70" "M180D", Preprocess.pattern_3d "70" "M180D" "0")
  = true /\
  Preprocess.find_matching_3d_file example_root "70" "M180D" "0"
  = Some (underscore "70" "M180D", Preprocess.pattern_3d "70" "M180D" "0").
Proof.
  destruct (proj2 (matchers_sound example_root "70" "M180D" "0"
                     (underscore "70" "M180D", Preprocess.pattern_3d "70" "M180D" "0"))
                  eq_refl) as (_ & H1 & H2).
  split; [exact H1|exact H2].
Defined.

(** ** The two forms of a 3D joint *)

Lemma full_parse_3d_by_raw (f : file_content) :
  PreprocessFull.parse_3d_json f
  = match raw_3d f with
    | None => None
    | Some raw =>
        match traverse PreprocessFull.joint_xyz raw with
        | None => None
        | Some coords =>
            if Nat.eqb (length coords) NUM_JOINTS
            then Some {| PreprocessFull.coords_3d :=
                           Numpy.flatten3 (PreprocessFull.normalize_3d coords) |}
            else None
        end
    end.
Proof.
  unfold PreprocessFull.parse_3d_json, PreprocessFull.parse_3d_body, raw_3d.
  destruct f as [data|]; [|reflexivity]. cbn [bind_raise].
  destruct (Json.doc_annotations data) as [ann|]; [|reflexivity]. cbn [bind_raise].
  destruct (Json.pos_3d ann) as [raw|]; [|reflexivity]. cbn [bind_raise].
  destruct (traverse PreprocessFull.joint_xyz raw) as [coords|]; [|reflexivity].
  cbn [bind_raise]. now destruct (Nat.eqb (length coords) NUM_JOINTS).
Qed.

(** X19: [parse_3d_json] of [preprocess_full.py] reads the nested form
    [[x], [y], [z], [1.0]] and the flat form [x, y, z, 1.0] of the joints
    alike: for 24 joints both give the record of the centered and scaled
    coordinates, for another number both give no record. [parse_3d_json] of
    [preprocess.py] raises on a file in the flat form. *)
Theorem full_parse_3d_reads_both_forms (f : file_content) (pts : list Numpy.vec3) :
  raw_3d f = Some (map nested_form pts) \/ raw_3d f = Some (map flat_form pts) ->
  PreprocessFull.parse_3d_json f
  = (if Nat.eqb (length pts) 24
     then Some {| PreprocessFull.coords_3d :=
                    Numpy.flatten3 (Numpy.center_scale3 (Numpy.mean3 pts) 1000 pts) |}
     else None) /\
  (raw_3d f = Some (map flat_form pts) -> pts <> [] ->
   Preprocess.parse_3d_json f = Raised).
Proof.
  intros Hraw. split.
  - rewrite full_parse_3d_by_raw.
    assert (Hn : traverse PreprocessFull.joint_xyz (map nested_form pts) = Some pts).
    { rewrite traverse_map. rewrite (traverse_total _ (fun p => p)); [now rewrite map_id|].
      intros [[x y] z]. reflexivity. }
    assert (Hf : traverse PreprocessFull.joint_xyz (map flat_form pts) = Some pts).
    { rewrite traverse_map. rewrite (traverse_total _ (fun p => p)); [now rewrite map_id|].
      intros [[x y] z]. reflexivity. }
    destruct Hraw as [-> | ->]; [rewrite Hn|rewrite Hf]; reflexivity.
  - intros Hflat Hne. unfold Preprocess.parse_3d_json. unfold raw_3d in Hflat.
    destruct f as [data|]; [|reflexivity]. cbn [bind_raise].
    destruct (Json.doc_info data); [|reflexivity]. cbn [bind_raise].
    destruct (Json.doc_annotations data) as [ann|]; [|reflexivity]. cbn [bind_raise].
    rewrite Hflat. cbn [bind_raise].
    destruct pts as [|p pts]; [congruence|]. reflexivity.
Qed.

(** X19 at 24 joints in the flat form. *)
Lemma full_parse_3d_reads_both_forms_witness :
  let f := example_doc_3d (map flat_form (repeat (1, 2, 3) 24)) in
  PreprocessFull.parse_3d_json f
  = Some {| PreprocessFull.coords_3d :=
              Numpy.flatten3 (Numpy.center_scale3 (Numpy.mean3 (repeat (1, 2, 3) 24)) 1000
                                                  (repeat (1, 2, 3) 24)) |} /\
  Preprocess.parse_3d_json f = Raised.
Proof.
  cbv zeta.
  destruct (full_parse_3d_reads_both_forms
              (example_doc_3d (map flat_form (repeat (1, 2, 3) 24))) (repeat (1, 2, 3) 24))
    as [H1 H2]; [now right|].
  split; [exact H1|]. apply H2; [reflexivity|discriminate].
Defined.

(** ** Fixed-frame normalization of the 2D pixels *)

Lemma same_width_pixel_rows (pts : list (R * R)) :
  Numpy.same_width (map pixel_row pts) = true.
Proof.
  apply (same_width_of_dim 2). apply Forall_map, Forall_forall. intros p _. reflexivity.
Qed.

Lemma flatten_scaled_pixels (pts : list (R * R)) :
  Numpy.flatten (map (Numpy.scale_row IMG_WIDTH IMG_HEIGHT) (map pixel_row pts))
  = flat_map (fun p => [fst p / 1920; snd p / 1080]) pts.
Proof.
  unfold Numpy.flatten. induction pts as [|p pts IH]; [reflexivity|].
  cbn [map concat flat_map]. now rewrite IH.
Qed.

(** X20: on a file with its identity keys and a non-empty list of [x, y]
    pixel rows, [parse_2d_json] of [preprocess.py] returns the identity it
    read and, for each joint in order, [x / 1920] and [y / 1080]. A pixel
    inside the 1920 x 1080 frame lands in the unit square; nothing is
    clamped, so a pixel right of the frame gets an abscissa above 1. *)
Theorem preprocess_parse_2d_scales (data : Json.document) (info : Json.info)
        (ann : Json.annotations) (pts : list (R * R)) (action actor camera frame : string) :
  Json.doc_info data = Some info -> Json.doc_annotations data = Some ann ->
  Json.pos_2d ann = Some (map pixel_row pts) -> pts <> [] ->
  Json.action_category_id info = Some action -> Json.actor_id info = Some actor ->
  Json.camera_no info = Some camera -> Json.frame_no ann = Some frame ->
  Preprocess.parse_2d_json (Some data)
  = Returned {| Preprocess.action_id := action; Preprocess.actor_id := actor;
                Preprocess.camera_no := camera; Preprocess.frame_no := frame;
                Preprocess.coords_2d :=
                  flat_map (fun p => [fst p / 1920; snd p / 1080]) pts |} /\
  (forall p, In p pts -> 0 <= fst p <= 1920 -> 0 <= snd p <= 1080 ->
             0 <= fst p / 1920 <= 1 /\ 0 <= snd p / 1080 <= 1) /\
  (forall p, In p pts -> 1920 < fst p -> 1 < fst p / 1920).
Proof.
  intros Hi Ha Hp Hne Hac Hat Hcam Hfr. split; [|split].
  - unfold Preprocess.parse_2d_json. cbn [bind_raise]. rewrite Hi. cbn [bind_raise].
    rewrite Ha. cbn [bind_raise]. rewrite Hp. cbn [bind_raise].
    unfold Numpy.array2. rewrite same_width_pixel_rows. cbn [bind_raise].
    destruct pts as [|p pts]; [congruence|].
    change (Numpy.width (map pixel_row (p :: pts))) with (Some 2%nat).
    cbn [bind_raise Nat.leb]. rewrite Hac, Hat, Hcam, Hfr. cbn [bind_raise].
    now rewrite flatten_scaled_pixels.
  - intros p _ Hx Hy. split; lra.
  - intros p _ Hx. lra.
Qed.

(** X20 at the 24 joints of a pose at the center of the frame: every joint
    becomes (960 / 1920, 540 / 1080). *)
Lemma preprocess_parse_2d_scales_witness :
  Preprocess.parse_2d_json (example_doc_2d (map pixel_row (repeat (960, 540) 24)))
  = Returned {| Preprocess.action_id := "70"; Preprocess.actor_id := "M180D";
                Preprocess.camera_no := "3"; Preprocess.frame_no := "0";
                Preprocess.coords_2d :=
                  flat_map (fun p => [fst p / 1920; snd p / 1080])
                           (repeat (960, 540) 24) |}.
Proof.
  refine (proj1 (preprocess_parse_2d_scales _ _ _ (repeat (960, 540) 24)
                   "70" "M180D" "3" "0" _ _ _ _ _ _ _ _));
    try reflexivity.
  discriminate.
Defined.

(** ** The loop and the 80/20 split of [preprocess.py] *)

Lemma preprocess_step_counts (r : Fs.root) (acc : Preprocess.accumulator) (f : file_2d) :
  let acc' := Preprocess.step r acc f in
  (length (Preprocess.data_2d acc') - length (Preprocess.data_2d acc) <= 1)%nat /\
  forall k,
    Preprocess.matched_count acc = (k + length (Preprocess.data_2d acc))%nat ->
    length (Preprocess.data_3d acc) = length (Preprocess.data_2d acc) ->
    length (Preprocess.data_rot acc) = length (Preprocess.data_2d acc) ->
    Preprocess.matched_count acc' = (k + length (Preprocess.data_2d acc'))%nat /\
    length (Preprocess.data_3d acc') = length (Preprocess.data_2d acc') /\
    length (Preprocess.data_rot acc') = length (Preprocess.data_2d acc').
Proof.
  cbv zeta. unfold Preprocess.step.
  destruct (Preprocess.parse_2d_json (content_2d f)) as [p2| |];
    try (split; [lia|intros k; tauto]).
  destruct (Preprocess.find_matching_3d_file _ _ _ _) as [p|];
    try (split; [lia|intros k; tauto]).
  destruct (Preprocess.parse_3d_json _) as [p3| |];
    try (split; [lia|intros k; tauto]).
  cbn [Preprocess.data_2d Preprocess.data_3d Preprocess.data_rot Preprocess.matched_count].
  rewrite !length_app. cbn [length]. split; [lia|]. intros k H1 H2 H3. lia.
Qed.

(** X21: at the end of the loop of [preprocess_data] the three data lists
    hold one row each per matched pair, [matched_count] of them, and there
    are at most as many as there were 2D files; a file that raises or has no
    3D counterpart adds to none of them. *)
Theorem preprocess_loop_aligned (r : Fs.root) (files : list file_2d) :
  let acc := Preprocess.preprocess_data r files in
  Preprocess.matched_count acc = length (Preprocess.data_2d acc) /\
  length (Preprocess.data_3d acc) = length (Preprocess.data_2d acc) /\
  length (Preprocess.data_rot acc) = length (Preprocess.data_2d acc) /\
  (Preprocess.matched_count acc <= length files)%nat.
Proof.
  cbv zeta. unfold Preprocess.preprocess_data.
  assert (H : forall acc,
             Preprocess.matched_count acc = length (Preprocess.data_2d acc) ->
             length (Preprocess.data_3d acc) = length (Preprocess.data_2d acc) ->
             length (Preprocess.data_rot acc) = length (Preprocess.data_2d acc) ->
             let acc' := fold_left (Preprocess.step r) files acc in
             Preprocess.matched_count acc' = length (Preprocess.data_2d acc') /\
             length (Preprocess.data_3d acc') = length (Preprocess.data_2d acc') /\
             length (Preprocess.data_rot acc') = length (Preprocess.data_2d acc') /\
             (length (Preprocess.data_2d acc')
              <= length (Preprocess.data_2d acc) + length files)%nat).
  { induction files as [|f files IH]; intros acc H1 H2 H3; cbv zeta.
    - simpl. repeat split; try assumption. lia.
    - cbn [fold_left length].
      destruct (preprocess_step_counts r acc f) as [Hle Hstep]. cbv zeta in Hle, Hstep.
      destruct (Hstep 0%nat H1 H2 H3) as (S1 & S2 & S3).
      destruct (IH (Preprocess.step r acc f) S1 S2 S3) as (I1 & I2 & I3 & I4).
      repeat split; try assumption. lia. }
  destruct (H Preprocess.initial eq_refl eq_refl eq_refl) as (H1 & H2 & H3 & H4).
  cbv zeta in *. repeat split; try assumption. rewrite H1. simpl in H4. exact H4.
Qed.

Lemma split_idx_of_div (n : nat) :
  PreprocessSplit.split_idx_of n = (8 * Z.of_nat n / 10)%Z.
Proof.
  unfold PreprocessSplit.split_idx_of, Fitness.py_int. cbn [Qnum Qden Qmult inject_Z].
  change (Z.pos (1 * 10)) with 10%Z.
  rewrite Z.quot_div_nonneg by lia. f_equal. lia.
Qed.

Lemma split_idx_of_bounds (n : nat) :
  (0 < n)%nat -> (0 <= PreprocessSplit.split_idx_of n < Z.of_nat n)%Z.
Proof.
  intros Hn. rewrite split_idx_of_div.
  pose proof (Z.div_mod (8 * Z.of_nat n) 10 ltac:(lia)) as Hdm.
  pose proof (Z.mod_pos_bound (8 * Z.of_nat n) 10 ltac:(lia)) as Hm. lia.
Qed.

Lemma take_rows_two_parts {A : Type} (rows : list A) (idx1 idx2 : list nat) :
  (forall i, In i (idx1 ++ idx2) -> (i < length rows)%nat) ->
  exists r1 r2,
    Fitness.take_rows A rows idx1 = Some r1 /\ Fitness.take_rows A rows idx2 = Some r2 /\
    Fitness.take_rows A rows (idx1 ++ idx2) = Some (r1 ++ r2) /\
    length r1 = length idx1 /\ length r2 = length idx2.
Proof.
  intros Hrange.
  assert (Hdef : forall idx, (forall i, In i idx -> (i < length rows)%nat) ->
                             exists rs, traverse (nth_error rows) idx = Some rs).
  { intros idx H. apply traverse_defined. intros i Hi.
    destruct (nth_error rows i) eqn:E; [eauto|].
    apply nth_error_None in E. specialize (H i Hi). lia. }
  destruct (Hdef idx1) as [r1 H1]; [intros i Hi; apply Hrange, in_or_app; now left|].
  destruct (Hdef idx2) as [r2 H2]; [intros i Hi; apply Hrange, in_or_app; now right|].
  exists r1, r2. unfold Fitness.take_rows. rewrite traverse_app, H1, H2.
  repeat split. - exact (traverse_length _ _ _ H1). - exact (traverse_length _ _ _ H2).
Qed.

Section FinishSplit.

Variable permutation : Z -> nat -> list nat.

(** The generator returns a permutation of the indices [0 .. n-1]. *)
Hypothesis permutation_permutes : forall seed n, Permutation (seq 0 n) (permutation seed n).

(** X22: when the loop has matched [n >= 1] pairs whose rows have one
    length per list, the end of [preprocess_data] returns six arrays: the
    training part holds [8 n / 10] rows (rounded down), the validation part
    the others, at least one; in each of the three lists, training rows
    followed by validation rows are the rows of the list in the order of the
    seeded permutation, so the three lists stay aligned row by row. *)
Theorem finish_splits_80_20 (acc : Preprocess.accumulator) (n : nat) :
  Preprocess.matched_count acc = n -> (0 < n)%nat ->
  length (Preprocess.data_2d acc) = n -> length (Preprocess.data_3d acc) = n ->
  length (Preprocess.data_rot acc) = n ->
  Numpy.same_width (Preprocess.data_2d acc) = true ->
  Numpy.same_width (Preprocess.data_3d acc) = true ->
  Numpy.same_width (Preprocess.data_rot acc) = true ->
  exists a,
    PreprocessSplit.finish permutation acc = Returned a /\
    Z.of_nat (length (PreprocessSplit.X_train a)) = (8 * Z.of_nat n / 10)%Z /\
    (length (PreprocessSplit.X_train a) + length (PreprocessSplit.X_val a) = n)%nat /\
    (1 <= length (PreprocessSplit.X_val a))%nat /\
    length (PreprocessSplit.Y_train a) = length (PreprocessSplit.X_train a) /\
    length (PreprocessSplit.R_train a) = length (PreprocessSplit.X_train a) /\
    length (PreprocessSplit.Y_val a) = length (PreprocessSplit.X_val a) /\
    length (PreprocessSplit.R_val a) = length (PreprocessSplit.X_val a) /\
    Fitness.take_rows (list R) (Preprocess.data_2d acc) (permutation 42 n)
    = Some (PreprocessSplit.X_train a ++ PreprocessSplit.X_val a) /\
    Fitness.take_rows (list R) (Preprocess.data_3d acc) (permutation 42 n)
    = Some (PreprocessSplit.Y_train a ++ PreprocessSplit.Y_val a) /\
    Fitness.take_rows (list R) (Preprocess.data_rot acc) (permutation 42 n)
    = Some (PreprocessSplit.R_train a ++ PreprocessSplit.R_val a).
Proof.
  intros Hm Hn H2 H3 Hr W2 W3 Wr.
  pose proof (split_idx_of_bounds n Hn) as Hk. pose proof (split_idx_of_div n) as Hdiv.
  set (indices := permutation 42 n).
  assert (Hlen : length indices = n).
  { unfold indices. rewrite <- (Permutation_length (permutation_permutes 42 n)).
    apply length_seq. }
  assert (Hrange : forall i, In i indices -> (i < n)%nat).
  { intros i Hi. apply (Permutation_in _ (Permutation_sym (permutation_permutes 42 n))) in Hi.
    apply in_seq in Hi. lia. }
  set (k := Z.to_nat (PreprocessSplit.split_idx_of n)).
  assert (Htrain : Fitness.slice indices None (Some (PreprocessSplit.split_idx_of n))
                   = firstn k indices) by (apply slice_prefix; rewrite Hlen; lia).
  assert (Hval : Fitness.slice indices (Some (PreprocessSplit.split_idx_of n)) None
                 = skipn k indices) by (apply slice_suffix; rewrite Hlen; lia).
  assert (Hparts : forall rows : list (list R), length rows = n ->
            exists r1 r2,
              Fitness.take_rows (list R) rows (firstn k indices) = Some r1 /\
              Fitness.take_rows (list R) rows (skipn k indices) = Some r2 /\
              Fitness.take_rows (list R) rows indices = Some (r1 ++ r2) /\
              length r1 = k /\ length r2 = (n - k)%nat).
  { intros rows Hrows.
    destruct (take_rows_two_parts rows (firstn k indices) (skipn k indices))
      as (r1 & r2 & E1 & E2 & E12 & L1 & L2).
    { rewrite firstn_skipn. intros i Hi. rewrite Hrows. now apply Hrange. }
    exists r1, r2. rewrite firstn_skipn in E12. repeat split; try assumption.
    - rewrite L1, length_firstn. unfold k. lia.
    - rewrite L2, length_skipn. unfold k. lia. }
  destruct (Hparts _ H2) as (xt & xv & X1 & X2 & X12 & LX1 & LX2).
  destruct (Hparts _ H3) as (yt & yv & Y1 & Y2 & Y12 & LY1 & LY2).
  destruct (Hparts _ Hr) as (rt & rv & R1' & R2' & R12 & LR1 & LR2).
  exists {| PreprocessSplit.X_train := xt; PreprocessSplit.X_val := xv;
            PreprocessSplit.Y_train := yt; PreprocessSplit.Y_val := yv;
            PreprocessSplit.R_train := rt; PreprocessSplit.R_val := rv |}.
  cbn [PreprocessSplit.X_train PreprocessSplit.X_val PreprocessSplit.Y_train
       PreprocessSplit.Y_val PreprocessSplit.R_train PreprocessSplit.R_val].
  split.
  { unfold PreprocessSplit.finish. rewrite Hm.
    destruct (Nat.eqb_spec n 0) as [E|_]; [lia|].
    unfold Numpy.array2. rewrite W2, W3, Wr. cbn [bind_raise]. rewrite H2.
    fold indices. rewrite Htrain, Hval, X1, X2, Y1, Y2, R1', R2'. reflexivity. }
  split; [rewrite LX1; unfold k; lia|].
  split; [rewrite LX1, LX2; unfold k; lia|].
  split; [rewrite LX2; unfold k; lia|].
  repeat split; try congruence.
Qed.

End FinishSplit.

(** X22 at five matched pairs shuffled into reverse order: four training
    rows, one validation row. *)
Lemma finish_splits_80_20_witness :
  let acc := {| Preprocess.data_2d := repeat [1; 2] 5;
                Preprocess.data_3d := repeat [1; 2; 3] 5;
                Preprocess.data_rot := repeat [0; 0; 0] 5;
                Preprocess.matched_count := 5 |} in
  exists a,
    PreprocessSplit.finish (fun _ n => rev (seq 0 n)) acc = Returned a /\
    length (PreprocessSplit.X_train a) = 4%nat /\
    length (PreprocessSplit.X_val a) = 1%nat.
Proof.
  cbv zeta.
  destruct (finish_splits_80_20 (fun _ n => rev (seq 0 n))
              (fun _ n => Permutation_rev (seq 0 n))
              {| Preprocess.data_2d := repeat [1; 2] 5;
                 Preprocess.data_3d := repeat [1; 2; 3] 5;
                 Preprocess.data_rot := repeat [0; 0; 0] 5;
                 Preprocess.matched_count := 5 |} 5%nat
              eq_refl ltac:(lia) eq_refl eq_refl eq_refl eq_refl eq_refl eq_refl)
    as (a & Hfin & Hk & Hsum & _).
  exists a. split; [exact Hfin|].
  change (8 * Z.of_nat 5 / 10)%Z with 4%Z in Hk. lia.
Defined.

Lemma preprocess_step_rows (r : Fs.root) (acc : Preprocess.accumulator) (f : file_2d) :
  Preprocess.data_2d (Preprocess.step r acc f)
  = Preprocess.data_2d acc ++ matched_rows r [f].
Proof.
  unfold Preprocess.step, matched_rows, matched_row. cbn [flat_map].
  destruct (Preprocess.parse_2d_json (content_2d f)) as [p2| |];
    try (cbn [app]; now rewrite app_nil_r).
  destruct (Preprocess.find_matching_3d_file _ _ _ _) as [p|];
    try (cbn [app]; now rewrite app_nil_r).
  destruct (Preprocess.parse_3d_json _) as [p3| |];
    try (cbn [app]; now rewrite app_nil_r).
  reflexivity.
Qed.

Lemma preprocess_loop_rows (r : Fs.root) (files : list file_2d) :
  Preprocess.data_2d (Preprocess.preprocess_data r files) = matched_rows r files.
Proof.
  unfold Preprocess.preprocess_data.
  assert (H : forall acc,
             Preprocess.data_2d (fold_left (Preprocess.step r) files acc)
             = Preprocess.data_2d acc ++ matched_rows r files).
  { induction files as [|f files IH]; intros acc.
    - cbn [fold_left matched_rows flat_map]. now rewrite app_nil_r.
    - cbn [fold_left]. rewrite IH, preprocess_step_rows, <- app_assoc.
      unfold matched_rows. cbn [flat_map]. now rewrite app_nil_r. }
  now rewrite H.
Qed.

Lemma preprocess_step_count (r : Fs.root) (acc : Preprocess.accumulator) (f : file_2d) :
  Preprocess.matched_count (Preprocess.step r acc f)
  = (Preprocess.matched_count acc + length (matched_rows r [f]))%nat.
Proof.
  unfold Preprocess.step, matched_rows, matched_row. cbn [flat_map].
  destruct (Preprocess.parse_2d_json (content_2d f)) as [p2| |];
    try (cbn [app length]; lia).
  destruct (Preprocess.find_matching_3d_file _ _ _ _) as [p|];
    try (cbn [app length]; lia).
  destruct (Preprocess.parse_3d_json _) as [p3| |];
    try (cbn [app length]; lia).
  cbn [Preprocess.matched_count app length]. lia.
Qed.

Lemma preprocess_loop_count (r : Fs.root) (files : list file_2d) :
  Preprocess.matched_count (Preprocess.preprocess_data r files)
  = length (matched_rows r files).
Proof.
  unfold Preprocess.preprocess_data.
  assert (H : forall acc,
             Preprocess.matched_count (fold_left (Preprocess.step r) files acc)
             = (Preprocess.matched_count acc + length (matched_rows r files))%nat).
  { induction files as [|f files IH]; intros acc.
    - cbn [fold_left matched_rows flat_map length]. lia.
    - cbn [fold_left]. rewrite IH, preprocess_step_count.
      unfold matched_rows. cbn [flat_map]. rewrite app_nil_r, length_app. lia. }
  now rewrite H.
Qed.

Lemma matched_rows_In (r : Fs.root) (files : list file_2d) (f : file_2d) (row : list R) :
  In f files -> matched_row r f = Some row -> In row (matched_rows r files).
Proof.
  intros Hin Hrow. unfold matched_rows. apply in_flat_map. exists f. split; [exact Hin|].
  rewrite Hrow. now left.
Qed.

Lemma matched_rows_nil (r : Fs.root) (files : list file_2d) :
  matched_rows r files = [] <-> forall f, In f files -> matched_row r f = None.
Proof.
  unfold matched_rows. induction files as [|f files IH]; cbn [flat_map].
  - split; [intros _ f []|reflexivity].
  - split.
    + intros H. apply app_eq_nil in H. destruct H as [H1 H2].
      intros g [<-|Hg].
      * destruct (matched_row r f); [discriminate|reflexivity].
      * now apply (proj1 IH H2).
    + intros H. rewrite (H f (or_introl eq_refl)). cbn [app]. apply IH.
      intros g Hg. apply H. now right.
Qed.

Lemma same_width_ragged (rows : list (list R)) (a b : list R) :
  In a rows -> In b rows -> length a <> length b -> Numpy.same_width rows = false.
Proof.
  intros Ha Hb Hne. destruct (Numpy.same_width rows) eqn:W; [|reflexivity]. exfalso.
  destruct rows as [|r0 rest]; [destruct Ha|]. cbn [Numpy.same_width] in W.
  rewrite forallb_forall in W.
  assert (H : forall x, In x (r0 :: rest) -> length x = length r0).
  { intros x [<-|Hx]; [reflexivity|]. now apply Nat.eqb_eq, W. }
  apply Hne. now rewrite (H a Ha), (H b Hb).
Qed.

Lemma finish_none_iff (permutation : Z -> nat -> list nat) (acc : Preprocess.accumulator) :
  PreprocessSplit.finish permutation acc = ReturnedNone <-> Preprocess.matched_count acc = 0%nat.
Proof.
  unfold PreprocessSplit.finish.
  destruct (Nat.eqb_spec (Preprocess.matched_count acc) 0) as [E|E].
  - tauto.
  - split; [|intros H; contradiction].
    intros H. exfalso.
    repeat match type of H with
           | bind_raise ?o _ = _ => destruct o; cbn [bind_raise] in H
           | context [bind_raise ?o _] => destruct o; cbn [bind_raise] in H
           end; discriminate.
Qed.

Section PreprocessEnd.

Variable permutation : Z -> nat -> list nat.

(** X23: [preprocess.py] never checks the number of joints of a 2D file, so
    two matched files whose 2D rows differ in length make the conversion to
    an array raise after the loop: [preprocess_data] ends in an exception and
    saves nothing, wherever the two files stand in the list. *)
Theorem preprocess_data_raises_on_mixed_joint_counts
        (r : Fs.root) (files : list file_2d) (f1 f2 : file_2d) (row1 row2 : list R) :
  In f1 files -> In f2 files ->
  matched_row r f1 = Some row1 -> matched_row r f2 = Some row2 ->
  length row1 <> length row2 ->
  PreprocessSplit.preprocess_data permutation r files = Raised.
Proof.
  intros H1 H2 R1 R2 Hne.
  unfold PreprocessSplit.preprocess_data, PreprocessSplit.finish.
  rewrite preprocess_loop_count, preprocess_loop_rows.
  pose proof (matched_rows_In r files f1 row1 H1 R1) as I1.
  pose proof (matched_rows_In r files f2 row2 H2 R2) as I2.
  destruct (matched_rows r files) as [|row rows] eqn:E; [destruct I1|].
  cbn [length Nat.eqb]. unfold Numpy.array2.
  rewrite (same_width_ragged (row :: rows) row1 row2 I1 I2 Hne). reflexivity.
Qed.

(** X24: [preprocess_data] of [preprocess.py] takes its early [return],
    without building or saving any array, exactly when no 2D file of the
    collection is matched: each one either fails to parse, or has no 3D
    file for its key, or has one that fails to parse. *)
Theorem preprocess_data_returns_early_iff_nothing_matched
        (r : Fs.root) (files : list file_2d) :
  PreprocessSplit.preprocess_data permutation r files = ReturnedNone <->
  forall f, In f files -> matched_row r f = None.
Proof.
  unfold PreprocessSplit.preprocess_data.
  rewrite finish_none_iff, preprocess_loop_count, <- matched_rows_nil.
  destruct (matched_rows r files); cbn [length]; split; congruence.
Qed.

End PreprocessEnd.

(** X23 at a 24-joint file followed by a 23-joint file of the same key,
    both matched under [example_root]. *)
Lemma preprocess_data_raises_on_mixed_joint_counts_witness :
  PreprocessSplit.preprocess_data (fun _ n => seq 0 n) example_root
    [example_file_2d (repeat [960; 540] 24); example_file_2d (repeat [960; 540] 23)]
  = Raised.
Proof.
  eapply (preprocess_data_raises_on_mixed_joint_counts (fun _ n => seq 0 n) example_root _
            (example_file_2d (repeat [960; 540] 24))
            (example_file_2d (repeat [960; 540] 23))).
  - now left.
  - right. now left.
  - reflexivity.
  - reflexivity.
  - simpl. discriminate.
Defined.

(** ** Shape of the rows and sample limit of [preprocess_full.py] *)

Lemma scale_row_length (w h : R) (row : list R) :
  length (Numpy.scale_row w h row) = length row.
Proof. destruct row as [|x [|y rest]]; reflexivity. Qed.

Lemma flatten_length_of_dim (d : nat) (rows : list (list R)) :
  Forall (fun row => length row = d) rows ->
  length (Numpy.flatten rows) = (length rows * d)%nat.
Proof.
  unfold Numpy.flatten. induction 1 as [|row rows Hrow _ IH]; [reflexivity|].
  cbn [concat length]. rewrite length_app, IH, Hrow. lia.
Qed.

Lemma full_parse_2d_row_shape (file : file_2d) (rec : PreprocessFull.parsed_2d) :
  PreprocessFull.parse_2d_json file = Some rec ->
  exists w, (2 <= w)%nat /\ length (PreprocessFull.coords_2d rec) = (24 * w)%nat.
Proof.
  intros H. apply full_parse_2d_spec in H.
  destruct H as (data & info & ann & rows & a & b & c & d & rest
                 & _ & _ & _ & _ & W & L & Hw & _ & ->).
  cbn [PreprocessFull.coords_2d].
  destruct rows as [|r0 rows]; [discriminate|].
  exists (length r0). split; [apply Hw; now left|].
  rewrite (flatten_length_of_dim (length r0)).
  - now rewrite length_map, L.
  - apply Forall_map, Forall_forall. intros row Hin. rewrite scale_row_length.
    destruct Hin as [<-|Hin]; [reflexivity|].
    cbn [Numpy.same_width] in W. rewrite forallb_forall in W. now apply Nat.eqb_eq, W.
Qed.

Lemma full_parse_3d_row_shape (f : file_content) (rec : PreprocessFull.parsed_3d) :
  PreprocessFull.parse_3d_json f = Some rec ->
  length (PreprocessFull.coords_3d rec) = 72%nat.
Proof.
  rewrite full_parse_3d_by_raw.
  destruct (raw_3d f) as [raw|]; [|discriminate].
  destruct (traverse PreprocessFull.joint_xyz raw) as [coords|]; [|discriminate].
  destruct (Nat.eqb (length coords) NUM_JOINTS) eqn:E; [|discriminate].
  apply Nat.eqb_eq in E. intros H. inversion H; subst; clear H.
  cbn [PreprocessFull.coords_3d]. rewrite flatten3_length.
  unfold PreprocessFull.normalize_3d, Numpy.center_scale3. rewrite length_map, E. reflexivity.
Qed.

Lemma full_step_shapes (dir_3d : Fs.root) (t : PreprocessFull.tally) (f : file_2d) :
  Forall (fun row => length row = 72%nat) (PreprocessFull.data_3d t) ->
  Forall (fun row => exists w, (2 <= w)%nat /\ length row = (24 * w)%nat)
         (PreprocessFull.data_2d t) ->
  Forall (fun row => length row = 72%nat)
         (PreprocessFull.data_3d (PreprocessFull.step dir_3d t f)) /\
  Forall (fun row => exists w, (2 <= w)%nat /\ length row = (24 * w)%nat)
         (PreprocessFull.data_2d (PreprocessFull.step dir_3d t f)).
Proof.
  intros H3 H2. unfold PreprocessFull.step.
  destruct (PreprocessFull.parse_2d_json f) as [r2|] eqn:E2; [|now split].
  destruct (PreprocessFull.get_3d_file_path _ _ _ _) as [p|]; [|now split].
  destruct (PreprocessFull.parse_3d_json _) as [r3|] eqn:E3; [|now split].
  cbn [PreprocessFull.data_3d PreprocessFull.data_2d]. split.
  - apply Forall_app. split; [exact H3|]. constructor; [|constructor].
    exact (full_parse_3d_row_shape _ _ E3).
  - apply Forall_app. split; [exact H2|]. constructor; [|constructor].
    exact (full_parse_2d_row_shape _ _ E2).
Qed.

(** X25: whatever the input of [process_dataset] of [preprocess_full.py],
    every 3D row it collects has 72 numbers, so the final conversion of the
    3D rows to an array never meets ragged rows; every 2D row has 24 times
    the number of columns, at least two, of the 2D annotation it comes
    from. *)
Theorem process_dataset_row_shapes (dir_2d : option (list file_2d)) (dir_3d : option Fs.root)
        (max_samples : option nat) :
  let t := PreprocessFull.process_dataset dir_2d dir_3d max_samples in
  Forall (fun row => length row = 72%nat) (PreprocessFull.data_3d t) /\
  Numpy.array2 (PreprocessFull.data_3d t) = Some (PreprocessFull.data_3d t) /\
  Forall (fun row => exists w, (2 <= w)%nat /\ length row = (24 * w)%nat)
         (PreprocessFull.data_2d t).
Proof.
  cbv zeta.
  assert (H : Forall (fun row => length row = 72%nat)
                     (PreprocessFull.data_3d
                        (PreprocessFull.process_dataset dir_2d dir_3d max_samples)) /\
              Forall (fun row => exists w, (2 <= w)%nat /\ length row = (24 * w)%nat)
                     (PreprocessFull.data_2d
                        (PreprocessFull.process_dataset dir_2d dir_3d max_samples))).
  { unfold PreprocessFull.process_dataset.
    destruct dir_2d as [files|]; [|split; constructor].
    destruct dir_3d as [root|]; [|split; constructor].
    generalize (PreprocessFull.limit max_samples files). intros l.
    assert (G : forall t,
               Forall (fun row => length row = 72%nat) (PreprocessFull.data_3d t) ->
               Forall (fun row => exists w, (2 <= w)%nat /\ length row = (24 * w)%nat)
                      (PreprocessFull.data_2d t) ->
               Forall (fun row => length row = 72%nat)
                      (PreprocessFull.data_3d (fold_left (PreprocessFull.step root) l t)) /\
               Forall (fun row => exists w, (2 <= w)%nat /\ length row = (24 * w)%nat)
                      (PreprocessFull.data_2d (fold_left (PreprocessFull.step root) l t))).
    { induction l as [|f l IH]; intros t H3 H2; [now split|].
      cbn [fold_left]. destruct (full_step_shapes root t f H3 H2) as [S3 S2].
      now apply IH. }
    apply G; constructor. }
  destruct H as [H3 H2]. split; [exact H3|]. split; [|exact H2].
  unfold Numpy.array2. now rewrite (same_width_of_dim 72 _ H3).
Qed.

(** X26: the four counters of [process_dataset] account for every listed
    2D file when no sample limit is given, and for the first [n] of them, or
    all when there are fewer, under a limit [n >= 1]. A limit of 0 is read
    as no limit: the run is the run without limit. When the 2D or the 3D
    directory is missing, nothing is counted and nothing is collected. *)
Theorem process_dataset_sample_limit (files : list file_2d) (root : Fs.root) :
  files_counted (PreprocessFull.process_dataset (Some files) (Some root) None)
  = length files /\
  PreprocessFull.process_dataset (Some files) (Some root) (Some 0%nat)
  = PreprocessFull.process_dataset (Some files) (Some root) None /\
  (forall n,
      files_counted (PreprocessFull.process_dataset (Some files) (Some root) (Some (S n)))
      = Nat.min (S n) (length files) /\
      (PreprocessFull.matched
         (PreprocessFull.process_dataset (Some files) (Some root) (Some (S n))) <= S n)%nat) /\
  (forall m, PreprocessFull.process_dataset None (Some root) m = PreprocessFull.initial /\
             PreprocessFull.process_dataset (Some files) None m = PreprocessFull.initial).
Proof.
  assert (Hcount : forall l,
             files_counted (fold_left (PreprocessFull.step root) l PreprocessFull.initial)
             = length l).
  { intros l. unfold files_counted.
    destruct (full_loop_counts root l PreprocessFull.initial) as (H1 & H2 & H3 & H4 & _).
    cbv zeta in H1, H2, H3, H4. rewrite H1, H2, H3, H4.
    cbn [PreprocessFull.initial PreprocessFull.matched PreprocessFull.skipped_2d
         PreprocessFull.skipped_3d_not_found PreprocessFull.skipped_3d_parse plus].
    apply count_fate_total. }
  split; [apply Hcount|]. split; [reflexivity|]. split.
  - intros n. unfold PreprocessFull.process_dataset. cbn [PreprocessFull.limit].
    pose proof (Hcount (firstn (S n) files)) as Hc. rewrite length_firstn in Hc.
    split; [exact Hc|]. unfold files_counted in Hc. lia.
  - intros m. split; reflexivity.
Qed.
